(** * Thorlabs CCS100 spectrometer adaptor: a shallow embedding of
      [thorlabs_CCS100.py]

    The Python class [Spectrometer] drives the vendor library TLCCS_64.dll
    through ctypes.  The library is a black box: here it is a record of
    transition functions over an abstract device state.  Every method of the
    class becomes a computation in a small state-and-exception monad whose
    state holds the Python object, the device and the log of everything the
    program did to the outside world (console, driver, clock, file system,
    plotting window). *)

From Stdlib Require Import ZArith List String Ascii Bool Lia.
From Stdlib Require Import Floats.
Import ListNotations.

Local Open Scope string_scope.
Local Open Scope Z_scope.

#[local] Set Warnings "-inexact-float".

(** ** Python values *)

(** The dynamically typed values that reach [set_integration_time] and the
    arguments of the [%] formatting operator.  [bool] is a subclass of [int]
    in Python, with [True == 1] and [False == 0]. *)
Inductive pyval : Type :=
| PyNone
| PyBool (b : bool)
| PyInt (z : Z)
| PyFloat (f : float)
| PyStr (s : string).

(** [isinstance(v, int)] and [isinstance(v, float)]. *)
Definition isinstance_int (v : pyval) : bool :=
  match v with
  | PyBool _ | PyInt _ => true
  | _ => false
  end.

Definition isinstance_float (v : pyval) : bool :=
  match v with
  | PyFloat _ => true
  | _ => false
  end.

(** ** Binary64 numbers

    Python's [float] and ctypes' [c_double] are IEEE 754 binary64, which is
    what Rocq's primitive [float] is. *)

Definition tol_s : float := 1e-2%float.
Definition integration_time_min : float := 1e-5%float.
Definition integration_time_max : float := 6e1%float.

(** Conversion of a Python [int] to a C double, as ctypes does for an
    argument declared [c_double] and as [int + float] does.  Correctly
    rounded for [|z| < 2^63], which covers every integer the program converts
    (they have passed the range check). *)
Definition float_of_int (z : Z) : float :=
  match z with
  | Z0 => PrimFloat.zero
  | Zpos _ => PrimFloat.of_uint63 (Uint63.of_Z z)
  | Zneg _ => PrimFloat.opp (PrimFloat.of_uint63 (Uint63.of_Z (- z)))
  end.

(** [a >= b] on floats. *)
Definition float_ge (a b : float) : bool := PrimFloat.leb b a.

(** The integer behind an [int] instance. *)
Definition int_value (v : pyval) : option Z :=
  match v with
  | PyBool b => Some (Z.b2z b)
  | PyInt z => Some z
  | _ => None
  end.

(** Python compares an [int] with a [float] exactly, on the mathematical
    values.  A finite double is [(-1)^s * m * 2^e]. *)
Definition float_le_int (f : float) (z : Z) : bool :=
  match Prim2SF f with
  | S754_nan => false
  | S754_infinity neg => neg
  | S754_zero _ => 0 <=? z
  | S754_finite neg m e =>
      let sm := if neg then Z.neg m else Z.pos m in
      if 0 <=? e then sm * 2 ^ e <=? z else sm <=? z * 2 ^ (- e)
  end.

Definition int_le_float (z : Z) (f : float) : bool :=
  match Prim2SF f with
  | S754_nan => false
  | S754_infinity neg => negb neg
  | S754_zero _ => z <=? 0
  | S754_finite neg m e =>
      let sm := if neg then Z.neg m else Z.pos m in
      if 0 <=? e then z <=? sm * 2 ^ e else z * 2 ^ (- e) <=? sm
  end.

(** [a <= v] and [v <= b] for a float constant against a numeric value. *)
Definition float_le_num (a : float) (v : pyval) : bool :=
  match v with
  | PyFloat f => PrimFloat.leb a f
  | _ => match int_value v with
         | Some z => float_le_int a z
         | None => false
         end
  end.

Definition num_le_float (v : pyval) (b : float) : bool :=
  match v with
  | PyFloat f => PrimFloat.leb f b
  | _ => match int_value v with
         | Some z => int_le_float z b
         | None => false
         end
  end.

(** The double a numeric value becomes in float arithmetic and across the
    ctypes boundary. *)
Definition as_double (v : pyval) : float :=
  match v with
  | PyFloat f => f
  | _ => match int_value v with
         | Some z => float_of_int z
         | None => PrimFloat.nan
         end
  end.

(** ** C integers behind ctypes *)

(** [c_int32(...).value] and a C [int] return value: 32 bits, signed. *)
Definition c_int32_value (z : Z) : Z := (z + 2 ^ 31) mod 2 ^ 32 - 2 ^ 31.

(** [c_uint32(...).value]: 32 bits, unsigned. *)
Definition c_uint32_value (z : Z) : Z := z mod 2 ^ 32.

(** Python's [bool(n)] for an integer [n]. *)
Definition py_bool (n : Z) : bool := negb (n =? 0).

(** The number of pixels of the sensor, the [3648] of the source's array
    types. *)
Definition pixels : nat := 3648.

(** A ctypes array [(n * C.c_double)()] after native code has stored
    [written] from its start: the array is created zero-filled and keeps its
    length [n]. *)
Definition c_double_array (n : nat) (written : list float) : list float :=
  firstn n (written ++ repeat PrimFloat.zero n).

(** [buf.value] of a ctypes array [(n * C.c_char)()] after native code has
    stored [written] from its start: the bytes before the first NUL. *)
Fixpoint until_nul (s : string) : string :=
  match s with
  | EmptyString => EmptyString
  | String c rest => if Ascii.eqb c Ascii.zero then EmptyString
                     else String c (until_nul rest)
  end.

Fixpoint string_firstn (n : nat) (s : string) : string :=
  match n, s with
  | S k, String c rest => String c (string_firstn k rest)
  | _, _ => EmptyString
  end.

Definition c_char_array_value (n : nat) (written : string) : string :=
  until_nul (string_firstn n written).

(** [s.encode('ascii')] and [b.decode('ascii')] succeed when every
    character is below 128 and then keep the characters. *)
Fixpoint is_ascii (s : string) : bool :=
  match s with
  | EmptyString => true
  | String c rest => (N.ltb (N_of_ascii c) 128) && is_ascii rest
  end.

(** The five buffers of the identification query, as a list. *)
Definition five (bufs : string * string * string * string * string)
  : list string :=
  let '(b0, b1, b2, b3, b4) := bufs in [b0; b1; b2; b3; b4].

Definition newline : string := String (ascii_of_nat 10) EmptyString.

(** ** Exceptions, results and the log of effects *)

(** The exceptions the program can end with.  Messages built with [%] keep
    the format string and its arguments. *)
Inductive exn : Type :=
| AssertionError (format : string) (args : list pyval)
| UserWarning (format : string) (args : list pyval)
| UnicodeEncodeError
| UnicodeDecodeError
| ValueError (message : string)
| OverflowError (message : string)
| OSError (path : string)
| AttributeError (attribute : string)
| NameError (name : string).

(** What a call does: return a value, raise, or still be running when the
    bound on loop iterations given to the model is used up. *)
Inductive outcome (A : Type) : Type :=
| Returned (a : A)
| Raised (e : exn)
| StillRunning.
Arguments Returned {A} a.
Arguments Raised {A} e.
Arguments StillRunning {A}.

(** The calls into matplotlib made by [plot_spectrum]. *)
Inductive plot_call : Type :=
| Subplots
| SetTitle (format : string) (arg : float)
| SetYLabel (label : string)
| SetXLabel (label : string)
| AxPlot (xs ys : list float)
| Show
| SaveFig (path : string) (dpi : Z)
| ClosePlot.

(** Everything the program does to the world outside the Python object, in
    the order it happens. *)
Inductive event : Type :=
| Print (format : string) (args : list pyval) (end_ : string)
| Init (resourceName : string) (IDQuery resetDevice : bool)
| IdentificationQuery (instrumentHandle : Z)
| GetWavelengthData (instrumentHandle : Z) (dataSet : Z)
| GetDeviceStatus (instrumentHandle : Z)
| StartScan (instrumentHandle : Z)
| GetScanData (instrumentHandle : Z)
| GetIntegrationTime (instrumentHandle : Z)
| SetIntegrationTime (instrumentHandle : Z) (integrationTime : float)
| Close (instrumentHandle : Z)
| Sleep (secs : float)
| FileOpen (path : string)
| FileWrite (path : string) (data : string)
| FileClose (path : string)
| Pyplot (call : plot_call).

(** The calls into TLCCS_64.dll among the events. *)
Definition is_dll_call (e : event) : bool :=
  match e with
  | Init _ _ _ | IdentificationQuery _ | GetWavelengthData _ _
  | GetDeviceStatus _ | StartScan _ | GetScanData _
  | GetIntegrationTime _ | SetIntegrationTime _ _ | Close _ => true
  | _ => false
  end.

Definition dll_calls (log : list event) : list event :=
  filter is_dll_call log.

Definition is_start_scan (e : event) : bool :=
  match e with StartScan _ => true | _ => false end.

Definition is_get_scan_data (e : event) : bool :=
  match e with GetScanData _ => true | _ => false end.

Definition is_get_wavelength_data (e : event) : bool :=
  match e with GetWavelengthData _ _ => true | _ => false end.

Definition is_print (e : event) : bool :=
  match e with Print _ _ _ => true | _ => false end.

(** ** The world outside: the vendor library and the host

    Each entry point of the library takes the device state and returns the
    C [int] status code, what it stored through its output pointers, and the
    next device state.  The host runs [time.sleep(secs)], [open(path, 'w')]
    and the matplotlib calls, each of which returns or raises.  Writing to
    an open file and closing it are buffered and do not raise.  The two
    formatting functions are Python's ['%0.3f' % x] and [str(x)] on
    floats. *)
Record Host (D : Type) : Type := {
  tlccs_init : string -> bool -> bool -> D -> Z * Z * D;
  tlccs_identificationQuery :
    Z -> D -> Z * (string * string * string * string * string) * D;
  tlccs_getWavelengthData :
    Z -> Z -> D -> Z * (list float * float * float) * D;
  tlccs_getDeviceStatus : Z -> D -> Z * Z * D;
  tlccs_startScan : Z -> D -> Z * D;
  tlccs_getScanData : Z -> D -> Z * list float * D;
  tlccs_getIntegrationTime : Z -> D -> Z * float * D;
  tlccs_setIntegrationTime : Z -> float -> D -> Z * D;
  tlccs_close : Z -> D -> Z * D;
  time_sleep : float -> D -> option exn * D;
  open_w : string -> D -> option exn * D;
  pyplot : plot_call -> D -> option exn * D;
  format_0_3f : float -> string;
  str_float : float -> string
}.
Arguments tlccs_init {D}.
Arguments tlccs_identificationQuery {D}.
Arguments tlccs_getWavelengthData {D}.
Arguments tlccs_getDeviceStatus {D}.
Arguments tlccs_startScan {D}.
Arguments tlccs_getScanData {D}.
Arguments tlccs_getIntegrationTime {D}.
Arguments tlccs_setIntegrationTime {D}.
Arguments tlccs_close {D}.
Arguments time_sleep {D}.
Arguments open_w {D}.
Arguments pyplot {D}.
Arguments format_0_3f {D}.
Arguments str_float {D}.

(** ** The Spectrometer object *)

(** The attributes of a [Spectrometer] instance.  [scan_data] does not exist
    until the first scan has been fetched; every other attribute is assigned
    during [__init__] before anything reads it. *)
Record Spectrometer : Type := {
  name : string;
  verbose : bool;
  very_verbose : bool;
  handle : Z;
  device_info : list string;
  wavelength_data : list float;
  wavelength_min : float;
  wavelength_max : float;
  status : Z;
  status_idle_soft_trig : bool;
  status_idle_ext_trig : bool;
  status_scan_starting : bool;
  status_scan_in_progress : bool;
  status_scan_ready : bool;
  scan_data : option (list float);
  integration_time_s : float
}.

(** The object as [__init__] receives it, with the three attributes it
    assigns first.  The other fields hold placeholders until their first
    assignment. *)
Definition new_Spectrometer (name_ : string) (verbose_ very_verbose_ : bool)
  : Spectrometer :=
  {| name := name_; verbose := verbose_; very_verbose := very_verbose_;
     handle := 0; device_info := [];
     wavelength_data := [];
     wavelength_min := PrimFloat.zero; wavelength_max := PrimFloat.zero;
     status := 0;
     status_idle_soft_trig := false;
     status_idle_ext_trig := false;
     status_scan_starting := false;
     status_scan_in_progress := false;
     status_scan_ready := false;
     scan_data := None; integration_time_s := PrimFloat.zero |}.

Definition set_handle (v : Z) (o : Spectrometer) : Spectrometer :=
  {| name := name o; verbose := verbose o; very_verbose := very_verbose o;
     handle := v; device_info := device_info o;
     wavelength_data := wavelength_data o;
     wavelength_min := wavelength_min o; wavelength_max := wavelength_max o;
     status := status o;
     status_idle_soft_trig := status_idle_soft_trig o;
     status_idle_ext_trig := status_idle_ext_trig o;
     status_scan_starting := status_scan_starting o;
     status_scan_in_progress := status_scan_in_progress o;
     status_scan_ready := status_scan_ready o;
     scan_data := scan_data o; integration_time_s := integration_time_s o |}.

Definition set_device_info (v : list string) (o : Spectrometer)
  : Spectrometer :=
  {| name := name o; verbose := verbose o; very_verbose := very_verbose o;
     handle := handle o; device_info := v;
     wavelength_data := wavelength_data o;
     wavelength_min := wavelength_min o; wavelength_max := wavelength_max o;
     status := status o;
     status_idle_soft_trig := status_idle_soft_trig o;
     status_idle_ext_trig := status_idle_ext_trig o;
     status_scan_starting := status_scan_starting o;
     status_scan_in_progress := status_scan_in_progress o;
     status_scan_ready := status_scan_ready o;
     scan_data := scan_data o; integration_time_s := integration_time_s o |}.

(** [self.wavelength_data], [self.wavelength_min] and
    [self.wavelength_max], assigned together. *)
Definition set_wavelength (data : list float) (lo hi : float)
  (o : Spectrometer) : Spectrometer :=
  {| name := name o; verbose := verbose o; very_verbose := very_verbose o;
     handle := handle o; device_info := device_info o;
     wavelength_data := data;
     wavelength_min := lo; wavelength_max := hi;
     status := status o;
     status_idle_soft_trig := status_idle_soft_trig o;
     status_idle_ext_trig := status_idle_ext_trig o;
     status_scan_starting := status_scan_starting o;
     status_scan_in_progress := status_scan_in_progress o;
     status_scan_ready := status_scan_ready o;
     scan_data := scan_data o; integration_time_s := integration_time_s o |}.

Definition set_status (v : Z) (o : Spectrometer) : Spectrometer :=
  {| name := name o; verbose := verbose o; very_verbose := very_verbose o;
     handle := handle o; device_info := device_info o;
     wavelength_data := wavelength_data o;
     wavelength_min := wavelength_min o; wavelength_max := wavelength_max o;
     status := v;
     status_idle_soft_trig := status_idle_soft_trig o;
     status_idle_ext_trig := status_idle_ext_trig o;
     status_scan_starting := status_scan_starting o;
     status_scan_in_progress := status_scan_in_progress o;
     status_scan_ready := status_scan_ready o;
     scan_data := scan_data o; integration_time_s := integration_time_s o |}.

(** The five status attributes, assigned one after the other from the same
    status word. *)
Definition set_status_flags (soft ext starting in_progress ready : bool)
  (o : Spectrometer) : Spectrometer :=
  {| name := name o; verbose := verbose o; very_verbose := very_verbose o;
     handle := handle o; device_info := device_info o;
     wavelength_data := wavelength_data o;
     wavelength_min := wavelength_min o; wavelength_max := wavelength_max o;
     status := status o;
     status_idle_soft_trig := soft;
     status_idle_ext_trig := ext;
     status_scan_starting := starting;
     status_scan_in_progress := in_progress;
     status_scan_ready := ready;
     scan_data := scan_data o; integration_time_s := integration_time_s o |}.

Definition set_scan_data (v : list float) (o : Spectrometer)
  : Spectrometer :=
  {| name := name o; verbose := verbose o; very_verbose := very_verbose o;
     handle := handle o; device_info := device_info o;
     wavelength_data := wavelength_data o;
     wavelength_min := wavelength_min o; wavelength_max := wavelength_max o;
     status := status o;
     status_idle_soft_trig := status_idle_soft_trig o;
     status_idle_ext_trig := status_idle_ext_trig o;
     status_scan_starting := status_scan_starting o;
     status_scan_in_progress := status_scan_in_progress o;
     status_scan_ready := status_scan_ready o;
     scan_data := Some v; integration_time_s := integration_time_s o |}.

Definition set_integration_time_s (v : float) (o : Spectrometer)
  : Spectrometer :=
  {| name := name o; verbose := verbose o; very_verbose := very_verbose o;
     handle := handle o; device_info := device_info o;
     wavelength_data := wavelength_data o;
     wavelength_min := wavelength_min o; wavelength_max := wavelength_max o;
     status := status o;
     status_idle_soft_trig := status_idle_soft_trig o;
     status_idle_ext_trig := status_idle_ext_trig o;
     status_scan_starting := status_scan_starting o;
     status_scan_in_progress := status_scan_in_progress o;
     status_scan_ready := status_scan_ready o;
     scan_data := scan_data o; integration_time_s := v |}.

(** ** The monad of method bodies *)

(** The state a method runs in: the object and the device behind the
    library. *)
Record state (D : Type) : Type := {
  self : Spectrometer;
  device : D
}.
Arguments self {D}.
Arguments device {D}.
Arguments Build_state {D}.

(** What running a computation gives: its outcome, the state it leaves, and
    the events it caused, oldest first. *)
Record execution (D A : Type) : Type := Exec {
  result : outcome A;
  final : state D;
  events : list event
}.
Arguments Exec {D A}.
Arguments result {D A}.
Arguments final {D A}.
Arguments events {D A}.

Definition M (D A : Type) : Type := state D -> execution D A.

Definition ret {D A} (a : A) : M D A := fun s => Exec (Returned a) s [].

(** A raise keeps the state reached so far, as in Python. *)
Definition bind {D A B} (m : M D A) (k : A -> M D B) : M D B :=
  fun s =>
    match m s with
    | Exec (Returned a) s1 evs1 =>
        match k a s1 with
        | Exec r s2 evs2 => Exec r s2 (evs1 ++ evs2)
        end
    | Exec (Raised e) s1 evs1 => Exec (Raised e) s1 evs1
    | Exec StillRunning s1 evs1 => Exec StillRunning s1 evs1
    end.

Definition raise {D A} (e : exn) : M D A := fun s => Exec (Raised e) s [].

Definition still_running {D A} : M D A := fun s => Exec StillRunning s [].

Notation "x <- m ;; k" := (bind m (fun x => k))
  (at level 61, m at next level, right associativity).
Notation "m ;; k" := (bind m (fun _ => k))
  (at level 61, right associativity).

(** Reading and updating [self]. *)
Definition attr {D A} (f : Spectrometer -> A) : M D A :=
  fun s => Exec (Returned (f (self s))) s [].

Definition assign {D} (f : Spectrometer -> Spectrometer) : M D unit :=
  fun s => Exec (Returned tt) {| self := f (self s); device := device s |} [].

(** Causing an event. *)
Definition emit {D} (e : event) : M D unit :=
  fun s => Exec (Returned tt) s [e].

(** Letting the outside world move. *)
Definition world {D A} (f : D -> A * D) : M D A :=
  fun s => Exec (Returned (fst (f (device s))))
             {| self := self s; device := snd (f (device s)) |} [].

(** [print(format % args)] and [print(format % args, end=end_)]. *)
Definition print {D} (format : string) (args : list pyval) : M D unit :=
  emit (Print format args newline).

Definition print_end {D} (format : string) (args : list pyval)
  (end_ : string) : M D unit :=
  emit (Print format args end_).

(** [if c: body] for a statement. *)
Definition when {D} (c : bool) (body : M D unit) : M D unit :=
  if c then body else ret tt.

(** [assert c, message] and the bare [assert c]. *)
Definition assert_msg {D} (c : bool) (format : string) (args : list pyval)
  : M D unit :=
  if c then ret tt else raise (AssertionError format args).

Definition assert {D} (c : bool) : M D unit :=
  assert_msg c "" [].

(** ** The adaptor *)

Section Adaptor.

Context {D : Type} (host : Host D).

(** A host call that returns or raises. *)
Definition host_do (e : event) (f : D -> option exn * D) : M D unit :=
  emit e ;;
  r <- world f ;;
  match r with
  | Some x => raise x
  | None => ret tt
  end.

(** *** Module level: [check_error] and the registered entry points *)

Definition check_error (error_code : Z) : M D Z :=
  if negb (error_code =? 0) then
    print_end "Error message from Thorlabs CCS100: " [] "" ;;
    raise (UserWarning "Thorlabs CCS100 error: %i; see above for details."
             [PyInt error_code])
  else ret error_code.

(** A foreign function whose [restype] is [check_error]: ctypes takes the C
    [int] the function returns and calls [check_error] on it.  [out] is what
    the function stored through its pointer arguments. *)
Definition foreign {A} (e : event) (f : D -> Z * A * D) : M D A :=
  emit e ;;
  r <- world f ;;
  check_error (c_int32_value (fst r)) ;;
  ret (snd r).

Definition dll_get_device_info (h : Z)
  : M D (string * string * string * string * string) :=
  foreign (IdentificationQuery h) (tlccs_identificationQuery host h).

Definition dll_get_wavelength_data (h : Z) (dataSet : Z)
  : M D (list float * float * float) :=
  foreign (GetWavelengthData h dataSet) (tlccs_getWavelengthData host h dataSet).

(** An entry point without output arguments stores nothing. *)
Definition no_output (f : D -> Z * D) (d : D) : Z * unit * D :=
  (fst (f d), tt, snd (f d)).

Definition dll_start_scan (h : Z) : M D unit :=
  foreign (StartScan h) (no_output (tlccs_startScan host h)).

Definition dll_get_scan_data (h : Z) : M D (list float) :=
  foreign (GetScanData h) (tlccs_getScanData host h).

Definition dll_get_integration_time (h : Z) : M D float :=
  foreign (GetIntegrationTime h) (tlccs_getIntegrationTime host h).

Definition dll_set_integration_time (h : Z) (t : float) : M D unit :=
  foreign (SetIntegrationTime h t)
    (no_output (tlccs_setIntegrationTime host h t)).

Definition dll_close (h : Z) : M D unit :=
  foreign (Close h) (no_output (tlccs_close host h)).

(** *** Methods of [Spectrometer] *)

Definition _get_device_info : M D (list string) :=
  verbose_ <- attr verbose ;;
  name_ <- attr name ;;
  when verbose_ (print "%s: getting device info:" [PyStr name_]) ;;
  h <- attr handle ;;
  bufs <- dll_get_device_info h ;;
  let values := map (c_char_array_value 256) (five bufs) in
  (if forallb is_ascii values then ret tt else raise UnicodeDecodeError) ;;
  when verbose_ (
    print "%s:  - manufacturer  = %s"
      [PyStr name_; PyStr (nth 0 values "")] ;;
    print "%s:  - device        = %s"
      [PyStr name_; PyStr (nth 1 values "")] ;;
    print "%s:  - serial_number = %s"
      [PyStr name_; PyStr (nth 2 values "")] ;;
    print "%s:  - firmware      = %s"
      [PyStr name_; PyStr (nth 3 values "")] ;;
    print "%s:  - driver        = %s"
      [PyStr name_; PyStr (nth 4 values "")]) ;;
  assign (set_device_info values) ;;
  attr device_info.

Definition _get_wavelength_data (user_calibration : bool)
  : M D (list float) :=
  very_verbose_ <- attr very_verbose ;;
  name_ <- attr name ;;
  when very_verbose_ (print "%s: getting wavelength data" [PyStr name_]) ;;
  h <- attr handle ;;
  out <- dll_get_wavelength_data h (Z.b2z user_calibration) ;;
  assign (set_wavelength (c_double_array pixels (fst (fst out)))
            (snd (fst out)) (snd out)) ;;
  when very_verbose_ (
    lo <- attr wavelength_min ;;
    print "%s: wavelength_min (nm) = %s (s)" [PyStr name_; PyFloat lo] ;;
    hi <- attr wavelength_max ;;
    print "%s: wavelength_max (nm) = %s (s)" [PyStr name_; PyFloat hi]) ;;
  attr wavelength_data.

(** [self.status] is replaced by a fresh [c_int32] before the call, and the
    library stores the status word in it; the model keeps its [.value]. *)
Definition _get_status : M D Z :=
  very_verbose_ <- attr very_verbose ;;
  name_ <- attr name ;;
  when very_verbose_ (print "%s: getting status" [PyStr name_]) ;;
  assign (set_status 0) ;;
  h <- attr handle ;;
  emit (GetDeviceStatus h) ;;
  r <- world (tlccs_getDeviceStatus host h) ;;
  assign (set_status (c_int32_value (snd r))) ;;
  check_error (c_int32_value (fst r)) ;;
  v <- attr status ;;
  assign (set_status_flags
            (py_bool (Z.land v 0x0002))
            (py_bool (Z.land v 0x0080))
            (py_bool (Z.land v 0x0008))
            (py_bool (Z.land v 0x0004))
            (py_bool (Z.land v 0x0010))) ;;
  when very_verbose_ (
    soft <- attr status_idle_soft_trig ;;
    print "%s: -> status_idle_soft_trig = %s" [PyStr name_; PyBool soft] ;;
    ext <- attr status_idle_ext_trig ;;
    print "%s: -> status_idle_ext_trig = %s" [PyStr name_; PyBool ext] ;;
    starting <- attr status_scan_starting ;;
    print "%s: -> status_scan_starting = %s" [PyStr name_; PyBool starting] ;;
    in_progress <- attr status_scan_in_progress ;;
    print "%s: -> status_scan_in_progress = %s"
      [PyStr name_; PyBool in_progress] ;;
    ready <- attr status_scan_ready ;;
    print "%s: -> status_scan_ready = %s" [PyStr name_; PyBool ready]) ;;
  attr status.

Definition _start_scan : M D unit :=
  very_verbose_ <- attr very_verbose ;;
  name_ <- attr name ;;
  when very_verbose_ (print "%s: starting scan" [PyStr name_]) ;;
  h <- attr handle ;;
  dll_start_scan h ;;
  when very_verbose_ (print "%s: -> done starting scan." [PyStr name_]) ;;
  ret tt.

Definition _get_scan_data : M D (list float) :=
  very_verbose_ <- attr very_verbose ;;
  name_ <- attr name ;;
  when very_verbose_ (print "%s: getting scan data" [PyStr name_]) ;;
  h <- attr handle ;;
  written <- dll_get_scan_data h ;;
  assign (set_scan_data (c_double_array pixels written)) ;;
  when very_verbose_ (print "%s: -> done getting scan data." [PyStr name_]) ;;
  ret (c_double_array pixels written).

Definition get_integration_time : M D float :=
  verbose_ <- attr verbose ;;
  name_ <- attr name ;;
  when verbose_ (print "%s: getting integration time" [PyStr name_]) ;;
  h <- attr handle ;;
  integration_time <- dll_get_integration_time h ;;
  assign (set_integration_time_s integration_time) ;;
  t <- attr integration_time_s ;;
  when verbose_ (print "%s:  = %s (s)" [PyStr name_; PyFloat t]) ;;
  attr integration_time_s.

Definition set_integration_time (integration_time_s_ : pyval) : M D unit :=
  verbose_ <- attr verbose ;;
  name_ <- attr name ;;
  when verbose_ (print "%s: setting integration time (s) = %s"
                   [PyStr name_; integration_time_s_]) ;;
  assert_msg (isinstance_int integration_time_s_
              || isinstance_float integration_time_s_)
    "%s: unexpected type for integration_time_s" [PyStr name_] ;;
  assert_msg (float_le_num integration_time_min integration_time_s_
              && num_le_float integration_time_s_ integration_time_max)
    "%s: integration_time_s (%s) out of range"
    [PyStr name_; integration_time_s_] ;;
  h <- attr handle ;;
  dll_set_integration_time h (as_double integration_time_s_) ;;
  get_integration_time ;;
  t <- attr integration_time_s ;;
  assert (PrimFloat.leb t
            (PrimFloat.add (as_double integration_time_s_) tol_s)) ;;
  t' <- attr integration_time_s ;;
  assert (float_ge t'
            (PrimFloat.sub (as_double integration_time_s_) tol_s)) ;;
  when verbose_ (print "%s: -> done setting integration time." [PyStr name_]) ;;
  ret tt.

(** [self.scan_data], which exists only after a scan has been fetched. *)
Definition attr_scan_data : M D (list float) :=
  v <- attr scan_data ;;
  match v with
  | Some d => ret d
  | None => raise (AttributeError "scan_data")
  end.

(** The loop [while not self.status_scan_ready: ...] of [get_spectrum].
    [fuel] bounds the number of times the body runs; when the condition still
    holds after that, the call is still running. *)
Fixpoint wait_for_scan (fuel : nat) : M D unit :=
  ready <- attr status_scan_ready ;;
  if negb ready then
    match fuel with
    | O => still_running
    | S fuel' =>
        verbose_ <- attr verbose ;;
        when verbose_ (print_end "." [] "") ;;
        t <- attr integration_time_s ;;
        host_do (Sleep (PrimFloat.div t (float_of_int 10)))
          (time_sleep host (PrimFloat.div t (float_of_int 10))) ;;
        _get_status ;;
        wait_for_scan fuel'
    end
  else ret tt.

(** [for wave, data in zip(...): file.write(...)]. *)
Fixpoint write_lines (path : string) (rows : list (float * float))
  : M D unit :=
  match rows with
  | [] => ret tt
  | (wave, data) :: rest =>
      emit (FileWrite path
              (format_0_3f host wave ++ ":" ++ str_float host data
               ++ newline)) ;;
      write_lines path rest
  end.

Definition get_spectrum (fuel : nat) (filename : option string)
  : M D (option (list float * list float)) :=
  verbose_ <- attr verbose ;;
  very_verbose_ <- attr very_verbose ;;
  name_ <- attr name ;;
  when verbose_ (print "%s: getting spectrum" [PyStr name_]) ;;
  _get_status ;;
  soft <- attr status_idle_soft_trig ;;
  if negb soft then
    soft' <- attr status_idle_soft_trig ;;
    print "%s: -> status_idle_soft_trig = %s" [PyStr name_; PyBool soft'] ;;
    print "%s: -> spectrometer not ready to scan with software"
      [PyStr name_] ;;
    ret None
  else
    _start_scan ;;
    when verbose_ (print_end "%s: -> waiting for scan..." [PyStr name_] "") ;;
    wait_for_scan fuel ;;
    when verbose_ (print (newline ++ "%s: -> scan ready") [PyStr name_]) ;;
    _get_scan_data ;;
    when very_verbose_ (print "%s: -> done getting spectrum." [PyStr name_]) ;;
    match filename with
    | Some filename_ =>
        when verbose_ (print "%s: saving spectrum (%s)"
                         [PyStr name_; PyStr filename_]) ;;
        host_do (FileOpen (filename_ ++ ".txt"))
          (open_w host (filename_ ++ ".txt")) ;;
        waves <- attr wavelength_data ;;
        datas <- attr_scan_data ;;
        write_lines (filename_ ++ ".txt") (combine waves datas) ;;
        emit (FileClose (filename_ ++ ".txt"))
    | None => ret tt
    end ;;
    waves <- attr wavelength_data ;;
    datas <- attr_scan_data ;;
    ret (Some (waves, datas)).

(** [spec] is the module-level name [spec] that the title line reads: the
    object it is bound to when the method runs, if any. *)
Definition plot_spectrum (wavelength_data_ scan_data_ : option (list float))
  (show : bool) (filename : option string) (spec : option Spectrometer)
  : M D unit :=
  verbose_ <- attr verbose ;;
  name_ <- attr name ;;
  when verbose_ (print "%s: plotting spectrum" [PyStr name_]) ;;
  xs <- match wavelength_data_ with
        | None =>
            when verbose_ (print "%s: (using last recorded wavelength data)"
                             [PyStr name_]) ;;
            attr wavelength_data
        | Some xs => ret xs
        end ;;
  ys <- match scan_data_ with
        | None =>
            when verbose_ (print "%s: (using last recorded scan data)"
                             [PyStr name_]) ;;
            attr_scan_data
        | Some ys => ret ys
        end ;;
  host_do (Pyplot Subplots) (pyplot host Subplots) ;;
  t <- match spec with
       | Some o => ret (integration_time_s o)
       | None => raise (NameError "spec")
       end ;;
  host_do (Pyplot (SetTitle "Spectrum (integration_time_s = %0.3f)" t))
    (pyplot host (SetTitle "Spectrum (integration_time_s = %0.3f)" t)) ;;
  host_do (Pyplot (SetYLabel "Intensity (a.u.)"))
    (pyplot host (SetYLabel "Intensity (a.u.)")) ;;
  host_do (Pyplot (SetXLabel "Wavelength (nm)"))
    (pyplot host (SetXLabel "Wavelength (nm)")) ;;
  host_do (Pyplot (AxPlot xs ys)) (pyplot host (AxPlot xs ys)) ;;
  when show (
    when verbose_ (print "%s: showing plot (matplotlib window)"
                     [PyStr name_]) ;;
    host_do (Pyplot Show) (pyplot host Show)) ;;
  match filename with
  | Some filename_ =>
      when verbose_ (print "%s: saving plot (%s)"
                       [PyStr name_; PyStr filename_]) ;;
      host_do (Pyplot (SaveFig filename_ 150))
        (pyplot host (SaveFig filename_ 150))
  | None => ret tt
  end ;;
  host_do (Pyplot ClosePlot) (pyplot host ClosePlot) ;;
  when verbose_ (print "%s: -> done plotting spectrum." [PyStr name_]) ;;
  ret tt.

Definition close : M D unit :=
  verbose_ <- attr verbose ;;
  name_ <- attr name ;;
  when verbose_ (print_end "%s: closing..." [PyStr name_] "") ;;
  h <- attr handle ;;
  dll_close h ;;
  when verbose_ (print " done." []) ;;
  ret tt.

(** [__init__], run on the fresh object, whose [name], [verbose] and
    [very_verbose] are the arguments.  [self.handle] is a new [c_uint32]
    that the library's init call fills in through the pointer it is given;
    the status code is checked after that. *)
Definition __init__ (serial_number : string) (reset : bool) : M D unit :=
  verbose_ <- attr verbose ;;
  name_ <- attr name ;;
  when verbose_ (print "%s: opening..." [PyStr name_]) ;;
  (if is_ascii ("USB0::0x1313::0x8081::" ++ serial_number ++ "::RAW")
   then ret tt else raise UnicodeEncodeError) ;;
  assign (set_handle 0) ;;
  emit (Init ("USB0::0x1313::0x8081::" ++ serial_number ++ "::RAW")
          true reset) ;;
  r <- world (tlccs_init host
                ("USB0::0x1313::0x8081::" ++ serial_number ++ "::RAW")
                true reset) ;;
  assign (set_handle (c_uint32_value (snd r))) ;;
  check_error (c_int32_value (fst r)) ;;
  when verbose_ (print "%s: open and ready." [PyStr name_]) ;;
  _get_device_info ;;
  _get_wavelength_data false ;;
  _get_status ;;
  get_integration_time ;;
  ret tt.

(** [Spectrometer(serial_number, name, reset, verbose, very_verbose)] on a
    device in state [d]. *)
Definition Spectrometer_ (serial_number name_ : string)
  (reset verbose_ very_verbose_ : bool) (d : D) : execution D unit :=
  __init__ serial_number reset
    {| self := new_Spectrometer name_ verbose_ very_verbose_;
       device := d |}.

(** *** Client programs *)

(** The public methods a client can call on the object once it is built. *)
Inductive method : Type :=
| GetIntegrationTime_
| SetIntegrationTime_ (integration_time_s_ : pyval)
| GetSpectrum_ (fuel : nat) (filename : option string)
| PlotSpectrum_ (wavelength_data_ scan_data_ : option (list float))
    (show : bool) (filename : option string) (spec_bound : bool)
| Close_.

Definition invoke (m : method) : M D unit :=
  match m with
  | GetIntegrationTime_ => get_integration_time ;; ret tt
  | SetIntegrationTime_ v => set_integration_time v
  | GetSpectrum_ fuel filename => get_spectrum fuel filename ;; ret tt
  | PlotSpectrum_ xs ys show filename spec_bound =>
      o <- attr (fun o => o) ;;
      plot_spectrum xs ys show filename
        (if spec_bound then Some o else None)
  | Close_ => close
  end.

(** A client program: the calls are made one after the other, and the
    client catches what a call raises and goes on (a client that lets an
    exception through makes a prefix of these calls).  The program returns
    the outcome of every call, unless one of them is still running, which
    is then the last call made. *)
Fixpoint run (ms : list method) (s : state D)
  : execution D (list (outcome unit)) :=
  match ms with
  | [] => Exec (Returned []) s []
  | m :: rest =>
      match invoke m s with
      | Exec StillRunning s1 evs1 => Exec StillRunning s1 evs1
      | Exec o s1 evs1 =>
          match run rest s1 with
          | Exec (Returned os) s2 evs2 =>
              Exec (Returned (o :: os)) s2 (evs1 ++ evs2)
          | Exec other s2 evs2 => Exec other s2 (evs1 ++ evs2)
          end
      end
  end.

End Adaptor.

(** ** A simulated instrument

    A small device to run the adaptor on.  It opens with handle 1, reports
    the status words of a script one per status query (and [0x0012], idle and
    scan ready, once the script is used up), remembers the integration time
    it is given and reports it back with a fixed offset, and returns [code]
    from every call. *)
Module Sim.

Record dev : Type := {
  script : list Z;
  itime : float;
  offset : float;
  code : Z
}.

Definition next_status (d : dev) : Z * Z * dev :=
  match script d with
  | [] => (code d, 0x0012, d)
  | w :: rest =>
      (code d, w,
       {| script := rest; itime := itime d; offset := offset d;
          code := code d |})
  end.

Definition make (status : Z -> dev -> Z * Z * dev) : Host dev := {|
  tlccs_init := fun _ _ _ d => (code d, 1, d);
  tlccs_identificationQuery := fun _ d =>
    (code d, ("Thorlabs", "CCS100", "M00405433", "1.0", "2.0"), d);
  tlccs_getWavelengthData := fun _ _ d =>
    (code d, ([350%float; 351%float; 352%float], 350%float, 700%float), d);
  tlccs_getDeviceStatus := status;
  tlccs_startScan := fun _ d => (code d, d);
  tlccs_getScanData := fun _ d =>
    (code d, [0.5%float; 0.25%float; 0.125%float], d);
  tlccs_getIntegrationTime := fun _ d =>
    (code d, PrimFloat.add (itime d) (offset d), d);
  tlccs_setIntegrationTime := fun _ t d =>
    (code d,
     {| script := script d; itime := t; offset := offset d;
        code := code d |});
  tlccs_close := fun _ d => (code d, d);
  time_sleep := fun _ d => (None, d);
  open_w := fun _ d => (None, d);
  pyplot := fun _ d => (None, d);
  format_0_3f := fun _ => "w";
  str_float := fun _ => "i"
|}.

Definition host : Host dev := make (fun _ => next_status).

(** The same instrument stuck idle: its status word is always [0x0002]. *)
Definition stuck : Host dev := make (fun _ d => (0, 0x0002, d)).

(** A device whose next status words are [ws]. *)
Definition device_with (ws : list Z) : dev :=
  {| script := ws; itime := 0.01%float; offset := 0%float; code := 0 |}.

(** The object and world after [Spectrometer("M00405433", verbose=False,
    very_verbose=False)] on that device. *)
Definition opened (ws : list Z) : state dev :=
  final (Spectrometer_ host "M00405433" "CCS100" true false false
           (device_with (0 :: ws))).

End Sim.

(** ** Observations

    What the properties below say about executions. *)

Local Open Scope list_scope.

(** Everything but console output. *)
Definition effects (l : list event) : list event :=
  filter (fun e => negb (is_print e)) l.

(** The object after a status query has stored the word [v] and its five
    flags. *)
Definition decoded (v : Z) (o : Spectrometer) : Spectrometer :=
  set_status_flags (py_bool (Z.land v 0x0002)) (py_bool (Z.land v 0x0080))
    (py_bool (Z.land v 0x0008)) (py_bool (Z.land v 0x0004))
    (py_bool (Z.land v 0x0010)) (set_status v o).

(** The exception [check_error] raises for the status code [c]. *)
Definition driver_error (c : Z) : exn :=
  UserWarning "Thorlabs CCS100 error: %i; see above for details." [PyInt c].

(** The attributes that only [__init__] assigns. *)
Definition setup (o : Spectrometer)
  : string * bool * bool * Z * list string * list float * float * float :=
  (name o, verbose o, very_verbose o, handle o, device_info o,
   wavelength_data o, wavelength_min o, wavelength_max o).

(** A computation that leaves [f] of the object alone and causes only events
    that satisfy [P], whatever its outcome. *)
Definition framed {D A B : Type} (P : event -> bool)
  (f : Spectrometer -> B) (m : M D A) : Prop :=
  forall s, f (self (final (m s))) = f (self s)
            /\ forallb P (events (m s)) = true.

(** The events of waiting for a scan: console output, sleeps and status
    queries. *)
Definition polling (e : event) : bool :=
  match e with
  | Print _ _ _ | Sleep _ | GetDeviceStatus _ => true
  | _ => false
  end.

(** The events of the methods that use an open instrument without opening or
    closing it and without fetching the calibration. *)
Definition routine (e : event) : bool :=
  match e with
  | Init _ _ _ | IdentificationQuery _ | GetWavelengthData _ _
  | Close _ => false
  | _ => true
  end.

(** The events of any method called on an open instrument: everything but
    opening it, identifying it and fetching the calibration. *)
Definition in_use (e : event) : bool :=
  match e with
  | Init _ _ _ | IdentificationQuery _ | GetWavelengthData _ _ => false
  | _ => true
  end.

Definition is_close_call (e : event) : bool :=
  match e with Close _ => true | _ => false end.

Definition is_file_event (e : event) : bool :=
  match e with
  | FileOpen _ | FileWrite _ _ | FileClose _ => true
  | _ => false
  end.

(** [n] rounds of the waiting loop: sleep [t / 10], then query the status. *)
Fixpoint polls (h : Z) (t : float) (n : nat) : list event :=
  match n with
  | O => []
  | S k => Sleep (PrimFloat.div t (float_of_int 10))
           :: GetDeviceStatus h :: polls h t k
  end.

(** The library never reports a finished scan, whatever state it is in. *)
Definition never_ready {D : Type} (host : Host D) : Prop :=
  forall h d, Z.testbit (snd (fst (tlccs_getDeviceStatus host h d))) 4 = false.

(** Status queries and sleeps always succeed. *)
Definition polling_succeeds {D : Type} (host : Host D) : Prop :=
  (forall h d, c_int32_value (fst (fst (tlccs_getDeviceStatus host h d))) = 0)
  /\ (forall t d, fst (time_sleep host t d) = None).

(** The argument checks of [set_integration_time] and its check of the
    value read back, in binary64 arithmetic as the program evaluates them. *)
Definition numeric (v : pyval) : bool :=
  isinstance_int v || isinstance_float v.

Definition in_range (v : pyval) : bool :=
  float_le_num integration_time_min v && num_le_float v integration_time_max.

Definition within_tolerance (read_back : float) (v : pyval) : bool :=
  PrimFloat.leb read_back (PrimFloat.add (as_double v) tol_s)
  && float_ge read_back (PrimFloat.sub (as_double v) tol_s).

(** The text of one line of the spectrum file. *)
Definition spectrum_line {D : Type} (host : Host D) (wave data : float)
  : string :=
  (format_0_3f host wave ++ ":" ++ str_float host data ++ newline)%string.

(** The statements of [get_spectrum] that follow its waiting loop, with the
    values of [self.verbose], [self.very_verbose] and [self.name] the method
    has read: fetch the scan, save it when a file name is given, return the
    two arrays. *)
Definition fetch_and_save {D : Type} (host : Host D)
  (verbose_ very_verbose_ : bool) (name_ : string)
  (filename : option string) : M D (option (list float * list float)) :=
  when verbose_ (print (newline ++ "%s: -> scan ready") [PyStr name_]) ;;
  _get_scan_data host ;;
  when very_verbose_ (print "%s: -> done getting spectrum." [PyStr name_]) ;;
  match filename with
  | Some filename_ =>
      when verbose_ (print "%s: saving spectrum (%s)"
                       [PyStr name_; PyStr filename_]) ;;
      host_do (FileOpen (filename_ ++ ".txt"))
        (open_w host (filename_ ++ ".txt")) ;;
      waves <- attr wavelength_data ;;
      datas <- attr_scan_data ;;
      write_lines host (filename_ ++ ".txt") (combine waves datas) ;;
      emit (FileClose (filename_ ++ ".txt"))
  | None => ret tt
  end ;;
  waves <- attr wavelength_data ;;
  datas <- attr_scan_data ;;
  ret (Some (waves, datas)).

(** The ready flag says what bit 4 of the stored status word says. *)
Definition flag_matches (o : Spectrometer) : Prop :=
  status_scan_ready o = py_bool (Z.land (status o) 0x0010).

(** The events of saving the rows of [waves] and [data] in [path]. *)
Definition file_events {D : Type} (host : Host D) (path : string)
  (waves data : list float) : list event :=
  FileOpen path
  :: map (fun row => FileWrite path (spectrum_line host (fst row) (snd row)))
       (combine waves data)
  ++ [FileClose path].

Definition is_file_open (e : event) : bool :=
  match e with FileOpen _ => true | _ => false end.

(** The file a file event is about. *)
Definition file_path (e : event) : option string :=
  match e with
  | FileOpen path | FileWrite path _ | FileClose path => Some path
  | _ => None
  end.

(** The library calls of the constructor, in order, for the handle [h]. *)
Definition init_calls (serial_number : string) (reset : bool) (h : Z)
  : list event :=
  [Init ("USB0::0x1313::0x8081::" ++ serial_number ++ "::RAW")%string
     true reset;
   IdentificationQuery h; GetWavelengthData h 0; GetDeviceStatus h;
   GetIntegrationTime h].

(** The calls of a client program that are [close()]. *)
Definition is_Close_ (m : method) : bool :=
  match m with Close_ => true | _ => false end.

(** The double an [int] is converted to is finite, positive and
    mathematically equal to the [int]. *)
Definition exact_double (z : Z) : bool :=
  match Prim2SF (float_of_int z) with
  | S754_finite false _ _ =>
      float_le_int (float_of_int z) z && int_le_float z (float_of_int z)
  | _ => false
  end.

(** The attributes that a scan in progress leaves alone: those of [setup],
    the stored scan and the integration time. *)
Definition steady (o : Spectrometer) :=
  (setup o, scan_data o, integration_time_s o).

(** A library call that goes to the instrument with handle [h]; events
    that are not library calls pass. *)
Definition on_handle (h : Z) (e : event) : Prop :=
  match e with
  | IdentificationQuery h' | GetWavelengthData h' _ | GetDeviceStatus h'
  | StartScan h' | GetScanData h' | GetIntegrationTime h'
  | SetIntegrationTime h' _ | Close h' => h' = h
  | Init _ _ _ => False
  | _ => True
  end.

(** A sleep of a tenth of [t]; other events pass. *)
Definition paced (t : float) (e : event) : Prop :=
  match e with
  | Sleep d => d = PrimFloat.div t (float_of_int 10)
  | _ => True
  end.

(** Calls into matplotlib made one after the other on the host, up to the
    first that raises: what was raised if anything, the host afterwards, and
    the calls made. *)
Fixpoint pyplot_calls {D : Type} (host : Host D) (calls : list plot_call)
  (d : D) : option exn * D * list plot_call :=
  match calls with
  | [] => (None, d, [])
  | c :: rest =>
      match fst (pyplot host c d) with
      | Some x => (Some x, snd (pyplot host c d), [c])
      | None =>
          let r := pyplot_calls host rest (snd (pyplot host c d)) in
          (fst (fst r), snd (fst r), c :: snd r)
      end
  end.

(** The calls [plot_spectrum] makes on the figure it has created, for the
    integration time [t] shown in the title. *)
Definition figure_calls (t : float) (xs ys : list float) (show : bool)
  (filename : option string) : list plot_call :=
  [SetTitle "Spectrum (integration_time_s = %0.3f)" t;
   SetYLabel "Intensity (a.u.)"; SetXLabel "Wavelength (nm)"; AxPlot xs ys]
  ++ (if show then [Show] else [])
  ++ match filename with
     | Some filename_ => [SaveFig filename_ 150]
     | None => []
     end
  ++ [ClosePlot].

(** The array [plot_spectrum] plots for an argument: the argument, or the
    stored array when the argument is [None]. *)
Definition or_stored (arg stored : option (list float))
  : option (list float) :=
  match arg with
  | Some l => Some l
  | None => stored
  end.

(** The statements of [plot_spectrum] from [plt.subplots()] on, with the
    value of [self.verbose] and [self.name] the method has read and the two
    arrays it has settled on. *)
Definition draw {D : Type} (host : Host D) (verbose_ : bool)
  (name_ : string) (xs ys : list float) (show : bool)
  (filename : option string) (spec : option Spectrometer) : M D unit :=
  host_do (Pyplot Subplots) (pyplot host Subplots) ;;
  t <- match spec with
       | Some o => ret (integration_time_s o)
       | None => raise (NameError "spec")
       end ;;
  host_do (Pyplot (SetTitle "Spectrum (integration_time_s = %0.3f)" t))
    (pyplot host (SetTitle "Spectrum (integration_time_s = %0.3f)" t)) ;;
  host_do (Pyplot (SetYLabel "Intensity (a.u.)"))
    (pyplot host (SetYLabel "Intensity (a.u.)")) ;;
  host_do (Pyplot (SetXLabel "Wavelength (nm)"))
    (pyplot host (SetXLabel "Wavelength (nm)")) ;;
  host_do (Pyplot (AxPlot xs ys)) (pyplot host (AxPlot xs ys)) ;;
  when show (
    when verbose_ (print "%s: showing plot (matplotlib window)"
                     [PyStr name_]) ;;
    host_do (Pyplot Show) (pyplot host Show)) ;;
  match filename with
  | Some filename_ =>
      when verbose_ (print "%s: saving plot (%s)"
                       [PyStr name_; PyStr filename_]) ;;
      host_do (Pyplot (SaveFig filename_ 150))
        (pyplot host (SaveFig filename_ 150))
  | None => ret tt
  end ;;
  host_do (Pyplot ClosePlot) (pyplot host ClosePlot) ;;
  when verbose_ (print "%s: -> done plotting spectrum." [PyStr name_]) ;;
  ret tt.

(** A computation that makes the matplotlib calls [cs] in order up to the
    first that raises, returns when none does, and does nothing else but
    print. *)
Definition makes_calls {D : Type} (host : Host D) (m : M D unit)
  (cs : list plot_call) : Prop :=
  forall s,
    let p := pyplot_calls host cs (device s) in
    result (m s) = match fst (fst p) with
                   | Some x => Raised x
                   | None => Returned tt
                   end
    /\ self (final (m s)) = self s
    /\ device (final (m s)) = snd (fst p)
    /\ effects (events (m s)) = map Pyplot (snd p).

(** The device after the [n]-th round of the waiting loop (sleep [t], then
    query the status on handle [h]), when every sleep and query up to that
    round succeeds and that round is the first to report a finished
    scan. *)
Fixpoint ready_after {D : Type} (host : Host D) (h : Z) (t : float)
  (n : nat) (d : D) : option D :=
  match n with
  | O => None
  | S k =>
      let slept := time_sleep host t d in
      let out := tlccs_getDeviceStatus host h (snd slept) in
      match fst slept with
      | Some _ => None
      | None =>
          if c_int32_value (fst (fst out)) =? 0 then
            if Z.testbit (snd (fst out)) 4 then
              match k with
              | O => Some (snd out)
              | S _ => None
              end
            else ready_after host h t k (snd out)
          else None
      end
  end.

(** The object with [self.verbose] and [self.very_verbose] replaced. *)
Definition with_verbosity (v vv : bool) (o : Spectrometer) : Spectrometer :=
  {| name := name o; verbose := v; very_verbose := vv;
     handle := handle o; device_info := device_info o;
     wavelength_data := wavelength_data o;
     wavelength_min := wavelength_min o; wavelength_max := wavelength_max o;
     status := status o;
     status_idle_soft_trig := status_idle_soft_trig o;
     status_idle_ext_trig := status_idle_ext_trig o;
     status_scan_starting := status_scan_starting o;
     status_scan_in_progress := status_scan_in_progress o;
     status_scan_ready := status_scan_ready o;
     scan_data := scan_data o; integration_time_s := integration_time_s o |}.

Definition at_verbosity {D : Type} (v vv : bool) (s : state D) : state D :=
  {| self := with_verbosity v vv (self s); device := device s |}.

(** Two executions that differ at most in what they print and in the two
    verbosity flags of the object they leave: the same outcome (returned
    values related by [R]), and the same events apart from the printing. *)
Definition agree {D A : Type} (v vv : bool) (R : A -> A -> Prop)
  (x y : execution D A) : Prop :=
  match result x, result y with
  | Returned a, Returned b => R a b
  | Raised e, Raised e' => e' = e
  | StillRunning, StillRunning => True
  | _, _ => False
  end
  /\ final y = at_verbosity v vv (final x)
  /\ effects (events y) = effects (events x).

(** [m'] on the object with the verbosity flags [v] and [vv] does what [m]
    does on the object as it is, apart from the printing. *)
Definition verbosity_blind {D A : Type} (v vv : bool) (R : A -> A -> Prop)
  (m m' : M D A) : Prop :=
  forall s, agree v vv R (m s) (m' (at_verbosity v vv s)).

(** A computation that returns, having at most printed. *)
Definition only_prints {D A : Type} (m : M D A) : Prop :=
  forall s, (exists a, result (m s) = Returned a)
            /\ final (m s) = s
            /\ effects (events (m s)) = [].

(** The statements of [__init__] that follow the checked init call, with
    the values of [self.verbose] and [self.name] it has read. *)
Definition after_init {D : Type} (host : Host D) (verbose_ : bool)
  (name_ : string) : M D unit :=
  when verbose_ (print "%s: open and ready." [PyStr name_]) ;;
  _get_device_info host ;;
  _get_wavelength_data host false ;;
  _get_status host ;;
  get_integration_time host ;;
  ret tt.

(** A string without a NUL character. *)
Fixpoint nul_free (s : string) : bool :=
  match s with
  | EmptyString => true
  | String c rest => negb (Ascii.eqb c Ascii.zero) && nul_free rest
  end.

(** The attributes a scan writes: the status word, its five flags and the
    stored scan. *)
Definition scan_state (o : Spectrometer)
  : Z * bool * bool * bool * bool * bool * option (list float) :=
  (status o, status_idle_soft_trig o, status_idle_ext_trig o,
   status_scan_starting o, status_scan_in_progress o, status_scan_ready o,
   scan_data o).

(** The calls of a client program that scan, and those that read or set
    the integration time. *)
Definition is_GetSpectrum_ (m : method) : bool :=
  match m with GetSpectrum_ _ _ => true | _ => false end.

Definition is_integration_time_call (m : method) : bool :=
  match m with
  | GetIntegrationTime_ | SetIntegrationTime_ _ => true
  | _ => false
  end.

(** * Properties *)

(** ** Bits of the status word *)

Lemma c_int32_value_mod (z : Z) : c_int32_value z mod 2 ^ 32 = z mod 2 ^ 32.
Proof.
  unfold c_int32_value.
  rewrite Zminus_mod_idemp_l.
  f_equal. lia.
Qed.

Lemma c_int32_value_testbit (z i : Z) :
  0 <= i < 32 -> Z.testbit (c_int32_value z) i = Z.testbit z i.
Proof.
  intros Hi.
  rewrite <- (Z.mod_pow2_bits_low (c_int32_value z) 32 i) by lia.
  rewrite c_int32_value_mod.
  apply Z.mod_pow2_bits_low. lia.
Qed.

(** Masking with a single bit and testing for non-zero reads that bit. *)
Lemma py_bool_land_pow2 (v k : Z) :
  0 <= k -> py_bool (Z.land v (2 ^ k)) = Z.testbit v k.
Proof.
  intros Hk. unfold py_bool.
  destruct (Z.testbit v k) eqn:Hb.
  - apply negb_true_iff, Z.eqb_neq. intros H0.
    assert (Hk' : Z.testbit (Z.land v (2 ^ k)) k = true).
    { rewrite Z.land_spec, Hb, Z.pow2_bits_true; auto. }
    rewrite H0, Z.bits_0 in Hk'. discriminate.
  - apply negb_false_iff, Z.eqb_eq.
    apply Z.bits_inj'. intros n Hn.
    rewrite Z.land_spec, Z.bits_0.
    destruct (Z.eq_dec n k) as [->|Hne].
    + rewrite Hb. reflexivity.
    + rewrite Z.pow2_bits_false by lia. apply andb_false_r.
Qed.

(** ** Logs *)

Lemma effects_app (l1 l2 : list event) :
  effects (l1 ++ l2) = effects l1 ++ effects l2.
Proof. apply filter_app. Qed.

Lemma effects_cons (e : event) (l : list event) :
  effects (e :: l) = (if is_print e then [] else [e]) ++ effects l.
Proof. unfold effects. cbn [filter]. now destruct (is_print e). Qed.

Lemma effects_nil : effects [] = [].
Proof. reflexivity. Qed.

Lemma dll_calls_app (l1 l2 : list event) :
  dll_calls (l1 ++ l2) = dll_calls l1 ++ dll_calls l2.
Proof. apply filter_app. Qed.

Lemma dll_calls_effects (l : list event) : dll_calls (effects l) = dll_calls l.
Proof.
  induction l as [|e l IH]; [reflexivity|].
  unfold effects, dll_calls in *.
  destruct e; cbn; rewrite ?IH; reflexivity.
Qed.

(** A filter that lets no console output through sees only the effects. *)
Lemma filter_effects (q : event -> bool) (l : list event) :
  (forall f a e, q (Print f a e) = false) ->
  filter q (effects l) = filter q l.
Proof.
  intros Hq. induction l as [|e l IH]; [reflexivity|].
  unfold effects in *.
  destruct e; cbn; rewrite ?IH, ?Hq; reflexivity.
Qed.

(** ** Executing the methods *)

Ltac munfold :=
  unfold host_do, print, print_end, when, assert, assert_msg,
    bind, ret, raise, still_running, attr, assign, emit, world.

Ltac mred :=
  cbn [result final events self device fst snd app negb andb orb
       name verbose very_verbose handle device_info wavelength_data
       wavelength_min wavelength_max status status_idle_soft_trig
       status_idle_ext_trig status_scan_starting status_scan_in_progress
       status_scan_ready scan_data integration_time_s
       set_handle set_device_info set_wavelength set_status set_status_flags
       set_scan_data set_integration_time_s decoded].

Ltac mred_all :=
  cbn [result final events self device fst snd app negb andb orb
       name verbose very_verbose handle device_info wavelength_data
       wavelength_min wavelength_max status status_idle_soft_trig
       status_idle_ext_trig status_scan_starting status_scan_in_progress
       status_scan_ready scan_data integration_time_s
       set_handle set_device_info set_wavelength set_status set_status_flags
       set_scan_data set_integration_time_s decoded] in *.

(** Pushing [effects] down to the events of the calls made. *)
Ltac effs :=
  repeat first [rewrite effects_cons | rewrite effects_app
               | rewrite effects_nil];
  cbn [is_print app].

(** A computation that waits for a condition to be decided. *)
Ltac stuck_if :=
  match goal with
  | |- context [(if ?b then _ else _) _] => destruct b eqn:?
  | |- context [Exec (if ?b then _ else _) _ _] => destruct b eqn:?
  | |- context [match (if ?b then _ else _) with
                | Returned _ => _ | Raised _ => _ | StillRunning => _ end] =>
      destruct b eqn:?
  | |- context [match (if ?b then _ else _) with Exec _ _ _ => _ end] =>
      destruct b eqn:?
  end.

(** Closing the goals of a finished execution. *)
Ltac wrap_up :=
  effs; mred_all;
  repeat match goal with
         | H : ?b = _ |- context [?b] => rewrite H
         end;
  auto.

Section Executions.

Context {D : Type} (host : Host D).

Lemma check_error_exec (c : Z) (s : state D) :
  check_error c s =
    if c =? 0 then Exec (Returned c) s []
    else Exec (Raised (driver_error c)) s
           [Print "Error message from Thorlabs CCS100: " [] ""].
Proof.
  unfold check_error. destruct (c =? 0); reflexivity.
Qed.

(** A call into the library: the event, then the status code decides. *)
Lemma foreign_exec {A} (e : event) (f : D -> Z * A * D) (s : state D) :
  let out := f (device s) in
  let c := c_int32_value (fst (fst out)) in
  foreign e f s =
    Exec (if c =? 0 then Returned (snd (fst out))
          else Raised (driver_error c))
      {| self := self s; device := snd out |}
      (e :: if c =? 0 then []
            else [Print "Error message from Thorlabs CCS100: " [] ""]).
Proof.
  intros out c. subst out c.
  unfold foreign. munfold. rewrite check_error_exec.
  destruct (c_int32_value (fst (fst (f (device s)))) =? 0); reflexivity.
Qed.

Lemma _get_status_exec (s : state D) :
  let out := tlccs_getDeviceStatus host (handle (self s)) (device s) in
  let c := c_int32_value (fst (fst out)) in
  let w := c_int32_value (snd (fst out)) in
  result (_get_status host s) =
    (if c =? 0 then Returned w else Raised (driver_error c))
  /\ self (final (_get_status host s)) =
       (if c =? 0 then decoded w (self s) else set_status w (self s))
  /\ device (final (_get_status host s)) = snd out
  /\ effects (events (_get_status host s)) =
       [GetDeviceStatus (handle (self s))].
Proof.
  intros out c w. subst out c w.
  unfold _get_status. munfold. mred.
  destruct (very_verbose (self s)); mred; rewrite check_error_exec;
    destruct (c_int32_value
                (fst (fst (tlccs_getDeviceStatus host (handle (self s))
                             (device s)))) =? 0);
    mred; effs; auto.
Qed.

Lemma get_integration_time_exec (s : state D) :
  let out := tlccs_getIntegrationTime host (handle (self s)) (device s) in
  let c := c_int32_value (fst (fst out)) in
  result (get_integration_time host s) =
    (if c =? 0 then Returned (snd (fst out)) else Raised (driver_error c))
  /\ self (final (get_integration_time host s)) =
       (if c =? 0 then set_integration_time_s (snd (fst out)) (self s)
        else self s)
  /\ device (final (get_integration_time host s)) = snd out
  /\ effects (events (get_integration_time host s)) =
       [GetIntegrationTime (handle (self s))].
Proof.
  intros out c. subst out c.
  unfold get_integration_time, dll_get_integration_time. munfold. mred.
  destruct (verbose (self s)); mred; rewrite foreign_exec; mred;
    destruct (c_int32_value
                (fst (fst (tlccs_getIntegrationTime host (handle (self s))
                             (device s)))) =? 0);
    mred; effs; auto.
Qed.

Lemma _start_scan_exec (s : state D) :
  let out := tlccs_startScan host (handle (self s)) (device s) in
  let c := c_int32_value (fst out) in
  result (_start_scan host s) =
    (if c =? 0 then Returned tt else Raised (driver_error c))
  /\ self (final (_start_scan host s)) = self s
  /\ device (final (_start_scan host s)) = snd out
  /\ effects (events (_start_scan host s)) = [StartScan (handle (self s))].
Proof.
  intros out c. subst out c.
  unfold _start_scan, dll_start_scan. munfold. mred.
  destruct (very_verbose (self s)); mred; rewrite foreign_exec;
    unfold no_output; mred;
    destruct (c_int32_value
                (fst (tlccs_startScan host (handle (self s)) (device s)))
              =? 0);
    mred; effs; auto.
Qed.

Lemma _get_scan_data_exec (s : state D) :
  let out := tlccs_getScanData host (handle (self s)) (device s) in
  let c := c_int32_value (fst (fst out)) in
  let data := c_double_array pixels (snd (fst out)) in
  result (_get_scan_data host s) =
    (if c =? 0 then Returned data else Raised (driver_error c))
  /\ self (final (_get_scan_data host s)) =
       (if c =? 0 then set_scan_data data (self s) else self s)
  /\ device (final (_get_scan_data host s)) = snd out
  /\ effects (events (_get_scan_data host s)) =
       [GetScanData (handle (self s))].
Proof.
  intros out c data. subst out c data.
  unfold _get_scan_data, dll_get_scan_data. munfold. mred.
  destruct (very_verbose (self s)); mred; rewrite foreign_exec; mred;
    destruct (c_int32_value
                (fst (fst (tlccs_getScanData host (handle (self s))
                             (device s)))) =? 0);
    mred; effs; auto.
Qed.

Lemma close_exec (s : state D) :
  let out := tlccs_close host (handle (self s)) (device s) in
  let c := c_int32_value (fst out) in
  result (close host s) =
    (if c =? 0 then Returned tt else Raised (driver_error c))
  /\ self (final (close host s)) = self s
  /\ device (final (close host s)) = snd out
  /\ effects (events (close host s)) = [Close (handle (self s))].
Proof.
  intros out c. subst out c.
  unfold close, dll_close. munfold. mred.
  destruct (verbose (self s)); mred; rewrite foreign_exec;
    unfold no_output; mred;
    destruct (c_int32_value
                (fst (tlccs_close host (handle (self s)) (device s)))
              =? 0);
    mred; effs; auto.
Qed.

End Executions.

(** ** The error check on every library call *)

(** C5: [check_error] raises exactly when the status code is non-zero, and
    the exception then carries that code; a zero code is returned as it is.
    The check leaves the object and the device alone and calls nothing in
    the library, so no error text is fetched.  Every registered entry point
    goes through it: a library call returns what the library stored when the
    code is zero and raises the same exception otherwise. *)
Theorem check_error_raises_iff_nonzero {D : Type} (c : Z) (s : state D) :
  result (check_error c s) =
    (if c =? 0 then Returned c
     else Raised (UserWarning
                    "Thorlabs CCS100 error: %i; see above for details."
                    [PyInt c]))
  /\ ((exists e, result (check_error c s) = Raised e) <-> c <> 0)
  /\ final (check_error c s) = s
  /\ dll_calls (events (check_error c s)) = []
  /\ (forall (A : Type) (e : event) (f : D -> Z * A * D),
        let c' := c_int32_value (fst (fst (f (device s)))) in
        result (foreign e f s) =
          (if c' =? 0 then Returned (snd (fst (f (device s))))
           else Raised (UserWarning
                          "Thorlabs CCS100 error: %i; see above for details."
                          [PyInt c']))
        /\ dll_calls (events (foreign e f s)) = dll_calls [e]).
Proof.
  assert (Hforeign :
            forall (A : Type) (e : event) (f : D -> Z * A * D),
              let c' := c_int32_value (fst (fst (f (device s)))) in
              result (foreign e f s) =
                (if c' =? 0 then Returned (snd (fst (f (device s))))
                 else Raised (driver_error c'))
              /\ dll_calls (events (foreign e f s)) = dll_calls [e]).
  { intros A e f c'. rewrite foreign_exec. fold c'. cbn [result events].
    split; [reflexivity|].
    change (e :: ?l) with ([e] ++ l). rewrite dll_calls_app.
    destruct (c' =? 0); cbn [dll_calls filter is_dll_call];
      now rewrite app_nil_r. }
  rewrite check_error_exec.
  destruct (Z.eqb_spec c 0) as [->|Hc]; cbn [result final events].
  - split; [reflexivity|]. split; [|auto].
    split; [intros [e He]; discriminate He | intros H; now contradiction H].
  - split; [reflexivity|]. split; [|auto].
    split; [auto | intros _; now exists (driver_error c)].
Qed.

(** ** Decoding the status word *)

(** C2: when the status query succeeds, [_get_status] stores the status word
    and sets the five flags to bits 1, 7, 3, 2 and 4 of the word the library
    reported; with word [0x0010] only [status_scan_ready] is set, with
    [0x0002] only [status_idle_soft_trig].  When the query fails the flags
    keep their values. *)
Theorem get_status_decodes_bits {D : Type} (host : Host D) (s : state D) :
  let out := tlccs_getDeviceStatus host (handle (self s)) (device s) in
  let word := snd (fst out) in
  let o := self (final (_get_status host s)) in
  let flags o := (status_idle_soft_trig o, status_idle_ext_trig o,
                  status_scan_starting o, status_scan_in_progress o,
                  status_scan_ready o) in
  if c_int32_value (fst (fst out)) =? 0 then
    result (_get_status host s) = Returned (c_int32_value word)
    /\ status o = c_int32_value word
    /\ status_idle_soft_trig o = py_bool (Z.land (status o) 0x0002)
    /\ status_idle_ext_trig o = py_bool (Z.land (status o) 0x0080)
    /\ status_scan_starting o = py_bool (Z.land (status o) 0x0008)
    /\ status_scan_in_progress o = py_bool (Z.land (status o) 0x0004)
    /\ status_scan_ready o = py_bool (Z.land (status o) 0x0010)
    /\ flags o = (Z.testbit word 1, Z.testbit word 7, Z.testbit word 3,
                  Z.testbit word 2, Z.testbit word 4)
    /\ (word = 0x0010 -> flags o = (false, false, false, false, true))
    /\ (word = 0x0002 -> flags o = (true, false, false, false, false))
  else
    flags o = flags (self s).
Proof.
  intros out word o flags.
  destruct (_get_status_exec host s) as (Hr & Hs & _ & _).
  fold out in Hr, Hs. fold word in Hr, Hs. fold o in Hs.
  clearbody o.
  destruct (c_int32_value (fst (fst out)) =? 0); subst o;
    [|reflexivity].
  assert (Hbits : flags (decoded (c_int32_value word) (self s)) =
                    (Z.testbit word 1, Z.testbit word 7, Z.testbit word 3,
                     Z.testbit word 2, Z.testbit word 4)).
  { unfold flags.
    cbn [decoded set_status_flags status_idle_soft_trig
         status_idle_ext_trig status_scan_starting status_scan_in_progress
         status_scan_ready].
    change 0x0002 with (2 ^ 1). change 0x0080 with (2 ^ 7).
    change 0x0008 with (2 ^ 3). change 0x0004 with (2 ^ 2).
    change 0x0010 with (2 ^ 4).
    rewrite !py_bool_land_pow2 by lia.
    rewrite !c_int32_value_testbit by lia. reflexivity. }
  split; [exact Hr|].
  do 6 (split; [reflexivity|]).
  split; [exact Hbits|].
  split; intros Hw; rewrite Hbits, Hw; reflexivity.
Qed.

(** The two sample words on the simulated instrument. *)
Lemma get_status_decodes_bits_witness :
  let flags o := (status_idle_soft_trig o, status_idle_ext_trig o,
                  status_scan_starting o, status_scan_in_progress o,
                  status_scan_ready o) in
  flags (self (final (_get_status Sim.host (Sim.opened [0x0010]))))
  = (false, false, false, false, true)
  /\ flags (self (final (_get_status Sim.host (Sim.opened [0x0002]))))
     = (true, false, false, false, false).
Proof.
  split.
  - pose proof (get_status_decodes_bits Sim.host (Sim.opened [0x0010]))
      as H.
    cbv zeta in H.
    change (c_int32_value
              (fst (fst (tlccs_getDeviceStatus Sim.host
                           (handle (self (Sim.opened [0x0010])))
                           (device (Sim.opened [0x0010]))))) =? 0)
      with true in H.
    cbv iota in H.
    exact (proj1 (proj2 (proj2 (proj2 (proj2 (proj2 (proj2 (proj2
             (proj2 H)))))))) eq_refl).
  - pose proof (get_status_decodes_bits Sim.host (Sim.opened [0x0002]))
      as H.
    cbv zeta in H.
    change (c_int32_value
              (fst (fst (tlccs_getDeviceStatus Sim.host
                           (handle (self (Sim.opened [0x0002])))
                           (device (Sim.opened [0x0002]))))) =? 0)
      with true in H.
    cbv iota in H.
    exact (proj2 (proj2 (proj2 (proj2 (proj2 (proj2 (proj2 (proj2
             (proj2 H)))))))) eq_refl).
Defined.

(** ** A scan requested while the instrument is not idle *)

Lemma idle_bit_clear (word : Z) :
  Z.land word 0x0002 = 0 ->
  py_bool (Z.land (c_int32_value word) 0x0002) = false.
Proof.
  intros H0. change 0x0002 with (2 ^ 1) in *.
  rewrite py_bool_land_pow2, c_int32_value_testbit by lia.
  rewrite <- py_bool_land_pow2 by lia. now rewrite H0.
Qed.

(** What [get_spectrum] does when the status query succeeds with the idle
    bit clear: it returns [None] after that one query, and the object is the
    old one with the status word and flags stored. *)
Lemma get_spectrum_not_idle {D : Type} (host : Host D) (fuel : nat)
  (filename : option string) (s : state D) :
  let out := tlccs_getDeviceStatus host (handle (self s)) (device s) in
  c_int32_value (fst (fst out)) = 0 ->
  Z.land (snd (fst out)) 0x0002 = 0 ->
  result (get_spectrum host fuel filename s) = Returned None
  /\ self (final (get_spectrum host fuel filename s)) =
       decoded (c_int32_value (snd (fst out))) (self s)
  /\ device (final (get_spectrum host fuel filename s)) = snd out
  /\ effects (events (get_spectrum host fuel filename s)) =
       [GetDeviceStatus (handle (self s))].
Proof.
  intros out Hc Hidle.
  destruct (_get_status_exec host s) as (Hr & Hs & Hd & He).
  fold out in Hr, Hs, Hd. rewrite Hc in Hr, Hs. cbn [Z.eqb] in Hr, Hs.
  unfold get_spectrum. munfold. mred.
  destruct (verbose (self s)); mred;
    destruct (_get_status host s) as [r s1 evs1];
    cbn [result final events] in Hr, Hs, Hd, He; subst r;
    mred; rewrite Hs; mred;
    rewrite (idle_bit_clear _ Hidle); mred;
    effs; rewrite ?He; auto.
Qed.

(** C3: when [get_spectrum] reads a status word whose idle bit [0x0002] is
    clear, it returns [None], and the status query is the only call it makes
    into the library: no scan is started and no scan data is fetched. *)
Theorem get_spectrum_not_idle_returns_none {D : Type} (host : Host D)
  (fuel : nat) (filename : option string) (s : state D) :
  let out := tlccs_getDeviceStatus host (handle (self s)) (device s) in
  c_int32_value (fst (fst out)) = 0 ->
  Z.land (snd (fst out)) 0x0002 = 0 ->
  result (get_spectrum host fuel filename s) = Returned None
  /\ dll_calls (events (get_spectrum host fuel filename s)) =
       [GetDeviceStatus (handle (self s))]
  /\ filter is_start_scan (events (get_spectrum host fuel filename s)) = []
  /\ filter is_get_scan_data (events (get_spectrum host fuel filename s))
     = []
  /\ filter is_file_event (events (get_spectrum host fuel filename s)) = [].
Proof.
  intros out Hc Hidle.
  destruct (get_spectrum_not_idle host fuel filename s Hc Hidle)
    as (Hr & _ & _ & He).
  split; [exact Hr|].
  rewrite <- dll_calls_effects.
  rewrite <- (filter_effects is_start_scan) by reflexivity.
  rewrite <- (filter_effects is_get_scan_data) by reflexivity.
  rewrite <- (filter_effects is_file_event) by reflexivity.
  rewrite He. repeat split.
Qed.

(** The simulated instrument, opened, reports status word [0x0010]: not
    idle. *)
Lemma get_spectrum_not_idle_returns_none_witness :
  let s := Sim.opened [0x0010] in
  let r := get_spectrum Sim.host 5 (Some "example") s in
  result r = Returned None
  /\ dll_calls (events r) = [GetDeviceStatus (handle (self s))]
  /\ filter is_start_scan (events r) = []
  /\ filter is_get_scan_data (events r) = []
  /\ filter is_file_event (events r) = [].
Proof.
  apply (get_spectrum_not_idle_returns_none Sim.host 5 (Some "example")
           (Sim.opened [0x0010])); reflexivity.
Defined.

(** C9: when [get_spectrum] gives up because the idle bit is clear, the
    object it leaves is the old one with only the status word and the five
    flags assigned: [scan_data], [wavelength_data], [integration_time_s] and
    the attributes set at construction are what they were. *)
Theorem get_spectrum_not_idle_keeps_data {D : Type} (host : Host D)
  (fuel : nat) (filename : option string) (s : state D) :
  let out := tlccs_getDeviceStatus host (handle (self s)) (device s) in
  let o' := self (final (get_spectrum host fuel filename s)) in
  c_int32_value (fst (fst out)) = 0 ->
  Z.land (snd (fst out)) 0x0002 = 0 ->
  scan_data o' = scan_data (self s)
  /\ wavelength_data o' = wavelength_data (self s)
  /\ integration_time_s o' = integration_time_s (self s)
  /\ setup o' = setup (self s)
  /\ o' = set_status_flags
            (status_idle_soft_trig o') (status_idle_ext_trig o')
            (status_scan_starting o') (status_scan_in_progress o')
            (status_scan_ready o') (set_status (status o') (self s))
  /\ status o' = c_int32_value (snd (fst out)).
Proof.
  intros out o' Hc Hidle.
  destruct (get_spectrum_not_idle host fuel filename s Hc Hidle)
    as (_ & Hs & _ & _).
  fold o' in Hs. clearbody o'. subst o'.
  repeat split.
Qed.

Lemma get_spectrum_not_idle_keeps_data_witness :
  let s := Sim.opened [0x0010] in
  let o' := self (final (get_spectrum Sim.host 5 (Some "example") s)) in
  scan_data o' = scan_data (self s)
  /\ wavelength_data o' = wavelength_data (self s)
  /\ integration_time_s o' = integration_time_s (self s)
  /\ setup o' = setup (self s)
  /\ o' = set_status_flags
            (status_idle_soft_trig o') (status_idle_ext_trig o')
            (status_scan_starting o') (status_scan_in_progress o')
            (status_scan_ready o') (set_status (status o') (self s))
  /\ status o' = c_int32_value 0x0010.
Proof.
  apply (get_spectrum_not_idle_keeps_data Sim.host 5 (Some "example")
           (Sim.opened [0x0010])); reflexivity.
Defined.

(** ** Setting the integration time *)

(** For an [int], the range check is [1 <= z <= 60]. *)
Lemma in_range_int (z : Z) : in_range (PyInt z) = ((1 <=? z) && (z <=? 60)).
Proof.
  unfold in_range, float_le_num, num_le_float, int_value,
    float_le_int, int_le_float.
  replace (Prim2SF integration_time_min)
    with (S754_finite false 5902958103587057 (-69)) by (vm_compute; reflexivity).
  replace (Prim2SF integration_time_max)
    with (S754_finite false 8444249301319680 (-47)) by (vm_compute; reflexivity).
  cbn [Z.leb Z.compare Z.opp].
  f_equal.
  - destruct (Z.leb_spec 1 z), (Z.leb_spec 5902958103587057 (z * 2 ^ 69));
      try reflexivity; lia.
  - destruct (Z.leb_spec z 60), (Z.leb_spec (z * 2 ^ 47) 8444249301319680);
      try reflexivity; lia.
Qed.

Lemma set_integration_time_rejects {D : Type} (host : Host D) (v : pyval)
  (s : state D) :
  numeric v && in_range v = false ->
  result (set_integration_time host v s) =
    Raised (if numeric v
            then AssertionError "%s: integration_time_s (%s) out of range"
                   [PyStr (name (self s)); v]
            else AssertionError "%s: unexpected type for integration_time_s"
                   [PyStr (name (self s))])
  /\ final (set_integration_time host v s) = s
  /\ effects (events (set_integration_time host v s)) = [].
Proof.
  unfold numeric, in_range. intros H.
  unfold set_integration_time. munfold. mred.
  destruct (verbose (self s)); mred;
    destruct (isinstance_int v || isinstance_float v); mred; effs; auto;
    cbn [andb] in H; rewrite H; mred; effs; auto.
Qed.

Lemma set_integration_time_accepts {D : Type} (host : Host D) (v : pyval)
  (s : state D) :
  numeric v = true -> in_range v = true ->
  let h := handle (self s) in
  let set_ := tlccs_setIntegrationTime host h (as_double v) (device s) in
  let get_ := tlccs_getIntegrationTime host h (snd set_) in
  let c1 := c_int32_value (fst set_) in
  let c2 := c_int32_value (fst (fst get_)) in
  let read_back := snd (fst get_) in
  let r := set_integration_time host v s in
  effects (events r) =
    SetIntegrationTime h (as_double v)
    :: (if c1 =? 0 then [GetIntegrationTime h] else [])
  /\ result r =
       (if c1 =? 0 then
          if c2 =? 0 then
            if within_tolerance read_back v then Returned tt
            else Raised (AssertionError "" [])
          else Raised (driver_error c2)
        else Raised (driver_error c1))
  /\ self (final r) =
       (if (c1 =? 0) && (c2 =? 0)
        then set_integration_time_s read_back (self s) else self s).
Proof.
  intros Hnum Hrange h set_ get_ c1 c2 read_back r.
  unfold numeric, in_range in Hnum, Hrange. unfold within_tolerance.
  subst r. unfold set_integration_time, dll_set_integration_time.
  munfold.
  pose proof (get_integration_time_exec host
                {| self := self s; device := snd set_ |}) as Hget.
  cbn [self device] in Hget. fold h in Hget. fold get_ in Hget.
  fold c2 in Hget. fold read_back in Hget.
  destruct Hget as (Hr & Hs & _ & He).
  destruct (get_integration_time host
              {| self := self s; device := snd set_ |})
    as [r1 s1 evs1] eqn:Hrun.
  cbn [result final events] in Hr, Hs, He. subst r1.
  repeat (mred; rewrite ?Hnum, ?Hrange, ?foreign_exec; unfold no_output;
          mred; fold h set_ c1; rewrite ?Hrun, ?Hs; try stuck_if).
  all: effs; rewrite ?He; wrap_up.
Qed.

(** C1, as the program has it: [set_integration_time] on a numeric argument
    within [1e-5, 60] passes the value to the library as a double before
    anything else; when it returns, the value [t] read back and stored in
    [integration_time_s] has passed the two checks of the program,
    [t <= v + tol_s] and [t >= v - tol_s], in which the sum and the
    difference are binary64 values, rounded; and when both library calls
    succeed the stored value is the one read back and the call returns
    exactly when that value passes the two checks (an [AssertionError]
    otherwise).  The two checks do not keep [t] within 0.01 of the request:
    see the request for 0.5 below.  On any other argument it raises an
    [AssertionError] with the object, the device and the library untouched.
    For an [int] the range is [1 <= z <= 60]. *)
Theorem set_integration_time_checked {D : Type} (host : Host D) (v : pyval)
  (s : state D) :
  let h := handle (self s) in
  let set_ := tlccs_setIntegrationTime host h (as_double v) (device s) in
  let get_ := tlccs_getIntegrationTime host h (snd set_) in
  let read_back := snd (fst get_) in
  let r := set_integration_time host v s in
  (numeric v = true -> in_range v = true ->
   (exists rest,
       dll_calls (events r) = SetIntegrationTime h (as_double v) :: rest)
   /\ (result r = Returned tt ->
       PrimFloat.leb (integration_time_s (self (final r)))
         (PrimFloat.add (as_double v) tol_s) = true
       /\ PrimFloat.leb (PrimFloat.sub (as_double v) tol_s)
            (integration_time_s (self (final r))) = true)
   /\ (c_int32_value (fst set_) = 0 -> c_int32_value (fst (fst get_)) = 0 ->
       integration_time_s (self (final r)) = read_back
       /\ result r = (if within_tolerance read_back v then Returned tt
                      else Raised (AssertionError "" []))))
  /\ (numeric v && in_range v = false ->
      (exists format args, result r = Raised (AssertionError format args))
      /\ final r = s
      /\ dll_calls (events r) = [])
  /\ (forall z, in_range (PyInt z) = ((1 <=? z) && (z <=? 60)))
  /\ (forall f, in_range (PyFloat f) =
                (PrimFloat.leb 1e-5 f && PrimFloat.leb f 60)).
Proof.
  intros h set_ get_ read_back r.
  split; [|split; [|split]].
  - intros Hnum Hrange.
    destruct (set_integration_time_accepts host v s Hnum Hrange)
      as (He & Hr & Hs).
    fold h set_ get_ read_back r in He, Hr, Hs.
    split; [|split].
    + rewrite <- dll_calls_effects, He.
      cbn [dll_calls filter is_dll_call]. eauto.
    + rewrite Hr, Hs.
      destruct (c_int32_value (fst set_) =? 0); [|discriminate].
      destruct (c_int32_value (fst (fst get_)) =? 0); [|discriminate].
      cbn [andb integration_time_s set_integration_time_s].
      destruct (within_tolerance read_back v) eqn:Htol; [|discriminate].
      intros _. unfold within_tolerance, float_ge in Htol.
      now apply andb_true_iff in Htol.
    + intros H1 H2. rewrite Hr, Hs, H1, H2. cbn. auto.
  - intros Hbad.
    destruct (set_integration_time_rejects host v s Hbad) as (Hr & Hs & He).
    fold r in Hr, Hs, He.
    split; [|split; [exact Hs|]].
    + rewrite Hr. destruct (numeric v); eauto.
    + now rewrite <- dll_calls_effects, He.
  - apply in_range_int.
  - reflexivity.
Qed.

(** A request for 0.1 s on the simulated instrument. *)
Lemma set_integration_time_checked_witness :
  let s := Sim.opened [] in
  let r := set_integration_time Sim.host (PyFloat 0.1) s in
  (exists rest,
      dll_calls (events r) = SetIntegrationTime 1 0.1 :: rest)
  /\ (result r = Returned tt ->
      PrimFloat.leb (integration_time_s (self (final r)))
        (PrimFloat.add 0.1 tol_s) = true
      /\ PrimFloat.leb (PrimFloat.sub 0.1 tol_s)
           (integration_time_s (self (final r))) = true)
  /\ (0 = 0 -> 0 = 0 ->
      integration_time_s (self (final r)) = 0.1%float
      /\ result r = Returned tt).
Proof.
  exact (proj1 (set_integration_time_checked Sim.host (PyFloat 0.1)
                  (Sim.opened []))
           eq_refl eq_refl).
Defined.

(** On the simulated instrument reading back what it is given and 0.01 s
    more, a request for 0.5 s is read back as 0.51 s and accepted, although
    0.51 - 0.5 is more than 0.01: in binary64, where this difference is
    exact, and as exact numbers, a double [S754_finite false m e] being
    [m * 2 ^ e] (the difference is more than the double 0.01 and more than
    1 / 100). *)
Lemma set_integration_time_accepts_beyond_tolerance :
  result (set_integration_time Sim.host (PyFloat 0.5)
            {| self := self (Sim.opened []);
               device := {| Sim.script := []; Sim.itime := 0.01;
                            Sim.offset := 0.01; Sim.code := 0 |} |})
  = Returned tt
  /\ integration_time_s
       (self (final (set_integration_time Sim.host (PyFloat 0.5)
                       {| self := self (Sim.opened []);
                          device := {| Sim.script := []; Sim.itime := 0.01;
                                       Sim.offset := 0.01;
                                       Sim.code := 0 |} |})))
     = 0.51%float
  /\ within_tolerance 0.51 (PyFloat 0.5) = true
  /\ PrimFloat.ltb 0.01 (PrimFloat.abs (PrimFloat.sub 0.51 0.5)) = true
  /\ Prim2SF 0.51 = S754_finite false 4593671619917906 (-53)
  /\ Prim2SF 0.5 = S754_finite false 4503599627370496 (-53)
  /\ Prim2SF 0.01 = S754_finite false 5764607523034235 (-59)
  /\ 5764607523034235 < (4593671619917906 - 4503599627370496) * 2 ^ 6
  /\ 2 ^ 53 < 100 * (4593671619917906 - 4503599627370496).
Proof. vm_compute. repeat split. Qed.

(** ** Waiting for the scan *)

Section Waiting.

Context {D : Type} (host : Host D).

Lemma wait_for_scan_ready (fuel : nat) (s : state D) :
  status_scan_ready (self s) = true ->
  wait_for_scan host fuel s = Exec (Returned tt) s [].
Proof.
  intros Hready.
  destruct fuel; cbn [wait_for_scan]; munfold; mred; rewrite Hready;
    reflexivity.
Qed.

Lemma wait_for_scan_out_of_fuel (s : state D) :
  status_scan_ready (self s) = false ->
  wait_for_scan host 0 s = Exec StillRunning s [].
Proof.
  intros Hready. cbn [wait_for_scan]. munfold. mred. rewrite Hready.
  reflexivity.
Qed.

(** One round of the loop: the optional dot, the sleep, the status query,
    and then the loop again. *)
Lemma wait_for_scan_round (fuel : nat) (s : state D) :
  status_scan_ready (self s) = false ->
  let dot := if verbose (self s) then [Print "." [] ""] else [] in
  let t := PrimFloat.div (integration_time_s (self s)) (float_of_int 10) in
  let slept := time_sleep host t (device s) in
  let query := _get_status host {| self := self s; device := snd slept |} in
  let again := wait_for_scan host fuel (final query) in
  wait_for_scan host (S fuel) s =
    match fst slept with
    | Some x => Exec (Raised x) {| self := self s; device := snd slept |}
                  (dot ++ [Sleep t])
    | None =>
        match result query with
        | Returned _ =>
            Exec (result again) (final again)
              (dot ++ Sleep t :: events query ++ events again)
        | Raised e =>
            Exec (Raised e) (final query) (dot ++ Sleep t :: events query)
        | StillRunning =>
            Exec StillRunning (final query) (dot ++ Sleep t :: events query)
        end
    end.
Proof.
  intros Hready dot t slept query again.
  subst dot again query slept t.
  cbn [wait_for_scan]. munfold. mred. rewrite Hready. mred.
  destruct (verbose (self s)); mred;
    (destruct (fst (time_sleep host _ (device s))); mred;
     [reflexivity|]);
    (destruct (_get_status host _) as [[? | ? | ] s1 evs1]; mred;
     [|reflexivity|reflexivity]);
    destruct (wait_for_scan host fuel s1) as [r2 s2 evs2]; mred;
    rewrite ?app_nil_r; reflexivity.
Qed.

(** The loop returns only with the ready flag set. *)
Lemma wait_for_scan_returns_ready (fuel : nat) (s : state D) :
  result (wait_for_scan host fuel s) = Returned tt ->
  status_scan_ready (self (final (wait_for_scan host fuel s))) = true.
Proof.
  revert s. induction fuel as [|fuel IH]; intros s.
  - destruct (status_scan_ready (self s)) eqn:Hready.
    + rewrite wait_for_scan_ready by assumption. intros _. exact Hready.
    + rewrite wait_for_scan_out_of_fuel by assumption. discriminate.
  - destruct (status_scan_ready (self s)) eqn:Hready.
    + rewrite wait_for_scan_ready by assumption. intros _. exact Hready.
    + rewrite wait_for_scan_round by assumption.
      destruct (fst (time_sleep host _ (device s))); [discriminate|].
      destruct (result (_get_status host _)); try discriminate.
      cbn [result final]. apply IH.
Qed.

End Waiting.

(** ** A scan, step by step *)

Section Scanning.

Context {D : Type} (host : Host D).

Lemma write_lines_exec (path : string) (rows : list (float * float))
  (s : state D) :
  write_lines host path rows s =
    Exec (Returned tt) s
      (map (fun row => FileWrite path
                         (spectrum_line host (fst row) (snd row))) rows).
Proof.
  induction rows as [|[wave data] rows IH]; [reflexivity|].
  cbn [write_lines map fst snd]. munfold. rewrite IH. reflexivity.
Qed.

Lemma effects_file_writes (path : string) (rows : list (float * float)) :
  effects (map (fun row => FileWrite path
                             (spectrum_line host (fst row) (snd row))) rows)
  = map (fun row => FileWrite path
                      (spectrum_line host (fst row) (snd row))) rows.
Proof.
  induction rows as [|row rows IH]; [reflexivity|].
  cbn [map]. rewrite effects_cons, IH. reflexivity.
Qed.

Lemma get_spectrum_eq (fuel : nat) (filename : option string) :
  get_spectrum host fuel filename =
    (verbose_ <- attr verbose ;;
     very_verbose_ <- attr very_verbose ;;
     name_ <- attr name ;;
     when verbose_ (print "%s: getting spectrum" [PyStr name_]) ;;
     _get_status host ;;
     soft <- attr status_idle_soft_trig ;;
     if negb soft then
       soft' <- attr status_idle_soft_trig ;;
       print "%s: -> status_idle_soft_trig = %s"
         [PyStr name_; PyBool soft'] ;;
       print "%s: -> spectrometer not ready to scan with software"
         [PyStr name_] ;;
       ret None
     else
       _start_scan host ;;
       when verbose_
         (print_end "%s: -> waiting for scan..." [PyStr name_] "") ;;
       wait_for_scan host fuel ;;
       fetch_and_save host verbose_ very_verbose_ name_ filename).
Proof. reflexivity. Qed.

(** [get_spectrum] is its status query, then the start command, the waiting
    loop and the fetch, each reached only when the one before returned (and,
    for the start command, when the instrument was idle). *)
Lemma get_spectrum_exec (fuel : nat) (filename : option string)
  (s : state D) :
  let q := _get_status host s in
  let st := _start_scan host (final q) in
  let wt := wait_for_scan host fuel (final st) in
  let fs := fetch_and_save host (verbose (self s)) (very_verbose (self s))
              (name (self s)) filename (final wt) in
  let r := get_spectrum host fuel filename s in
  match result q with
  | Returned _ =>
      if status_idle_soft_trig (self (final q)) then
        match result st with
        | Returned _ =>
            match result wt with
            | Returned _ =>
                result r = result fs /\ final r = final fs
                /\ effects (events r) =
                     effects (events q) ++ effects (events st)
                     ++ effects (events wt) ++ effects (events fs)
            | other =>
                result r = match other with
                           | Raised e => Raised e
                           | _ => StillRunning
                           end
                /\ final r = final wt
                /\ effects (events r) =
                     effects (events q) ++ effects (events st)
                     ++ effects (events wt)
            end
        | other =>
            result r = match other with
                       | Raised e => Raised e
                       | _ => StillRunning
                       end
            /\ final r = final st
            /\ effects (events r) = effects (events q) ++ effects (events st)
        end
      else
        result r = Returned None /\ final r = final q
        /\ effects (events r) = effects (events q)
  | other =>
      result r = match other with
                 | Raised e => Raised e
                 | _ => StillRunning
                 end
      /\ final r = final q
      /\ effects (events r) = effects (events q)
  end.
Proof.
  intros q st wt fs r. subst r fs wt st q.
  rewrite get_spectrum_eq. munfold. mred.
  destruct (verbose (self s)); mred;
    (destruct (_get_status host s) as [[w | e | ] s1 evs1]; mred;
     [|effs; auto|effs; auto]);
    (destruct (status_idle_soft_trig (self s1)); mred;
     [|effs; rewrite ?app_nil_r; auto]);
    (destruct (_start_scan host s1) as [[u | e | ] s2 evs2]; mred;
     [|effs; auto|effs; auto]);
    (destruct (wait_for_scan host fuel s2) as [[u' | e | ] s3 evs3]; mred;
     [|effs; rewrite ?app_nil_r; auto|effs; rewrite ?app_nil_r; auto]);
    destruct (fetch_and_save host _ _ _ filename s3) as [r4 s4 evs4];
    mred; effs; auto.
Qed.

(** Fetching and saving: the scan is fetched; with a file name the file
    [filename + '.txt'] is opened, one line is written for each pair of the
    zipped arrays, and the file is closed. *)
Lemma fetch_and_save_exec (verbose_ very_verbose_ : bool) (name_ : string)
  (filename : option string) (s : state D) :
  let h := handle (self s) in
  let out := tlccs_getScanData host h (device s) in
  let c := c_int32_value (fst (fst out)) in
  let data := c_double_array pixels (snd (fst out)) in
  let waves := wavelength_data (self s) in
  let r := fetch_and_save host verbose_ very_verbose_ name_ filename s in
  if c =? 0 then
    self (final r) = set_scan_data data (self s)
    /\ match filename with
       | None =>
           result r = Returned (Some (waves, data))
           /\ effects (events r) = [GetScanData h]
       | Some filename_ =>
           let path := (filename_ ++ ".txt")%string in
           match fst (open_w host path (snd out)) with
           | Some x =>
               result r = Raised x
               /\ effects (events r) = [GetScanData h; FileOpen path]
           | None =>
               result r = Returned (Some (waves, data))
               /\ effects (events r) =
                    GetScanData h :: FileOpen path
                    :: map (fun row =>
                              FileWrite path
                                (spectrum_line host (fst row) (snd row)))
                         (combine waves data)
                    ++ [FileClose path]
           end
       end
  else
    self (final r) = self s
    /\ result r = Raised (driver_error c)
    /\ effects (events r) = [GetScanData h].
Proof.
  intros h out c data waves r. subst r.
  destruct (_get_scan_data_exec host s) as (Hr & Hs & Hd & He).
  fold h out c data in Hr, Hs, Hd, He.
  unfold fetch_and_save, attr_scan_data. munfold.
  destruct (_get_scan_data host s) as [r1 s1 evs1] eqn:Hrun.
  cbn [result final events] in Hr, Hs, Hd, He. subst r1.
  destruct (c =? 0);
    [destruct filename as [filename_|];
     [destruct (fst (open_w host (filename_ ++ ".txt") (snd out)))
        eqn:Hopen|]|].
  all: repeat (mred; rewrite ?Hrun, ?Hs, ?Hd, ?Hopen, ?write_lines_exec;
               try stuck_if).
  all: effs; rewrite ?He, ?effects_file_writes; subst waves;
    rewrite ?app_nil_r; cbn [app]; auto.
Qed.

End Scanning.

(** ** No scan data before the scan is ready *)

Lemma forallb_effects (P : event -> bool) (l : list event) :
  (forall f a e, P (Print f a e) = true) ->
  forallb P l = forallb P (effects l).
Proof.
  intros HP. induction l as [|e l IH]; [reflexivity|].
  rewrite effects_cons, forallb_app. cbn [forallb]. rewrite IH.
  destruct e; cbn [is_print forallb]; rewrite ?HP, ?andb_true_r;
    reflexivity.
Qed.

Lemma filter_none (P Q : event -> bool) (l : list event) :
  (forall e, P e = true -> Q e = false) ->
  forallb P l = true -> filter Q l = [].
Proof.
  intros HPQ. induction l as [|e l IH]; [reflexivity|].
  cbn [forallb filter]. intros H. apply andb_true_iff in H as [He Hl].
  rewrite (HPQ e He). auto.
Qed.

Lemma ready_bit (word : Z) :
  py_bool (Z.land (c_int32_value word) 0x0010) = Z.testbit word 4.
Proof.
  change 0x0010 with (2 ^ 4).
  rewrite py_bool_land_pow2, c_int32_value_testbit by lia. reflexivity.
Qed.

Section Never_ready.

Context {D : Type} (host : Host D).

(** A status query that returns leaves a flag that matches the word. *)
Lemma query_flag_matches (s : state D) (w : Z) :
  result (_get_status host s) = Returned w ->
  flag_matches (self (final (_get_status host s))).
Proof.
  destruct (_get_status_exec host s) as (Hr & Hs & _ & _).
  rewrite Hr, Hs.
  destruct (_ =? 0); [|discriminate]. intros _. reflexivity.
Qed.

Lemma query_not_ready (s : state D) (w : Z) :
  never_ready host ->
  result (_get_status host s) = Returned w ->
  status_scan_ready (self (final (_get_status host s))) = false.
Proof.
  intros Hnever.
  destruct (_get_status_exec host s) as (Hr & Hs & _ & _).
  rewrite Hr, Hs.
  destruct (_ =? 0); [|discriminate]. intros _.
  cbn [decoded set_status_flags status_scan_ready].
  rewrite ready_bit. apply Hnever.
Qed.

Lemma query_polling (s : state D) :
  forallb polling (events (_get_status host s)) = true.
Proof.
  rewrite forallb_effects by reflexivity.
  destruct (_get_status_exec host s) as (_ & _ & _ & He).
  rewrite He. reflexivity.
Qed.

(** The loop keeps the flag in step with the status word. *)
Lemma wait_for_scan_flag_matches (fuel : nat) (s : state D) :
  flag_matches (self s) ->
  result (wait_for_scan host fuel s) = Returned tt ->
  flag_matches (self (final (wait_for_scan host fuel s))).
Proof.
  revert s. induction fuel as [|fuel IH]; intros s Hm.
  - destruct (status_scan_ready (self s)) eqn:Hready.
    + rewrite wait_for_scan_ready by assumption. intros _. exact Hm.
    + rewrite wait_for_scan_out_of_fuel by assumption. discriminate.
  - destruct (status_scan_ready (self s)) eqn:Hready.
    + rewrite wait_for_scan_ready by assumption. intros _. exact Hm.
    + rewrite wait_for_scan_round by assumption.
      destruct (fst (time_sleep host _ (device s))); [discriminate|].
      destruct (result (_get_status host _)) eqn:Hq; try discriminate.
      cbn [result final]. apply IH.
      eapply query_flag_matches, Hq.
Qed.

(** The loop only sleeps and queries the status. *)
Lemma wait_for_scan_polling (fuel : nat) (s : state D) :
  forallb polling (events (wait_for_scan host fuel s)) = true.
Proof.
  revert s. induction fuel as [|fuel IH]; intros s.
  - destruct (status_scan_ready (self s)) eqn:Hready.
    + now rewrite wait_for_scan_ready by assumption.
    + now rewrite wait_for_scan_out_of_fuel by assumption.
  - destruct (status_scan_ready (self s)) eqn:Hready.
    + now rewrite wait_for_scan_ready by assumption.
    + rewrite wait_for_scan_round by assumption.
      destruct (fst (time_sleep host _ (device s)));
        [now destruct (verbose (self s))|].
      destruct (result (_get_status host _));
        cbn [events]; rewrite forallb_app; cbn [forallb polling];
        rewrite ?forallb_app, ?query_polling, ?IH;
        now destruct (verbose (self s)).
Qed.

(** With a library that never reports a finished scan the loop never
    returns. *)
Lemma wait_for_scan_never_returns (fuel : nat) (s : state D) :
  never_ready host ->
  status_scan_ready (self s) = false ->
  result (wait_for_scan host fuel s) <> Returned tt.
Proof.
  intros Hnever. revert s. induction fuel as [|fuel IH]; intros s Hready.
  - rewrite wait_for_scan_out_of_fuel by assumption. discriminate.
  - rewrite wait_for_scan_round by assumption.
    destruct (fst (time_sleep host _ (device s))); [discriminate|].
    destruct (result (_get_status host _)) eqn:Hq; try discriminate.
    cbn [result]. apply IH. eapply query_not_ready; eauto.
Qed.

(** When in addition queries and sleeps succeed, [fuel] rounds are made
    and the loop is still running. *)
Lemma wait_for_scan_polls (fuel : nat) (s : state D) :
  never_ready host -> polling_succeeds host ->
  status_scan_ready (self s) = false ->
  result (wait_for_scan host fuel s) = StillRunning
  /\ effects (events (wait_for_scan host fuel s)) =
       polls (handle (self s)) (integration_time_s (self s)) fuel.
Proof.
  intros Hnever [Hquery Hsleep]. revert s.
  induction fuel as [|fuel IH]; intros s Hready.
  - rewrite wait_for_scan_out_of_fuel by assumption. split; reflexivity.
  - rewrite wait_for_scan_round by assumption.
    rewrite Hsleep.
    set (s1 := {| self := self s; device := snd (time_sleep host _ _) |}).
    destruct (_get_status_exec host s1) as (Hr & Hs & _ & He).
    rewrite Hquery in Hr, Hs. cbn [Z.eqb] in Hr, Hs.
    rewrite Hr.
    assert (Hready' : status_scan_ready (self (final (_get_status host s1)))
                      = false)
      by (eapply query_not_ready; eauto).
    destruct (IH _ Hready') as (IHr & IHe).
    cbn [result events]. split; [exact IHr|].
    effs. rewrite He, IHe, Hs.
    cbn [polls decoded set_status_flags set_status handle
         integration_time_s self s1].
    now destruct (verbose (self s)).
Qed.

End Never_ready.

(** C4: the waiting loop of [get_spectrum] returns only with the ready flag
    set, and [get_spectrum] returns scan data only when bit 4 ([0x0010]) of
    the last status word read is set.  With a library that never reports a
    finished scan, [get_spectrum] fetches no scan data and never returns
    any, whatever bound is put on the number of rounds; when the instrument
    is idle and the calls succeed it is then still running after any number
    of rounds, having queried the status, started the scan, and made exactly
    that many rounds of sleeping a tenth of the integration time and
    querying the status again. *)
Theorem scan_fetched_only_when_ready {D : Type} (host : Host D) :
  (forall fuel s,
      result (wait_for_scan host fuel s) = Returned tt ->
      status_scan_ready (self (final (wait_for_scan host fuel s))) = true)
  /\ (forall fuel filename s v,
         result (get_spectrum host fuel filename s) = Returned (Some v) ->
         Z.testbit
           (status (self (final (get_spectrum host fuel filename s)))) 4
         = true)
  /\ (never_ready host ->
      forall fuel filename s,
        filter is_get_scan_data (events (get_spectrum host fuel filename s))
        = []
        /\ forall v,
            result (get_spectrum host fuel filename s) <> Returned (Some v))
  /\ (never_ready host -> polling_succeeds host ->
      forall fuel filename s,
        let h := handle (self s) in
        let out := tlccs_getDeviceStatus host h (device s) in
        Z.testbit (snd (fst out)) 1 = true ->
        c_int32_value (fst (tlccs_startScan host h (snd out))) = 0 ->
        result (get_spectrum host fuel filename s) = StillRunning
        /\ effects (events (get_spectrum host fuel filename s)) =
             GetDeviceStatus h :: StartScan h
             :: polls h (integration_time_s (self s)) fuel).
Proof.
  split; [|split; [|split]].
  - apply wait_for_scan_returns_ready.
  - intros fuel filename s v.
    pose proof (get_spectrum_exec host fuel filename s) as H.
    cbv zeta in H.
    destruct (result (_get_status host s)) as [w| |] eqn:Hq;
      try (destruct H as (-> & _); discriminate).
    destruct (status_idle_soft_trig _);
      [|destruct H as (-> & _); discriminate].
    pose proof (_start_scan_exec host (final (_get_status host s)))
      as (_ & Hst & _).
    destruct (result (_start_scan host _));
      try (destruct H as (-> & _); discriminate).
    pose proof (wait_for_scan_returns_ready host fuel
                  (final (_start_scan host (final (_get_status host s)))))
      as Hready.
    pose proof (wait_for_scan_flag_matches host fuel
                  (final (_start_scan host (final (_get_status host s)))))
      as Hmatch.
    destruct (result (wait_for_scan host fuel _)) as [[]| |];
      try (destruct H as (-> & _); discriminate).
    destruct H as (_ & -> & _). intros _.
    pose proof (fetch_and_save_exec host (verbose (self s))
                  (very_verbose (self s)) (name (self s)) filename
                  (final (wait_for_scan host fuel
                            (final (_start_scan host
                                      (final (_get_status host s)))))))
      as Hfs.
    cbv zeta in Hfs.
    assert (Hstatus :
              status (self (final (fetch_and_save host (verbose (self s))
                (very_verbose (self s)) (name (self s)) filename
                (final (wait_for_scan host fuel
                          (final (_start_scan host
                                    (final (_get_status host s))))))))) =
              status (self (final (wait_for_scan host fuel
                          (final (_start_scan host
                                    (final (_get_status host s)))))))).
    { destruct (_ =? 0); destruct Hfs as (-> & _); reflexivity. }
    rewrite Hstatus.
    rewrite <- py_bool_land_pow2 by lia. change (2 ^ 4) with 0x0010.
    rewrite <- Hmatch; auto.
    rewrite Hst. eapply query_flag_matches, Hq.
  - intros Hnever fuel filename s.
    pose proof (get_spectrum_exec host fuel filename s) as H.
    cbv zeta in H.
    pose proof (_get_status_exec host s) as (_ & _ & _ & Heq).
    pose proof (_start_scan_exec host (final (_get_status host s)))
      as (_ & Hst & _ & Hest).
    pose proof (wait_for_scan_polling host fuel
                  (final (_start_scan host (final (_get_status host s)))))
      as Hpoll.
    assert (Hwt : filter is_get_scan_data
                    (effects (events (wait_for_scan host fuel
                       (final (_start_scan host
                                 (final (_get_status host s))))))) = []).
    { rewrite filter_effects by reflexivity.
      apply (filter_none polling); [|exact Hpoll].
      intros []; cbn; congruence. }
    rewrite <- (filter_effects is_get_scan_data) by reflexivity.
    destruct (result (_get_status host s)) as [w| |] eqn:Hq;
      try (destruct H as (-> & _ & ->); rewrite Heq;
           split; [reflexivity|discriminate]).
    assert (Hready : status_scan_ready
                       (self (final (_start_scan host
                                       (final (_get_status host s)))))
                     = false).
    { rewrite Hst. eapply query_not_ready; eauto. }
    pose proof (wait_for_scan_never_returns host fuel _ Hnever Hready)
      as Hloop.
    destruct (status_idle_soft_trig _);
      [|destruct H as (-> & _ & ->); rewrite Heq;
        split; [reflexivity|discriminate]].
    destruct (result (_start_scan host _));
      try (destruct H as (-> & _ & ->); rewrite Heq, Hest;
           split; [reflexivity|discriminate]).
    destruct (result (wait_for_scan host fuel _)) as [[]| |];
      [now contradiction Hloop| |];
      destruct H as (-> & _ & ->);
      rewrite !filter_app, Heq, Hest, Hwt;
      (split; [reflexivity|discriminate]).
  - intros Hnever Hpolling fuel filename s h out Hidle Hstart.
    pose proof (get_spectrum_exec host fuel filename s) as H.
    cbv zeta in H.
    pose proof (_get_status_exec host s) as (Hq & Hqs & Hqd & Heq).
    fold h out in Hq, Hqs, Hqd, Heq.
    destruct Hpolling as [Hquery Hsleep].
    unfold out in Hq, Hqs. rewrite Hquery in Hq, Hqs. fold out in Hq, Hqs.
    cbn [Z.eqb] in Hq, Hqs.
    rewrite Hq, Hqs in H.
    cbn [decoded set_status_flags status_idle_soft_trig] in H.
    change 0x0002 with (2 ^ 1) in H.
    rewrite py_bool_land_pow2, c_int32_value_testbit, Hidle in H by lia.
    pose proof (_start_scan_exec host (final (_get_status host s)))
      as (Hs & Hss & _ & Hes).
    rewrite Hqs, Hqd in Hs. cbn [decoded set_status_flags set_status handle]
      in Hs. fold h in Hs. rewrite Hstart in Hs. cbn [Z.eqb] in Hs.
    rewrite Hs in H.
    assert (Hready : status_scan_ready
                       (self (final (_start_scan host
                                       (final (_get_status host s)))))
                     = false).
    { rewrite Hss. eapply query_not_ready; eauto. }
    destruct (wait_for_scan_polls host fuel _ Hnever
                (conj Hquery Hsleep) Hready) as (Hw & Hew).
    rewrite Hw in H. destruct H as (-> & _ & ->).
    split; [reflexivity|].
    rewrite Heq, Hes, Hew, Hss, Hqs.
    reflexivity.
Qed.

(** The simulated instrument stuck idle, asked for a spectrum with a bound
    of three rounds. *)
Lemma scan_fetched_only_when_ready_witness :
  let r := get_spectrum Sim.stuck 3 None (Sim.opened []) in
  (filter is_get_scan_data (events r) = []
   /\ forall v, result r <> Returned (Some v))
  /\ result r = StillRunning
  /\ effects (events r) =
       GetDeviceStatus 1 :: StartScan 1 :: polls 1 0.01 3.
Proof.
  pose (never := (fun h d => eq_refl) : never_ready Sim.stuck).
  pose (succeeds := conj (fun h d => eq_refl) (fun t d => eq_refl)
                    : polling_succeeds Sim.stuck).
  split.
  - exact (proj1 (proj2 (proj2 (scan_fetched_only_when_ready Sim.stuck)))
             never 3%nat None (Sim.opened [])).
  - exact (proj2 (proj2 (proj2 (scan_fetched_only_when_ready Sim.stuck)))
             never succeeds 3%nat None (Sim.opened []) eq_refl eq_refl).
Defined.

(** ** What a method leaves alone *)

Section Frames.

Context {D : Type} (host : Host D).
Context (P : event -> bool) {B : Type} (f : Spectrometer -> B).

Lemma framed_ret {A} (a : A) : framed (D := D) P f (ret a).
Proof. intros s. split; reflexivity. Qed.

Lemma framed_raise {A} (e : exn) : framed (D := D) (A := A) P f (raise e).
Proof. intros s. split; reflexivity. Qed.

Lemma framed_still_running {A} :
  framed (D := D) (A := A) P f still_running.
Proof. intros s. split; reflexivity. Qed.

Lemma framed_attr {A} (g : Spectrometer -> A) : framed (D := D) P f (attr g).
Proof. intros s. split; reflexivity. Qed.

Lemma framed_world {A} (g : D -> A * D) : framed P f (world g).
Proof. intros s. split; reflexivity. Qed.

Lemma framed_emit (e : event) : P e = true -> framed (D := D) P f (emit e).
Proof. intros He s. split; [reflexivity|]. cbn. now rewrite He. Qed.

Lemma framed_assign (g : Spectrometer -> Spectrometer) :
  (forall o, f (g o) = f o) -> framed (D := D) P f (assign g).
Proof. intros Hg s. split; [apply Hg|reflexivity]. Qed.

Lemma framed_bind {A C} (m : M D A) (k : A -> M D C) :
  framed P f m -> (forall a, framed P f (k a)) -> framed P f (bind m k).
Proof.
  intros Hm Hk s. unfold bind.
  destruct (Hm s) as (Hf & He).
  destruct (m s) as [[a| |] s1 evs1]; cbn [final events] in *; auto.
  destruct (Hk a s1) as (Hf' & He').
  destruct (k a s1) as [r2 s2 evs2]; cbn [final events] in *.
  split; [congruence|].
  rewrite forallb_app, He, He'. reflexivity.
Qed.

Lemma framed_when (c : bool) (body : M D unit) :
  framed P f body -> framed P f (when c body).
Proof. intros H. destruct c; [exact H|apply framed_ret]. Qed.

Lemma framed_host_do (e : event) (g : D -> option exn * D) :
  P e = true -> framed P f (host_do e g).
Proof.
  intros He. unfold host_do.
  apply framed_bind; [now apply framed_emit|intros _].
  apply framed_bind; [apply framed_world|intros [x|]].
  - apply framed_raise.
  - apply framed_ret.
Qed.

Lemma framed_check_error (c : Z) :
  (forall fm a e, P (Print fm a e) = true) ->
  framed (D := D) P f (check_error c).
Proof.
  intros HP s. rewrite check_error_exec.
  destruct (c =? 0); cbn; rewrite ?HP; auto.
Qed.

Lemma framed_foreign {A} (e : event) (g : D -> Z * A * D) :
  (forall fm a e, P (Print fm a e) = true) -> P e = true ->
  framed P f (foreign e g).
Proof.
  intros HP He. unfold foreign.
  apply framed_bind; [now apply framed_emit|intros _].
  apply framed_bind; [apply framed_world|intros r].
  apply framed_bind; [now apply framed_check_error|intros _].
  apply framed_ret.
Qed.

Lemma framed_weaken {A} (Q : event -> bool) (m : M D A) :
  (forall e, Q e = true -> P e = true) -> framed Q f m -> framed P f m.
Proof.
  intros HQP Hm s. destruct (Hm s) as (Hf & He). split; [exact Hf|].
  rewrite forallb_forall in *. auto.
Qed.

End Frames.

Create HintDb frames.

(** Taking a method body apart, statement by statement. *)
Ltac frame_step :=
  first
    [ apply framed_ret | apply framed_raise | apply framed_still_running
    | apply framed_attr | apply framed_world
    | apply framed_emit; reflexivity
    | apply framed_assign; intros; reflexivity
    | apply framed_when
    | apply framed_host_do; reflexivity
    | apply framed_check_error; reflexivity
    | apply framed_foreign; [reflexivity|reflexivity]
    | apply framed_bind; [|intros ?]
    | match goal with
      | |- framed _ _ (if ?c then _ else _) => destruct c
      | |- framed _ _ (match ?x with _ => _ end) => destruct x
      end ].

Ltac frame :=
  unfold print, print_end, assert, assert_msg, attr_scan_data;
  repeat (frame_step || solve [auto with frames]).

Section Routine.

Context {D : Type} (host : Host D).

Lemma framed_get_status :
  framed routine setup (_get_status host).
Proof. unfold _get_status. frame. Qed.

Lemma framed_start_scan : framed routine setup (_start_scan host).
Proof. unfold _start_scan, dll_start_scan. frame. Qed.

Lemma framed_get_scan_data : framed routine setup (_get_scan_data host).
Proof. unfold _get_scan_data, dll_get_scan_data. frame. Qed.

Lemma framed_get_integration_time :
  framed routine setup (get_integration_time host).
Proof. unfold get_integration_time, dll_get_integration_time. frame. Qed.

#[local] Hint Resolve framed_get_status framed_start_scan
  framed_get_scan_data framed_get_integration_time : frames.

Lemma framed_set_integration_time (v : pyval) :
  framed routine setup (set_integration_time host v).
Proof. unfold set_integration_time, dll_set_integration_time. frame. Qed.

Lemma framed_wait_for_scan (fuel : nat) :
  framed routine setup (wait_for_scan host fuel).
Proof.
  induction fuel as [|fuel IH]; cbn [wait_for_scan]; frame.
Qed.

Lemma framed_write_lines (path : string) (rows : list (float * float)) :
  framed routine setup (write_lines host path rows).
Proof.
  induction rows as [|[wave data] rows IH]; cbn [write_lines]; frame.
Qed.

#[local] Hint Resolve framed_wait_for_scan framed_write_lines : frames.

Lemma framed_get_spectrum (fuel : nat) (filename : option string) :
  framed routine setup (get_spectrum host fuel filename).
Proof. unfold get_spectrum. frame. Qed.

Lemma framed_plot_spectrum (xs ys : option (list float)) (show : bool)
  (filename : option string) (spec : option Spectrometer) :
  framed routine setup (plot_spectrum host xs ys show filename spec).
Proof. unfold plot_spectrum. frame. Qed.

End Routine.

(** ** The spectrum file *)

Lemma c_double_array_length (n : nat) (written : list float) :
  List.length (c_double_array n written) = n.
Proof.
  unfold c_double_array.
  rewrite length_firstn, length_app, repeat_length. lia.
Qed.

Lemma setup_eq (o o' : Spectrometer) :
  setup o' = setup o ->
  handle o' = handle o /\ wavelength_data o' = wavelength_data o
  /\ verbose o' = verbose o /\ very_verbose o' = very_verbose o
  /\ name o' = name o.
Proof.
  unfold setup. intros H. injection H. auto.
Qed.

Lemma filter_file_writes {D : Type} (host : Host D) (path : string)
  (rows : list (float * float)) :
  filter is_file_event
    (map (fun row => FileWrite path
                       (spectrum_line host (fst row) (snd row))) rows)
  = map (fun row => FileWrite path
                      (spectrum_line host (fst row) (snd row))) rows.
Proof.
  induction rows as [|row rows IH]; [reflexivity|].
  cbn [map filter is_file_event]. now rewrite IH.
Qed.

Lemma file_events_are_files {D : Type} (host : Host D) (path : string)
  (waves data : list float) :
  filter is_file_event (file_events host path waves data)
  = file_events host path waves data.
Proof.
  unfold file_events. cbn [filter is_file_event].
  rewrite filter_app, filter_file_writes. reflexivity.
Qed.

(** Zipping two arrays of the same length pairs them index by index. *)
Lemma map_combine_seq {A C : Type} (g : A * A -> C) (d : A) (n : nat) :
  forall xs ys : list A,
    List.length xs = n -> List.length ys = n ->
    map g (combine xs ys)
    = map (fun i => g (nth i xs d, nth i ys d)) (seq 0 n).
Proof.
  induction n as [|n IH]; intros xs ys Hx Hy.
  - destruct xs; [reflexivity|discriminate].
  - destruct xs as [|x xs]; [discriminate|].
    destruct ys as [|y ys]; [discriminate|].
    cbn [combine map seq nth]. f_equal.
    rewrite <- seq_shift, map_map. cbn [nth].
    apply IH; cbn in *; lia.
Qed.

Section Files.

Context {D : Type} (host : Host D).

(** The file events of [get_spectrum], by outcome. *)
Lemma get_spectrum_files (fuel : nat) (filename : option string)
  (s : state D) :
  let r := get_spectrum host fuel filename s in
  let files := filter is_file_event (events r) in
  match result r with
  | Returned (Some (waves, data)) =>
      waves = wavelength_data (self s)
      /\ (exists written, data = c_double_array pixels written)
      /\ scan_data (self (final r)) = Some data
      /\ files = match filename with
                 | Some filename_ =>
                     file_events host (filename_ ++ ".txt") waves data
                 | None => []
                 end
  | Raised _ =>
      files = []
      \/ exists filename_,
          filename = Some filename_
          /\ files = [FileOpen (filename_ ++ ".txt")]
  | _ => files = []
  end.
Proof.
  intros r files. subst files r.
  rewrite <- (filter_effects is_file_event) by reflexivity.
  pose proof (get_spectrum_exec host fuel filename s) as H. cbv zeta in H.
  pose proof (_get_status_exec host s) as (_ & _ & _ & Heq).
  pose proof (proj1 (framed_get_status host s)) as Hfq.
  set (s1 := final (_get_status host s)) in *.
  pose proof (_start_scan_exec host s1) as (_ & Hss & _ & Hes).
  set (s2 := final (_start_scan host s1)) in *.
  pose proof (wait_for_scan_polling host fuel s2) as Hpoll.
  pose proof (proj1 (framed_wait_for_scan host fuel s2)) as Hfw.
  assert (Hew : filter is_file_event
                  (effects (events (wait_for_scan host fuel s2))) = []).
  { rewrite filter_effects by reflexivity.
    apply (filter_none polling); [|exact Hpoll].
    intros []; cbn; congruence. }
  set (s3 := final (wait_for_scan host fuel s2)) in *.
  assert (Hsetup : setup (self s3) = setup (self s))
    by (rewrite Hfw, Hss; exact Hfq).
  apply setup_eq in Hsetup as (Hh & Hw & _).
  pose proof (fetch_and_save_exec host (verbose (self s))
                (very_verbose (self s)) (name (self s)) filename s3) as Hfs.
  cbv zeta in Hfs. rewrite Hh, Hw in Hfs.
  destruct (result (_get_status host s)) as [w| |];
    try solve [destruct H as (-> & _ & ->); rewrite Heq; auto].
  destruct (status_idle_soft_trig _);
    [|destruct H as (-> & _ & ->); rewrite Heq; auto].
  destruct (result (_start_scan host s1));
    try solve [destruct H as (-> & _ & ->); rewrite Heq, Hes; auto].
  destruct (result (wait_for_scan host fuel s2)) as [[]| |];
    try solve [destruct H as (-> & _ & ->);
               rewrite !filter_app, Heq, Hes, Hew; auto].
  destruct H as (-> & -> & ->).
  rewrite !filter_app, Heq, Hes, Hew. cbn [filter is_file_event app].
  destruct (_ =? 0).
  - destruct Hfs as (Hself & Hfs). destruct filename as [filename_|].
    + cbv zeta in Hfs.
      destruct (fst (open_w host _ _)); destruct Hfs as (-> & ->).
      * right. eauto.
      * rewrite Hself.
        split; [reflexivity|]. split; [eauto|]. split; [reflexivity|].
        exact (file_events_are_files host _ _ _).
    + destruct Hfs as (-> & ->). rewrite Hself. cbn. eauto 6.
  - destruct Hfs as (_ & -> & ->). auto.
Qed.

End Files.

(** ** Construction *)

Section Construction.

Context {D : Type} (host : Host D).

Lemma _get_device_info_cases (s : state D) :
  let r := _get_device_info host s in
  effects (events r) = [IdentificationQuery (handle (self s))]
  /\ ((exists values,
          result r = Returned values
          /\ self (final r) = set_device_info values (self s)
          /\ List.length values = 5%nat)
      \/ (exists e, result r = Raised e /\ self (final r) = self s)).
Proof.
  intros r. subst r.
  unfold _get_device_info, dll_get_device_info. munfold.
  repeat (mred; rewrite ?foreign_exec; try stuck_if).
  all: mred; effs; split; [reflexivity|]; eauto.
  all: left; eexists; repeat split; rewrite length_map;
    now destruct (snd (fst _)) as [[[[? ?] ?] ?] ?].
Qed.

Lemma _get_wavelength_data_cases (user_calibration : bool) (s : state D) :
  let r := _get_wavelength_data host user_calibration s in
  effects (events r) =
    [GetWavelengthData (handle (self s)) (Z.b2z user_calibration)]
  /\ ((exists written lo hi,
          result r = Returned (c_double_array pixels written)
          /\ self (final r) =
               set_wavelength (c_double_array pixels written) lo hi (self s))
      \/ (exists e, result r = Raised e /\ self (final r) = self s)).
Proof.
  intros r. subst r.
  unfold _get_wavelength_data, dll_get_wavelength_data. munfold.
  repeat (mred; rewrite ?foreign_exec; try stuck_if).
  all: mred; effs; split; [reflexivity|]; eauto 7.
Qed.

Lemma _get_status_cases (s : state D) :
  let r := _get_status host s in
  effects (events r) = [GetDeviceStatus (handle (self s))]
  /\ ((exists w,
          result r = Returned w /\ self (final r) = decoded w (self s))
      \/ (exists e w,
             result r = Raised e /\ self (final r) = set_status w (self s))).
Proof.
  intros r. subst r.
  destruct (_get_status_exec host s) as (Hr & Hs & _ & He).
  split; [exact He|]. rewrite Hr, Hs.
  destruct (_ =? 0); eauto.
Qed.

Lemma get_integration_time_cases (s : state D) :
  let r := get_integration_time host s in
  effects (events r) = [GetIntegrationTime (handle (self s))]
  /\ ((exists t,
          result r = Returned t
          /\ self (final r) = set_integration_time_s t (self s))
      \/ (exists e, result r = Raised e /\ self (final r) = self s)).
Proof.
  intros r. subst r.
  destruct (get_integration_time_exec host s) as (Hr & Hs & _ & He).
  split; [exact He|]. rewrite Hr, Hs.
  destruct (_ =? 0); eauto.
Qed.

(** Running the next call of a method body, by the cases of that call. *)
Ltac sub_call f cases :=
  match goal with
  | |- context [f ?st] =>
      let H := fresh "H" in
      pose proof (cases st) as H; cbv zeta in H;
      let r := fresh "r" in
      let s := fresh "s" in
      let evs := fresh "evs" in
      destruct (f st) as [r s evs]; cbn [result final events] in H;
      destruct H as (? & [H | H]);
      repeat match type of H with
             | exists _, _ => destruct H as (? & H)
             end;
      destruct H as (-> & H)
  end; mred.

(** Replacing every intermediate object by how it was obtained. *)
Ltac objects :=
  repeat match goal with
         | H : self ?x = _ |- context [self ?x] => rewrite H
         | H : self ?x = _ /\ _ |- context [self ?x] => rewrite (proj1 H)
         end;
  mred.

Lemma Spectrometer_exec (serial_number name_ : string)
  (reset verbose_ very_verbose_ : bool) (d : D) :
  let r := Spectrometer_ host serial_number name_ reset verbose_
             very_verbose_ d in
  let o := self (final r) in
  (exists k, effects (events r)
             = firstn k (init_calls serial_number reset (handle o)))
  /\ (result r = Returned tt ->
      effects (events r) = init_calls serial_number reset (handle o)
      /\ List.length (device_info o) = 5%nat
      /\ (exists written,
             wavelength_data o = c_double_array pixels written)
      /\ scan_data o = None).
Proof.
  intros r o. subst o r.
  unfold Spectrometer_, __init__, new_Spectrometer. munfold.
  repeat (mred; rewrite ?check_error_exec; try stuck_if).
  all: try sub_call (_get_device_info host) _get_device_info_cases.
  all: try sub_call (_get_wavelength_data host false)
         (_get_wavelength_data_cases false).
  all: try sub_call (_get_status host) _get_status_cases.
  all: try sub_call (get_integration_time host) get_integration_time_cases.
  all: effs;
    repeat match goal with
           | H : effects ?x = _ |- context [effects ?x] => rewrite H
           end;
    objects; unfold init_calls; cbn [app Z.b2z].
  all: split;
    [ first [ now exists 0%nat | now exists 1%nat | now exists 2%nat
            | now exists 3%nat | now exists 4%nat | now exists 5%nat ]
    | intros Hr; try discriminate Hr ].
  all: repeat split; eauto.
  all: repeat match goal with H : _ /\ _ |- _ => destruct H end;
    assumption.
Qed.

End Construction.

(** ** Client programs *)

Section Programs.

Context {D : Type} (host : Host D).

Lemma framed_close : framed in_use setup (close host).
Proof. unfold close, dll_close. frame. Qed.

Lemma routine_in_use (e : event) : routine e = true -> in_use e = true.
Proof. destruct e; cbn; congruence. Qed.

Lemma framed_invoke_routine (m : method) :
  is_Close_ m = false -> framed routine setup (invoke host m).
Proof.
  destruct m; cbn [is_Close_ invoke]; intros Hm; try discriminate.
  - apply framed_bind; [apply framed_get_integration_time|intros ?].
    apply framed_ret.
  - apply framed_set_integration_time.
  - apply framed_bind; [apply framed_get_spectrum|intros ?].
    apply framed_ret.
  - apply framed_bind; [apply framed_attr|intros ?].
    apply framed_plot_spectrum.
Qed.

Lemma framed_invoke (m : method) : framed in_use setup (invoke host m).
Proof.
  destruct (is_Close_ m) eqn:Hm.
  - destruct m; try discriminate. apply framed_close.
  - eapply framed_weaken; [apply routine_in_use|].
    now apply framed_invoke_routine.
Qed.

Lemma framed_run (ms : list method) (s : state D) :
  setup (self (final (run host ms s))) = setup (self s)
  /\ forallb in_use (events (run host ms s)) = true.
Proof.
  revert s. induction ms as [|m ms IH]; intros s; [split; reflexivity|].
  cbn [run].
  destruct (framed_invoke m s) as (Hf & He).
  destruct (invoke host m s) as [[[]|e|] s1 evs1];
    cbn [final events] in *; auto;
    destruct (IH s1) as (Hf' & He');
    destruct (run host ms s1) as [[os|e'|] s2 evs2];
    cbn [final events] in *;
    (split; [congruence|]); rewrite forallb_app, He, He'; reflexivity.
Qed.

(** The [Close] events of one call. *)
Lemma invoke_close_calls (m : method) (s : state D) :
  filter is_close_call (events (invoke host m s)) =
    if is_Close_ m then [Close (handle (self s))] else [].
Proof.
  destruct (is_Close_ m) eqn:Hm.
  - destruct m; try discriminate. cbn [invoke].
    rewrite <- filter_effects by reflexivity.
    destruct (close_exec host s) as (_ & _ & _ & ->). reflexivity.
  - apply (filter_none routine).
    + intros []; cbn; congruence.
    + apply framed_invoke_routine, Hm.
Qed.

(** The [Close] events of a program: one for each [close()] among the calls
    it made, all on the handle held at the start. *)
Lemma run_close_calls (ms : list method) (s : state D) :
  exists k,
    (k <= List.length ms)%nat
    /\ (forall os, result (run host ms s) = Returned os ->
                   k = List.length ms)
    /\ filter is_close_call (events (run host ms s)) =
         repeat (Close (handle (self s)))
           (List.length (filter is_Close_ (firstn k ms))).
Proof.
  revert s. induction ms as [|m ms IH]; intros s.
  - exists 0%nat. repeat split; auto.
  - cbn [run].
    pose proof (invoke_close_calls m s) as Hc.
    pose proof (proj1 (framed_invoke m s)) as Hf.
    apply setup_eq in Hf as (Hh & _).
    destruct (invoke host m s) as [[[]|e|] s1 evs1];
      cbn [final events] in *.
    3: { exists 1%nat. cbn [List.length firstn filter]. split; [lia|].
         split; [discriminate|]. rewrite Hc.
         now destruct (is_Close_ m). }
    all: destruct (IH s1) as (k & Hk & Hall & Hcount);
      destruct (run host ms s1) as [[os|e'|] s2 evs2];
      cbn [result events] in *;
      exists (S k); cbn [List.length firstn filter];
      (split; [lia|]);
      (split; [intros os' Hos'; try discriminate Hos';
               now rewrite (Hall _ eq_refl)|]);
      rewrite filter_app, Hc, Hcount, Hh;
      now destruct (is_Close_ m).
Qed.

End Programs.

(** ** Construction and the calibration table *)

Lemma init_calls_prefix_dll (serial_number : string) (reset : bool) (h : Z)
  (k : nat) :
  dll_calls (firstn k (init_calls serial_number reset h))
  = firstn k (init_calls serial_number reset h).
Proof.
  unfold init_calls.
  destruct k as [|[|[|[|[|[|k]]]]]]; reflexivity.
Qed.

Lemma init_calls_prefix_no_close (serial_number : string) (reset : bool)
  (h : Z) (k : nat) :
  filter is_close_call (firstn k (init_calls serial_number reset h)) = [].
Proof.
  unfold init_calls.
  destruct k as [|[|[|[|[|[|k]]]]]]; reflexivity.
Qed.

(** C8: the constructor calls the library in this order, each call at most
    once and all of them when it returns: init (with the ID query on),
    identification query, wavelength data (factory calibration), device
    status, integration time; the object then holds five identification
    strings and a wavelength table of 3648 values.  No public method called
    afterwards fetches the wavelength data again or changes the table. *)
Theorem construction_queries_once {D : Type} (host : Host D) :
  (forall serial_number name_ reset verbose_ very_verbose_ d,
      let r := Spectrometer_ host serial_number name_ reset verbose_
                 very_verbose_ d in
      let o := self (final r) in
      let calls :=
        [Init ("USB0::0x1313::0x8081::" ++ serial_number ++ "::RAW")%string
           true reset;
         IdentificationQuery (handle o); GetWavelengthData (handle o) 0;
         GetDeviceStatus (handle o); GetIntegrationTime (handle o)] in
      (exists k, dll_calls (events r) = firstn k calls)
      /\ (result r = Returned tt ->
          dll_calls (events r) = calls
          /\ List.length (device_info o) = 5%nat
          /\ List.length (wavelength_data o) = pixels))
  /\ (forall ms s,
         filter is_get_wavelength_data (events (run host ms s)) = []
         /\ wavelength_data (self (final (run host ms s)))
            = wavelength_data (self s)).
Proof.
  split.
  - intros serial_number name_ reset verbose_ very_verbose_ d r o calls.
    destruct (Spectrometer_exec host serial_number name_ reset verbose_
                very_verbose_ d) as ((k & Hk) & Hret).
    fold r o in Hk, Hret.
    change calls with (init_calls serial_number reset (handle o)).
    rewrite <- dll_calls_effects.
    split.
    + exists k. rewrite Hk. apply init_calls_prefix_dll.
    + intros Hr. destruct (Hret Hr) as (He & Hinfo & (written & Hw) & _).
      rewrite He, Hw, c_double_array_length. auto.
  - intros ms s. destruct (framed_run host ms s) as (Hf & He).
    apply setup_eq in Hf as (_ & Hw & _).
    split; [|exact Hw].
    apply (filter_none in_use); [|exact He].
    intros []; cbn; congruence.
Qed.

(** Construction on the simulated instrument, then a scan. *)
Lemma construction_queries_once_witness :
  let r := Spectrometer_ Sim.host "M00405433" "CCS100" true true false
             (Sim.device_with [0]) in
  dll_calls (events r) =
    [Init "USB0::0x1313::0x8081::M00405433::RAW" true true;
     IdentificationQuery 1; GetWavelengthData 1 0; GetDeviceStatus 1;
     GetIntegrationTime 1]
  /\ List.length (device_info (self (final r))) = 5%nat
  /\ List.length (wavelength_data (self (final r))) = pixels.
Proof.
  exact (proj2 (proj1 (construction_queries_once Sim.host)
                  "M00405433" "CCS100" true true false
                  (Sim.device_with [0]))
           eq_refl).
Defined.

(** ** Closing *)

(** C7, as the program has it: each [close()] issues the library's close
    call once, on the stored handle, and leaves the object as it was, the
    handle included; no other method and not the constructor issue it.  So
    the close calls of a client program are as many as the [close()] calls
    it makes, all on the same handle: none when it makes none, two when it
    makes two. *)
Theorem close_calls_follow_client {D : Type} (host : Host D) :
  (forall s,
      filter is_close_call (events (close host s))
      = [Close (handle (self s))]
      /\ self (final (close host s)) = self s)
  /\ (forall m s,
         is_Close_ m = false ->
         filter is_close_call (events (invoke host m s)) = [])
  /\ (forall serial_number name_ reset verbose_ very_verbose_ d,
         filter is_close_call
           (events (Spectrometer_ host serial_number name_ reset verbose_
                      very_verbose_ d)) = [])
  /\ (forall ms s,
         exists k,
           (k <= List.length ms)%nat
           /\ (forall os, result (run host ms s) = Returned os ->
                          k = List.length ms)
           /\ filter is_close_call (events (run host ms s)) =
                repeat (Close (handle (self s)))
                  (List.length (filter is_Close_ (firstn k ms)))).
Proof.
  split; [|split; [|split]].
  - intros s. destruct (close_exec host s) as (_ & Hs & _ & He).
    split; [|exact Hs].
    rewrite <- filter_effects by reflexivity. now rewrite He.
  - intros m s Hm. rewrite invoke_close_calls, Hm. reflexivity.
  - intros serial_number name_ reset verbose_ very_verbose_ d.
    destruct (Spectrometer_exec host serial_number name_ reset verbose_
                very_verbose_ d) as ((k & Hk) & _).
    rewrite <- filter_effects by reflexivity. rewrite Hk.
    apply init_calls_prefix_no_close.
  - apply run_close_calls.
Qed.

Lemma close_calls_follow_client_witness :
  filter is_close_call
    (events (invoke Sim.host (GetSpectrum_ 2 None) (Sim.opened [2; 16])))
  = [].
Proof.
  exact (proj1 (proj2 (close_calls_follow_client Sim.host))
           (GetSpectrum_ 2 None) (Sim.opened [2; 16]) eq_refl).
Defined.

(** On the simulated instrument a client that calls [close()] twice reaches
    the library's close call twice on the same handle, both calls
    returning; a client whose only call raises leaves without any close
    call. *)
Lemma close_twice_closes_twice :
  handle (self (Sim.opened [])) = 1
  /\ result (run Sim.host [Close_; Close_] (Sim.opened []))
     = Returned [Returned tt; Returned tt]
  /\ filter is_close_call
       (events (run Sim.host [Close_; Close_] (Sim.opened [])))
     = [Close 1; Close 1]
  /\ result (run Sim.host [SetIntegrationTime_ (PyInt 100)] (Sim.opened []))
     = Returned
         [Raised (AssertionError "%s: integration_time_s (%s) out of range"
                    [PyStr "CCS100"; PyInt 100])]
  /\ filter is_close_call
       (events (run Sim.host [SetIntegrationTime_ (PyInt 100)]
                  (Sim.opened [])))
     = [].
Proof. repeat split. Qed.

(** ** The saved spectrum *)

Lemma filter_open_file_writes {D : Type} (host : Host D) (path : string)
  (rows : list (float * float)) :
  filter is_file_open
    (map (fun row => FileWrite path
                       (spectrum_line host (fst row) (snd row))) rows)
  = [].
Proof.
  induction rows as [|row rows IH]; [reflexivity|exact IH].
Qed.

Lemma file_events_path {D : Type} (host : Host D) (path : string)
  (waves data : list float) (e : event) :
  In e (file_events host path waves data) -> file_path e = Some path.
Proof.
  unfold file_events. cbn [In]. rewrite in_app_iff, in_map_iff. cbn [In].
  intros [<-|[(row & <- & _)|[<-|[]]]]; reflexivity.
Qed.

Lemma filter_open_of_files (l : list event) :
  filter is_file_open (filter is_file_event l) = filter is_file_open l.
Proof.
  induction l as [|e l IH]; [reflexivity|].
  destruct e; cbn; rewrite ?IH; reflexivity.
Qed.

(** C6: an object whose wavelength table has 3648 entries (as the
    constructor leaves it and every public method keeps it) and a
    [get_spectrum] with a file name that returns: both arrays returned have
    3648 entries, the wavelength array is the stored table, and the file is
    opened, written one line for each index [i] from 0 to 3647, that line
    being ['%0.3f' % wavelength[i] + ':' + str(intensity[i]) + '\n'], and
    closed. *)
Theorem spectrum_file_pairs_by_index {D : Type} (host : Host D) :
  (forall fuel filename_ s waves data,
      List.length (wavelength_data (self s)) = pixels ->
      result (get_spectrum host fuel (Some filename_) s)
      = Returned (Some (waves, data)) ->
      waves = wavelength_data (self s)
      /\ scan_data (self (final (get_spectrum host fuel (Some filename_) s)))
         = Some data
      /\ List.length waves = pixels
      /\ List.length data = pixels
      /\ filter is_file_event
           (events (get_spectrum host fuel (Some filename_) s))
         = FileOpen (filename_ ++ ".txt")
           :: map (fun i =>
                     FileWrite (filename_ ++ ".txt")
                       (format_0_3f host (nth i waves PrimFloat.zero)
                        ++ ":"
                        ++ str_float host (nth i data PrimFloat.zero)
                        ++ newline)%string)
                (seq 0 pixels)
           ++ [FileClose (filename_ ++ ".txt")])
  /\ (forall serial_number name_ reset verbose_ very_verbose_ d ms,
         let built := Spectrometer_ host serial_number name_ reset verbose_
                        very_verbose_ d in
         result built = Returned tt ->
         List.length
           (wavelength_data (self (final (run host ms (final built)))))
         = pixels)
  /\ pixels = 3648%nat.
Proof.
  split; [|split; [|reflexivity]].
  - intros fuel filename_ s waves data Hlen Hr.
    pose proof (get_spectrum_files host fuel (Some filename_) s) as H.
    cbv zeta in H. rewrite Hr in H.
    destruct H as (Hw & (written & Hd) & Hs & Hf).
    assert (Hlw : List.length waves = pixels) by (now rewrite Hw).
    assert (Hld : List.length data = pixels)
      by (rewrite Hd; apply c_double_array_length).
    repeat (split; [assumption|]).
    rewrite Hf. unfold file_events, spectrum_line. do 2 f_equal.
    apply (map_combine_seq
             (fun row => FileWrite (filename_ ++ ".txt")
                           (format_0_3f host (fst row) ++ ":"
                            ++ str_float host (snd row) ++ newline)%string)
             PrimFloat.zero pixels waves data Hlw Hld).
  - intros serial_number name_ reset verbose_ very_verbose_ d ms built Hr.
    destruct (Spectrometer_exec host serial_number name_ reset verbose_
                very_verbose_ d) as (_ & Hret).
    destruct (Hret Hr) as (_ & _ & (written & Hw) & _).
    destruct (framed_run host ms (final built)) as (Hf & _).
    apply setup_eq in Hf as (_ & -> & _).
    unfold built. rewrite Hw. apply c_double_array_length.
Qed.

(** A saved scan on the simulated instrument. *)
Lemma spectrum_file_pairs_by_index_witness :
  let s := Sim.opened [2; 16] in
  let waves := c_double_array pixels [350%float; 351%float; 352%float] in
  let data := c_double_array pixels [0.5%float; 0.25%float; 0.125%float] in
  waves = wavelength_data (self s)
  /\ scan_data (self (final (get_spectrum Sim.host 5 (Some "example") s)))
     = Some data
  /\ List.length waves = pixels
  /\ List.length data = pixels
  /\ filter is_file_event
       (events (get_spectrum Sim.host 5 (Some "example") s))
     = FileOpen "example.txt"
       :: map (fun i =>
                 FileWrite "example.txt"
                   (format_0_3f Sim.host (nth i waves PrimFloat.zero)
                    ++ ":"
                    ++ str_float Sim.host (nth i data PrimFloat.zero)
                    ++ newline)%string)
            (seq 0 pixels)
       ++ [FileClose "example.txt"].
Proof.
  apply (proj1 (spectrum_file_pairs_by_index Sim.host) 5%nat "example"
           (Sim.opened [2; 16])
           (c_double_array pixels [350%float; 351%float; 352%float])
           (c_double_array pixels [0.5%float; 0.25%float; 0.125%float]));
    vm_compute; reflexivity.
Defined.

(** C10: the only file [get_spectrum] touches when given a file name is the
    one named by the given name followed by [.txt]: every file event of the
    call is about that path, and when the call returns the scan it has
    opened that file once.  Without a file name it touches no file. *)
Theorem spectrum_file_name {D : Type} (host : Host D) (fuel : nat)
  (filename_ : string) (s : state D) :
  let r := get_spectrum host fuel (Some filename_) s in
  (forall e, In e (events r) -> is_file_event e = true ->
             file_path e = Some (filename_ ++ ".txt")%string)
  /\ (forall v, result r = Returned (Some v) ->
                filter is_file_open (events r)
                = [FileOpen (filename_ ++ ".txt")])
  /\ filter is_file_event (events (get_spectrum host fuel None s)) = [].
Proof.
  intros r.
  pose proof (get_spectrum_files host fuel (Some filename_) s) as H.
  cbv zeta in H. fold r in H.
  split; [|split].
  - intros e Hin He.
    assert (Hin' : In e (filter is_file_event (events r)))
      by (apply filter_In; auto).
    destruct (result r) as [[[waves data]|]|x|].
    + destruct H as (_ & _ & _ & Hf). rewrite Hf in Hin'.
      eapply file_events_path, Hin'.
    + rewrite H in Hin'. contradiction.
    + destruct H as [H|(f & Hsome & H)]; rewrite H in Hin'.
      * contradiction.
      * injection Hsome as <-. destruct Hin' as [<-|[]]. reflexivity.
    + rewrite H in Hin'. contradiction.
  - intros [waves data] Hr. rewrite Hr in H.
    destruct H as (_ & _ & _ & Hf).
    rewrite <- filter_open_of_files, Hf. unfold file_events.
    cbn [filter is_file_open]. rewrite filter_app, filter_open_file_writes.
    reflexivity.
  - pose proof (get_spectrum_files host fuel None s) as H'.
    cbv zeta in H'.
    destruct (result (get_spectrum host fuel None s)) as [[[waves data]|]|x|].
    + now destruct H' as (_ & _ & _ & Hf).
    + exact H'.
    + destruct H' as [H'|(f & Hsome & _)]; [exact H'|discriminate].
    + exact H'.
Qed.

Lemma spectrum_file_name_witness :
  filter is_file_open
    (events (get_spectrum Sim.host 5 (Some "example") (Sim.opened [2; 16])))
  = [FileOpen "example.txt"].
Proof.
  apply (proj1 (proj2 (spectrum_file_name Sim.host 5 "example"
                         (Sim.opened [2; 16])))
           (c_double_array pixels [350%float; 351%float; 352%float],
            c_double_array pixels [0.5%float; 0.25%float; 0.125%float])).
  vm_compute. reflexivity.
Defined.

(** * Further properties of the adaptor *)

(** ** The integration times that reach the library *)

Lemma exact_double_1_60 (z : Z) : 1 <= z <= 60 -> exact_double z = true.
Proof.
  intros Hz.
  assert (Hall : forallb exact_double (map Z.of_nat (seq 1 60)) = true)
    by (vm_compute; reflexivity).
  rewrite forallb_forall in Hall. apply Hall.
  rewrite in_map_iff. exists (Z.to_nat z). split; [lia|].
  apply in_seq. lia.
Qed.

Lemma accepted_float (f : float) :
  in_range (PyFloat f) = true ->
  exists m e, Prim2SF f = S754_finite false m e.
Proof.
  unfold in_range, float_le_num, num_le_float.
  rewrite !leb_spec.
  replace (Prim2SF integration_time_min)
    with (S754_finite false 5902958103587057 (-69))
    by (vm_compute; reflexivity).
  replace (Prim2SF integration_time_max)
    with (S754_finite false 8444249301319680 (-47))
    by (vm_compute; reflexivity).
  destruct (Prim2SF f) as [[]|[]| |[] m e]; cbv [SFleb SFcompare andb];
    try discriminate.
  eauto.
Qed.

(** X1: every argument [set_integration_time] accepts is a finite positive
    number: a float that is neither NaN, nor infinite, nor zero, nor
    negative, an int from 1 to 60, or [True]; and the double handed to the
    library is finite, positive and, for an int, equal to it. *)
Theorem accepted_integration_times_are_finite_positive (v : pyval) :
  numeric v = true -> in_range v = true ->
  match v with
  | PyFloat f => exists m e, Prim2SF f = S754_finite false m e
  | PyInt z => 1 <= z <= 60
  | PyBool b => b = true
  | _ => False
  end
  /\ (exists m e, Prim2SF (as_double v) = S754_finite false m e)
  /\ match int_value v with
     | Some z => float_le_int (as_double v) z = true
                 /\ int_le_float z (as_double v) = true
     | None => True
     end.
Proof.
  intros Hnum Hrange.
  assert (Hint : forall z, in_range (PyInt z) = true ->
                           1 <= z <= 60 /\ exact_double z = true).
  { intros z Hz. rewrite in_range_int in Hz.
    apply andb_true_iff in Hz as [H1 H2].
    apply Z.leb_le in H1, H2. split; [lia|].
    apply exact_double_1_60. lia. }
  assert (Hexact : forall z, exact_double z = true ->
            (exists m e, Prim2SF (float_of_int z) = S754_finite false m e)
            /\ float_le_int (float_of_int z) z = true
            /\ int_le_float z (float_of_int z) = true).
  { intros z. unfold exact_double.
    destruct (Prim2SF (float_of_int z)) as [| | |[] m e]; try discriminate.
    intros H. apply andb_true_iff in H. eauto. }
  destruct v as [|b|z|f|str]; try discriminate Hnum.
  - destruct b.
    + split; [reflexivity|].
      apply (Hexact 1). apply exact_double_1_60. lia.
    + exfalso. change (in_range (PyInt 0) = true) in Hrange.
      destruct (Hint 0 Hrange) as [H0 _]. lia.
  - destruct (Hint z Hrange) as (Hz & Hd). split; [exact Hz|].
    apply Hexact, Hd.
  - destruct (accepted_float f Hrange) as (m & e & Hf).
    split; [eauto|]. split; [cbn [as_double]; eauto|exact I].
Qed.

Lemma accepted_integration_times_are_finite_positive_witness :
  (exists m e, Prim2SF 0.1 = S754_finite false m e)
  /\ (exists m e, Prim2SF (as_double (PyFloat 0.1)) = S754_finite false m e)
  /\ True.
Proof.
  exact (accepted_integration_times_are_finite_positive (PyFloat 0.1)
           eq_refl eq_refl).
Defined.

(** ** The ready bit read before the scan is started *)

Section Stale.

Context {D : Type} (host : Host D).

(** What the object and the device are once the status query and the start
    command have both succeeded on an idle instrument. *)
Lemma scan_started (s : state D) :
  let h := handle (self s) in
  let out := tlccs_getDeviceStatus host h (device s) in
  let started := tlccs_startScan host h (snd out) in
  let q := _get_status host s in
  let st := _start_scan host (final q) in
  c_int32_value (fst (fst out)) = 0 ->
  Z.testbit (snd (fst out)) 1 = true ->
  result q = Returned (c_int32_value (snd (fst out)))
  /\ status_idle_soft_trig (self (final q)) = true
  /\ effects (events q) = [GetDeviceStatus h]
  /\ result st = (if c_int32_value (fst started) =? 0 then Returned tt
                  else Raised (driver_error (c_int32_value (fst started))))
  /\ self (final st) = decoded (c_int32_value (snd (fst out))) (self s)
  /\ device (final st) = snd started
  /\ effects (events st) = [StartScan h].
Proof.
  intros h out started q st Hc Hidle.
  destruct (_get_status_exec host s) as (Hr & Hs & Hd & He).
  fold h out q in Hr, Hs, Hd, He. rewrite Hc in Hr, Hs. cbn [Z.eqb] in Hr, Hs.
  destruct (_start_scan_exec host (final q)) as (Hr' & Hs' & Hd' & He').
  fold st in Hr', Hs', Hd', He'.
  rewrite Hs, Hd in Hr', Hd'. rewrite Hs in Hs', He'.
  cbn [decoded set_status_flags set_status handle] in Hr', Hd', He'.
  fold h started in Hr', Hd', He'.
  repeat split; try assumption.
  rewrite Hs. cbn [decoded set_status_flags status_idle_soft_trig].
  change 0x0002 with (2 ^ 1).
  rewrite py_bool_land_pow2, c_int32_value_testbit by lia. exact Hidle.
Qed.

(** X3: the loop tests the ready flag decoded from the status word read
    before the scan was started.  When that word has both the idle bit and
    the ready bit set, [get_spectrum] starts the scan and fetches the data
    at once, without sleeping and without reading the status again. *)
Theorem get_spectrum_trusts_earlier_ready_bit (fuel : nat) (s : state D) :
  let h := handle (self s) in
  let out := tlccs_getDeviceStatus host h (device s) in
  let started := tlccs_startScan host h (snd out) in
  let fetched := tlccs_getScanData host h (snd started) in
  let r := get_spectrum host fuel None s in
  c_int32_value (fst (fst out)) = 0 ->
  Z.testbit (snd (fst out)) 1 = true ->
  Z.testbit (snd (fst out)) 4 = true ->
  c_int32_value (fst started) = 0 ->
  effects (events r) = [GetDeviceStatus h; StartScan h; GetScanData h]
  /\ result r =
       (if c_int32_value (fst (fst fetched)) =? 0 then
          Returned (Some (wavelength_data (self s),
                          c_double_array pixels (snd (fst fetched))))
        else Raised (driver_error (c_int32_value (fst (fst fetched))))).
Proof.
  intros h out started fetched r Hc Hidle Hready Hstart.
  destruct (scan_started s Hc Hidle)
    as (Hq & Hsoft & Heq & Hst & Hself & Hdev & Hes).
  fold h out started in Hq, Hsoft, Heq, Hst, Hself, Hdev, Hes.
  rewrite Hstart in Hst. cbn [Z.eqb] in Hst.
  pose proof (get_spectrum_exec host fuel None s) as H. cbv zeta in H.
  fold r in H. rewrite Hq, Hsoft, Hst in H.
  assert (Hflag : status_scan_ready
                    (self (final (_start_scan host
                                    (final (_get_status host s))))) = true).
  { rewrite Hself. cbn [decoded set_status_flags status_scan_ready].
    rewrite ready_bit. exact Hready. }
  rewrite (wait_for_scan_ready host fuel _ Hflag) in H.
  cbn [result final events] in H.
  destruct H as (Hr & _ & He).
  pose proof (fetch_and_save_exec host (verbose (self s))
                (very_verbose (self s)) (name (self s)) None
                (final (_start_scan host (final (_get_status host s)))))
    as Hfs.
  cbv zeta in Hfs. rewrite Hself, Hdev in Hfs.
  cbn [decoded set_status_flags set_status handle wavelength_data] in Hfs.
  fold h fetched in Hfs.
  rewrite Hr, He, Heq, Hes.
  destruct (c_int32_value (fst (fst fetched)) =? 0).
  - destruct Hfs as (_ & -> & ->). split; reflexivity.
  - destruct Hfs as (_ & -> & ->). split; reflexivity.
Qed.

End Stale.

Lemma get_spectrum_trusts_earlier_ready_bit_witness :
  let r := get_spectrum Sim.host 0 None (Sim.opened [0x0012]) in
  effects (events r) = [GetDeviceStatus 1; StartScan 1; GetScanData 1]
  /\ result r =
       Returned
         (Some (wavelength_data (self (Sim.opened [0x0012])),
                c_double_array pixels
                  [0.5%float; 0.25%float; 0.125%float])).
Proof.
  exact (get_spectrum_trusts_earlier_ready_bit Sim.host 0
           (Sim.opened [0x0012]) eq_refl eq_refl eq_refl eq_refl).
Defined.

(** ** Failures during a scan *)

Section Failures.

Context {D : Type} (host : Host D).

(** X4: [get_spectrum] stops at the first call that fails and calls nothing
    after it.  A failing status query raises with the library's code after
    that query alone, leaving the new status word stored beside the five
    flags of the query before; a failing start command raises after the
    query and the start; a [time.sleep] that raises in the first round
    propagates with the scan started and never fetched. *)
Theorem get_spectrum_stops_at_first_failure (fuel : nat)
  (filename : option string) (s : state D) :
  let h := handle (self s) in
  let out := tlccs_getDeviceStatus host h (device s) in
  let c := c_int32_value (fst (fst out)) in
  let started := tlccs_startScan host h (snd out) in
  let c' := c_int32_value (fst started) in
  let t := PrimFloat.div (integration_time_s (self s)) (float_of_int 10) in
  let r := get_spectrum host fuel filename s in
  (c <> 0 ->
   result r = Raised (driver_error c)
   /\ effects (events r) = [GetDeviceStatus h]
   /\ self (final r) = set_status (c_int32_value (snd (fst out))) (self s))
  /\ (c = 0 -> Z.testbit (snd (fst out)) 1 = true -> c' <> 0 ->
      result r = Raised (driver_error c')
      /\ effects (events r) = [GetDeviceStatus h; StartScan h])
  /\ (c = 0 -> Z.testbit (snd (fst out)) 1 = true -> c' = 0 ->
      Z.testbit (snd (fst out)) 4 = false ->
      forall x fuel',
        fuel = S fuel' ->
        fst (time_sleep host t (snd started)) = Some x ->
        result r = Raised x
        /\ effects (events r) = [GetDeviceStatus h; StartScan h; Sleep t]).
Proof.
  intros h out c started c' t r.
  pose proof (get_spectrum_exec host fuel filename s) as H. cbv zeta in H.
  fold r in H.
  split; [|split].
  - intros Hc.
    destruct (_get_status_exec host s) as (Hr & Hs & _ & He).
    fold h out c in Hr, Hs, He.
    apply Z.eqb_neq in Hc. rewrite Hc in Hr, Hs.
    rewrite Hr in H. destruct H as (-> & -> & ->).
    rewrite He, Hs. auto.
  - intros Hc Hidle Hc'.
    destruct (scan_started host s Hc Hidle)
      as (Hq & Hsoft & Heq & Hst & _ & _ & Hes).
    fold h out started c' in Hq, Hsoft, Heq, Hst, Hes.
    apply Z.eqb_neq in Hc'. rewrite Hc' in Hst.
    rewrite Hq, Hsoft, Hst in H. destruct H as (-> & _ & ->).
    rewrite Heq, Hes. auto.
  - intros Hc Hidle Hc' Hready x fuel' -> Hsleep.
    destruct (scan_started host s Hc Hidle)
      as (Hq & Hsoft & Heq & Hst & Hself & Hdev & Hes).
    fold h out started c' in Hq, Hsoft, Heq, Hst, Hself, Hdev, Hes.
    rewrite Hc' in Hst. cbn [Z.eqb] in Hst.
    rewrite Hq, Hsoft, Hst in H.
    assert (Hflag : status_scan_ready
                      (self (final (_start_scan host
                                      (final (_get_status host s)))))
                    = false).
    { rewrite Hself. cbn [decoded set_status_flags status_scan_ready].
      rewrite ready_bit. exact Hready. }
    rewrite (wait_for_scan_round host fuel' _ Hflag) in H.
    rewrite Hself, Hdev in H.
    cbn [decoded set_status_flags set_status integration_time_s verbose]
      in H.
    fold t in H. rewrite Hsleep in H. cbn [result final events] in H.
    destruct H as (-> & _ & ->).
    rewrite Heq, Hes. split; [reflexivity|].
    effs. now destruct (verbose (self s)).
Qed.

End Failures.

(** The simulated instrument answering every call with code 7. *)
Lemma get_spectrum_stops_at_first_failure_witness :
  let s := {| self := self (Sim.opened []);
              device := {| Sim.script := []; Sim.itime := 0.01;
                           Sim.offset := 0; Sim.code := 7 |} |} in
  let r := get_spectrum Sim.host 5 None s in
  result r = Raised (driver_error 7)
  /\ effects (events r) = [GetDeviceStatus 1]
  /\ self (final r) = set_status 0x0012 (self s).
Proof.
  refine (proj1 (get_spectrum_stops_at_first_failure Sim.host 5 None
                   {| self := self (Sim.opened []);
                      device := {| Sim.script := []; Sim.itime := 0.01;
                                   Sim.offset := 0; Sim.code := 7 |} |})
            _).
  vm_compute. discriminate.
Defined.

(** ** A rejected setting is not undone *)

Section Setting.

Context {D : Type} (host : Host D).

Lemma set_integration_time_device (v : pyval) (s : state D) :
  numeric v = true -> in_range v = true ->
  let h := handle (self s) in
  let set_ := tlccs_setIntegrationTime host h (as_double v) (device s) in
  let get_ := tlccs_getIntegrationTime host h (snd set_) in
  device (final (set_integration_time host v s)) =
    if c_int32_value (fst set_) =? 0 then snd get_ else snd set_.
Proof.
  intros Hnum Hrange h set_ get_.
  unfold numeric, in_range in Hnum, Hrange.
  unfold set_integration_time, dll_set_integration_time. munfold.
  pose proof (get_integration_time_exec host
                {| self := self s; device := snd set_ |}) as Hget.
  cbn [self device] in Hget. fold h get_ in Hget.
  destruct Hget as (Hr & Hs & Hd & _).
  destruct (get_integration_time host
              {| self := self s; device := snd set_ |})
    as [r1 s1 evs1] eqn:Hrun.
  cbn [result final events] in Hr, Hs, Hd. subst r1.
  repeat (mred; rewrite ?Hnum, ?Hrange, ?foreign_exec; unfold no_output;
          mred; fold h set_; rewrite ?Hrun; try stuck_if).
  all: mred; auto.
Qed.

(** X5: nothing is undone when [set_integration_time] fails after its
    checks.  If the library refuses the setting, the stored integration
    time is untouched and the value is not read back; if reading back
    fails, the stored value is untouched although the library has taken the
    setting; if the value read back is out of tolerance, the call raises
    [AssertionError] with that value stored and the library left at the new
    setting. *)
Theorem set_integration_time_does_not_roll_back (v : pyval) (s : state D) :
  numeric v = true -> in_range v = true ->
  let h := handle (self s) in
  let set_ := tlccs_setIntegrationTime host h (as_double v) (device s) in
  let get_ := tlccs_getIntegrationTime host h (snd set_) in
  let c1 := c_int32_value (fst set_) in
  let c2 := c_int32_value (fst (fst get_)) in
  let read_back := snd (fst get_) in
  let r := set_integration_time host v s in
  (c1 <> 0 ->
   result r = Raised (driver_error c1)
   /\ effects (events r) = [SetIntegrationTime h (as_double v)]
   /\ self (final r) = self s /\ device (final r) = snd set_)
  /\ (c1 = 0 -> c2 <> 0 ->
      result r = Raised (driver_error c2)
      /\ effects (events r) =
           [SetIntegrationTime h (as_double v); GetIntegrationTime h]
      /\ self (final r) = self s /\ device (final r) = snd get_)
  /\ (c1 = 0 -> c2 = 0 -> within_tolerance read_back v = false ->
      result r = Raised (AssertionError "" [])
      /\ self (final r) = set_integration_time_s read_back (self s)
      /\ device (final r) = snd get_).
Proof.
  intros Hnum Hrange h set_ get_ c1 c2 read_back r.
  destruct (set_integration_time_accepts host v s Hnum Hrange)
    as (He & Hr & Hs).
  pose proof (set_integration_time_device v s Hnum Hrange) as Hd.
  cbv zeta in Hd.
  fold h set_ get_ c1 c2 read_back r in He, Hr, Hs, Hd.
  split; [|split].
  - intros H1. apply Z.eqb_neq in H1. rewrite H1 in *. auto.
  - intros H1 H2. apply Z.eqb_neq in H2. rewrite H1, H2 in *. auto.
  - intros H1 H2 Htol. rewrite H1, H2, ?Htol in *. auto.
Qed.

End Setting.

(** The simulated instrument reading back 0.05 s more than it is given. *)
Lemma set_integration_time_does_not_roll_back_witness :
  let s := {| self := self (Sim.opened []);
              device := {| Sim.script := []; Sim.itime := 0.01;
                           Sim.offset := 0.05; Sim.code := 0 |} |} in
  let r := set_integration_time Sim.host (PyFloat 0.5) s in
  result r = Raised (AssertionError "" [])
  /\ self (final r)
     = set_integration_time_s (PrimFloat.add 0.5 0.05) (self s)
  /\ device (final r)
     = {| Sim.script := []; Sim.itime := 0.5; Sim.offset := 0.05;
          Sim.code := 0 |}.
Proof.
  exact (proj2 (proj2 (set_integration_time_does_not_roll_back Sim.host
                         (PyFloat 0.5)
                         {| self := self (Sim.opened []);
                            device := {| Sim.script := [];
                                         Sim.itime := 0.01;
                                         Sim.offset := 0.05;
                                         Sim.code := 0 |} |}
                         eq_refl eq_refl))
           eq_refl eq_refl eq_refl).
Defined.

(** ** One handle, one pace *)

Lemma Forall_effects (Q : event -> Prop) (l : list event) :
  (forall f a e, Q (Print f a e)) -> Forall Q (effects l) -> Forall Q l.
Proof.
  intros HQ. induction l as [|e l IH]; [constructor|].
  rewrite effects_cons.
  destruct e; cbn [is_print app]; intros H;
    try (inversion H; subst; constructor; auto);
    constructor; auto.
Qed.

Section Steady.

Context {D : Type} (host : Host D).

Lemma steady_get_status : framed routine steady (_get_status host).
Proof. unfold _get_status. frame. Qed.

Lemma steady_start_scan : framed routine steady (_start_scan host).
Proof. unfold _start_scan, dll_start_scan. frame. Qed.

#[local] Hint Resolve steady_get_status steady_start_scan : frames.

Lemma steady_wait_for_scan (fuel : nat) :
  framed routine steady (wait_for_scan host fuel).
Proof.
  induction fuel as [|fuel IH]; cbn [wait_for_scan]; frame.
Qed.

Lemma steady_eq (o o' : Spectrometer) :
  steady o' = steady o ->
  handle o' = handle o /\ integration_time_s o' = integration_time_s o
  /\ scan_data o' = scan_data o /\ wavelength_data o' = wavelength_data o.
Proof.
  unfold steady, setup. intros H. injection H. auto.
Qed.

(** Every round of the loop sleeps a tenth of the integration time stored
    at the start and queries the handle stored at the start. *)
Lemma wait_for_scan_paced (fuel : nat) (s : state D) :
  Forall (fun e => on_handle (handle (self s)) e
                   /\ paced (integration_time_s (self s)) e)
    (events (wait_for_scan host fuel s)).
Proof.
  revert s. induction fuel as [|fuel IH]; intros s.
  - destruct (status_scan_ready (self s)) eqn:Hready.
    + rewrite wait_for_scan_ready by assumption. constructor.
    + rewrite wait_for_scan_out_of_fuel by assumption. constructor.
  - destruct (status_scan_ready (self s)) eqn:Hready.
    + rewrite wait_for_scan_ready by assumption. constructor.
    + rewrite wait_for_scan_round by assumption.
      set (s1 := {| self := self s; device := _ |}).
      assert (Hdot : Forall (fun e => on_handle (handle (self s)) e
                                /\ paced (integration_time_s (self s)) e)
                       (if verbose (self s) then [Print "." [] ""] else []))
        by (destruct (verbose (self s)); repeat constructor).
      assert (Hq : Forall (fun e => on_handle (handle (self s)) e
                              /\ paced (integration_time_s (self s)) e)
                     (events (_get_status host s1))).
      { apply Forall_effects; [cbn; auto|].
        destruct (_get_status_exec host s1) as (_ & _ & _ & ->).
        repeat constructor. }
      destruct (fst (time_sleep host _ (device s))).
      { cbn [events]. apply Forall_app. split; [exact Hdot|].
        repeat constructor. }
      pose proof (proj1 (steady_get_status s1)) as Hsteady.
      apply steady_eq in Hsteady as (Hh & Ht & _).
      cbn [self s1] in Hh, Ht.
      specialize (IH (final (_get_status host s1))).
      rewrite Hh, Ht in IH.
      destruct (result (_get_status host s1)); cbn [events];
        apply Forall_app; (split; [exact Hdot|]);
        constructor; try (split; reflexivity);
        rewrite ?Forall_app; auto.
Qed.

Lemma get_spectrum_handle_and_pace (fuel : nat)
  (filename : option string) (s : state D) :
  let r := get_spectrum host fuel filename s in
  Forall (fun e => on_handle (handle (self s)) e
                   /\ paced (integration_time_s (self s)) e)
    (events r)
  /\ handle (self (final r)) = handle (self s)
  /\ integration_time_s (self (final r)) = integration_time_s (self s).
Proof.
  intros r.
  pose proof (get_spectrum_exec host fuel filename s) as H. cbv zeta in H.
  fold r in H.
  destruct (_get_status_exec host s) as (_ & _ & _ & Heq).
  pose proof (proj1 (steady_get_status s)) as Hq.
  set (s1 := final (_get_status host s)) in *.
  destruct (_start_scan_exec host s1) as (_ & Hss & _ & Hes).
  set (s2 := final (_start_scan host s1)) in *.
  pose proof (wait_for_scan_paced fuel s2) as Hpaced.
  pose proof (proj1 (steady_wait_for_scan fuel s2)) as Hw.
  set (s3 := final (wait_for_scan host fuel s2)) in *.
  pose proof (fetch_and_save_exec host (verbose (self s))
                (very_verbose (self s)) (name (self s)) filename s3) as Hfs.
  cbv zeta in Hfs.
  assert (H1 : steady (self s1) = steady (self s)) by exact Hq.
  assert (H2 : steady (self s2) = steady (self s)) by (now rewrite Hss).
  assert (H3 : steady (self s3) = steady (self s)) by (now rewrite Hw).
  apply steady_eq in H1 as (Hh1 & Ht1 & _).
  apply steady_eq in H2 as (Hh2 & Ht2 & _).
  apply steady_eq in H3 as (Hh3 & Ht3 & _).
  rewrite Hh1 in Hes. rewrite Hh2, Ht2 in Hpaced. rewrite Hh3 in Hfs.
  set (Q := fun e => on_handle (handle (self s)) e
                     /\ paced (integration_time_s (self s)) e) in *.
  assert (HQp : forall f a e, Q (Print f a e)) by (unfold Q; cbn; auto).
  assert (Hwt : Forall Q (effects (events (wait_for_scan host fuel s2)))).
  { unfold effects. rewrite Forall_forall in *. intros e He.
    apply filter_In in He as [He _]. auto. }
  assert (Hfe : Forall Q
                  (effects (events (fetch_and_save host (verbose (self s))
                     (very_verbose (self s)) (name (self s)) filename s3)))
                /\ handle (self (final (fetch_and_save host
                     (verbose (self s)) (very_verbose (self s))
                     (name (self s)) filename s3))) = handle (self s)
                /\ integration_time_s (self (final (fetch_and_save host
                     (verbose (self s)) (very_verbose (self s))
                     (name (self s)) filename s3)))
                   = integration_time_s (self s)).
  { destruct (_ =? 0).
    - destruct Hfs as (-> & Hfs).
      split; [|split; [exact Hh3|exact Ht3]].
      destruct filename as [filename_|].
      + cbv zeta in Hfs.
        destruct (fst (open_w host _ _)); destruct Hfs as (_ & ->).
        * repeat constructor.
        * constructor; [split; reflexivity|].
          constructor; [split; exact I|].
          apply Forall_app. split; [|repeat constructor].
          apply Forall_forall. intros e He.
          apply in_map_iff in He as (row & <- & _). split; exact I.
      + destruct Hfs as (_ & ->). repeat constructor.
    - destruct Hfs as (-> & _ & ->).
      split; [|split; [exact Hh3|exact Ht3]]. repeat constructor. }
  destruct Hfe as (Hfe & Hfh & Hft).
  assert (Hqe : Forall Q (effects (events (_get_status host s))))
    by (rewrite Heq; unfold Q; repeat constructor).
  assert (Hse : Forall Q (effects (events (_start_scan host s1))))
    by (rewrite Hes; unfold Q; repeat constructor).
  destruct (result (_get_status host s)) as [w| |];
    try (destruct H as (_ & -> & He); split; [|split; assumption];
         apply Forall_effects; [exact HQp|]; now rewrite He).
  destruct (status_idle_soft_trig (self s1));
    [|destruct H as (_ & -> & He); split; [|split; assumption];
      apply Forall_effects; [exact HQp|]; now rewrite He].
  destruct (result (_start_scan host s1));
    try (destruct H as (_ & -> & He); split; [|split; assumption];
         apply Forall_effects; [exact HQp|]; rewrite He;
         apply Forall_app; auto).
  destruct (result (wait_for_scan host fuel s2)) as [[]| |];
    try (destruct H as (_ & -> & He); split; [|split; assumption];
         apply Forall_effects; [exact HQp|]; rewrite He;
         rewrite !Forall_app; auto).
Qed.

(** X6: throughout [get_spectrum], whatever its outcome, every library call
    goes to the handle stored when it was called and every sleep lasts a
    tenth of the integration time stored when it was called; both are still
    stored unchanged when it ends. *)
Theorem get_spectrum_keeps_handle_and_pace (fuel : nat)
  (filename : option string) (s : state D) :
  let r := get_spectrum host fuel filename s in
  Forall (fun e => on_handle (handle (self s)) e
                   /\ paced (integration_time_s (self s)) e)
    (events r)
  /\ handle (self (final r)) = handle (self s)
  /\ integration_time_s (self (final r)) = integration_time_s (self s).
Proof. exact (get_spectrum_handle_and_pace fuel filename s). Qed.

End Steady.

Section One_handle.

Context {D : Type} (host : Host D).

Lemma bind_ret_events {A} (m : M D A) (s : state D) :
  events (bind m (fun _ => ret tt) s) = events (m s).
Proof.
  unfold bind, ret. destruct (m s) as [[a|e|] s1 evs1]; cbn [events];
    rewrite ?app_nil_r; reflexivity.
Qed.

Lemma plot_spectrum_no_library_call (xs ys : option (list float))
  (show : bool) (filename : option string) (spec : option Spectrometer) :
  framed (fun e => negb (is_dll_call e)) (fun o => o)
    (plot_spectrum host xs ys show filename spec).
Proof. unfold plot_spectrum. frame. Qed.

Lemma invoke_on_handle (m : method) (s : state D) :
  Forall (on_handle (handle (self s))) (events (invoke host m s)).
Proof.
  destruct m as [|v|fuel filename|xs ys show filename spec_bound|];
    cbn [invoke].
  - rewrite bind_ret_events. apply Forall_effects; [cbn; auto|].
    destruct (get_integration_time_exec host s) as (_ & _ & _ & ->).
    repeat constructor.
  - apply Forall_effects; [cbn; auto|].
    destruct (numeric v && in_range v) eqn:Hok.
    + apply andb_true_iff in Hok as [Hnum Hrange].
      destruct (set_integration_time_accepts host v s Hnum Hrange)
        as (-> & _).
      destruct (_ =? 0); repeat constructor.
    + destruct (set_integration_time_rejects host v s Hok) as (_ & _ & ->).
      constructor.
  - rewrite bind_ret_events.
    eapply Forall_impl;
      [|apply (get_spectrum_handle_and_pace host fuel filename s)].
    intros e [He _]. exact He.
  - unfold bind, attr.
    destruct (plot_spectrum_no_library_call xs ys show filename
                (if spec_bound then Some (self s) else None) s)
      as (_ & Hp).
    destruct (plot_spectrum host xs ys show filename _ s)
      as [r1 s1 evs1].
    cbn [events app] in *. rewrite forallb_forall in Hp.
    apply Forall_forall. intros e He. specialize (Hp e He).
    destruct e; cbn in *; try discriminate; exact I.
  - apply Forall_effects; [cbn; auto|].
    destruct (close_exec host s) as (_ & _ & _ & ->).
    repeat constructor.
Qed.

(** X7: the handle obtained at construction is the only one ever used.  In
    any client program every library call goes to the handle the object
    held at the start, also the calls made after [close()], and the object
    still holds that handle at the end: [close()] does not clear it and
    nothing refuses to use it afterwards. *)
Theorem every_call_uses_the_stored_handle (ms : list method)
  (s : state D) :
  Forall (on_handle (handle (self s))) (events (run host ms s))
  /\ handle (self (final (run host ms s))) = handle (self s)
  /\ (forall m,
         effects (events (run host [Close_; m] s)) =
           Close (handle (self s))
           :: effects (events (invoke host m
                                 {| self := self s;
                                    device := device
                                                (final (close host s)) |}))).
Proof.
  split; [|split].
  - revert s. induction ms as [|m ms IH]; intros s; [constructor|].
    cbn [run].
    pose proof (invoke_on_handle m s) as Hm.
    pose proof (proj1 (framed_invoke host m s)) as Hf.
    apply setup_eq in Hf as (Hh & _).
    destruct (invoke host m s) as [[[]|e|] s1 evs1];
      cbn [final events] in *; auto;
      specialize (IH s1); rewrite Hh in IH;
      destruct (run host ms s1) as [[os|e'|] s2 evs2];
      cbn [events] in *; apply Forall_app; auto.
  - destruct (framed_run host ms s) as (Hf & _).
    now apply setup_eq in Hf as (Hh & _).
  - intros m. cbn [run invoke].
    destruct (close_exec host s) as (Hr & Hs & _ & He).
    destruct (close host s) as [r1 [o1 d1] evs1].
    cbn [result final events self device] in *. subst o1.
    destruct (_ =? 0); subst r1;
      destruct (invoke host m _) as [[[]|e|] s2 evs2];
      cbn [events]; rewrite ?app_nil_r, ?effects_app, He; reflexivity.
Qed.

End One_handle.

(** ** Plotting *)

Section Plotting.

Context {D : Type} (host : Host D).

Lemma makes_calls_ret : makes_calls host (ret tt) [].
Proof. intros s. cbn. auto. Qed.

Lemma makes_calls_ret_bind {A} (a : A) (k : A -> M D unit)
  (cs : list plot_call) :
  makes_calls host (k a) cs -> makes_calls host (bind (ret a) k) cs.
Proof.
  intros Hk s. specialize (Hk s). cbv zeta in *.
  unfold bind, ret. destruct (k a s) as [r1 s1 evs1]. exact Hk.
Qed.

Lemma makes_calls_print_bind (f : string) (a : list pyval) (e : string)
  (k : unit -> M D unit) (cs : list plot_call) :
  makes_calls host (k tt) cs ->
  makes_calls host (bind (print_end f a e) k) cs.
Proof.
  intros Hk s. specialize (Hk s). cbv zeta in *.
  unfold bind, print_end, emit. destruct (k tt s) as [r1 s1 evs1].
  cbn [result final events app] in *. now rewrite effects_cons.
Qed.

Lemma makes_calls_when_print_bind (c : bool) (f : string) (a : list pyval)
  (k : unit -> M D unit) (cs : list plot_call) :
  makes_calls host (k tt) cs ->
  makes_calls host (bind (when c (print f a)) k) cs.
Proof.
  intros Hk. destruct c; cbn [when].
  - now apply makes_calls_print_bind.
  - now apply makes_calls_ret_bind.
Qed.

Lemma makes_calls_host_do_bind (c : plot_call) (k : unit -> M D unit)
  (cs : list plot_call) :
  makes_calls host (k tt) cs ->
  makes_calls host (bind (host_do (Pyplot c) (pyplot host c)) k) (c :: cs).
Proof.
  intros Hk s. cbv zeta.
  unfold host_do, emit, world, raise, ret. unfold bind. cbv beta iota.
  cbn [pyplot_calls].
  specialize (Hk {| self := self s;
                    device := snd (pyplot host c (device s)) |}).
  cbv zeta in Hk. cbn [self device] in Hk.
  destruct (pyplot host c (device s)) as [[x|] d'];
    cbn [result final events self device app fst snd map] in *.
  - auto.
  - destruct (k tt _) as [r1 s1 evs1].
    cbn [result final events fst snd map app] in *.
    destruct Hk as (-> & -> & -> & He).
    rewrite effects_cons, He. auto.
Qed.

Lemma bind_assoc {A B C} (m : M D A) (f : A -> M D B) (k : B -> M D C)
  (s : state D) :
  bind (bind m f) k s = bind m (fun x => bind (f x) k) s.
Proof.
  unfold bind. destruct (m s) as [[a|e|] s1 evs1]; try reflexivity.
  destruct (f a s1) as [[b|e|] s2 evs2]; try reflexivity.
  destruct (k b s2) as [r3 s3 evs3]. now rewrite app_assoc.
Qed.

Lemma makes_calls_assoc {A} (m : M D A) (f : A -> M D unit)
  (k : unit -> M D unit) (cs : list plot_call) :
  makes_calls host (bind m (fun x => bind (f x) k)) cs ->
  makes_calls host (bind (bind m f) k) cs.
Proof. intros H s. rewrite bind_assoc. apply H. Qed.

Lemma draw_makes_calls (verbose_ : bool) (name_ : string)
  (xs ys : list float) (show : bool) (filename : option string)
  (o : Spectrometer) :
  makes_calls host (draw host verbose_ name_ xs ys show filename (Some o))
    (Subplots :: figure_calls (integration_time_s o) xs ys show filename).
Proof.
  unfold draw, figure_calls. cbn [app].
  apply makes_calls_host_do_bind, makes_calls_ret_bind.
  do 4 apply makes_calls_host_do_bind.
  assert (Hlast : makes_calls host
                    (bind (host_do (Pyplot ClosePlot) (pyplot host ClosePlot))
                       (fun _ =>
                          bind (when verbose_
                                  (print "%s: -> done plotting spectrum."
                                     [PyStr name_]))
                            (fun _ => ret tt)))
                    [ClosePlot]).
  { apply makes_calls_host_do_bind, makes_calls_when_print_bind,
      makes_calls_ret. }
  assert (Hsave : makes_calls host
                    (bind match filename with
                          | Some filename_ =>
                              bind (when verbose_
                                      (print "%s: saving plot (%s)"
                                         [PyStr name_; PyStr filename_]))
                                (fun _ =>
                                   host_do (Pyplot (SaveFig filename_ 150))
                                     (pyplot host (SaveFig filename_ 150)))
                          | None => ret tt
                          end
                       (fun _ =>
                          bind (host_do (Pyplot ClosePlot)
                                  (pyplot host ClosePlot))
                            (fun _ =>
                               bind (when verbose_
                                       (print "%s: -> done plotting spectrum."
                                          [PyStr name_]))
                                 (fun _ => ret tt))))
                    (match filename with
                     | Some filename_ => [SaveFig filename_ 150]
                     | None => []
                     end ++ [ClosePlot])).
  { destruct filename as [filename_|]; cbn [app].
    - apply makes_calls_assoc, makes_calls_when_print_bind,
        makes_calls_host_do_bind, Hlast.
    - apply makes_calls_ret_bind, Hlast. }
  destruct show; cbn [when app].
  - apply makes_calls_assoc, makes_calls_when_print_bind,
      makes_calls_host_do_bind, Hsave.
  - apply makes_calls_ret_bind, Hsave.
Qed.

(** [plot_spectrum] up to [plt.subplots()]: the arrays are settled on, or
    the stored scan is missing. *)
Lemma plot_spectrum_settles (xs ys : option (list float)) (show : bool)
  (filename : option string) (spec : option Spectrometer) (s : state D) :
  match or_stored ys (scan_data (self s)) with
  | None =>
      result (plot_spectrum host xs ys show filename spec s)
      = Raised (AttributeError "scan_data")
      /\ final (plot_spectrum host xs ys show filename spec s) = s
      /\ effects (events (plot_spectrum host xs ys show filename spec s))
         = []
  | Some ys' =>
      let m := draw host (verbose (self s)) (name (self s))
                 (match xs with
                  | Some xs' => xs'
                  | None => wavelength_data (self s)
                  end) ys' show filename spec in
      result (plot_spectrum host xs ys show filename spec s)
      = result (m s)
      /\ final (plot_spectrum host xs ys show filename spec s)
         = final (m s)
      /\ effects (events (plot_spectrum host xs ys show filename spec s))
         = effects (events (m s))
  end.
Proof.
  change (plot_spectrum host xs ys show filename spec)
    with (verbose_ <- attr verbose ;;
          name_ <- attr name ;;
          when verbose_ (print "%s: plotting spectrum" [PyStr name_]) ;;
          xs_ <- match xs with
                 | None =>
                     when verbose_
                       (print "%s: (using last recorded wavelength data)"
                          [PyStr name_]) ;;
                     attr wavelength_data
                 | Some xs' => ret xs'
                 end ;;
          ys_ <- match ys with
                 | None =>
                     when verbose_
                       (print "%s: (using last recorded scan data)"
                          [PyStr name_]) ;;
                     attr_scan_data
                 | Some ys' => ret ys'
                 end ;;
          draw host verbose_ name_ xs_ ys_ show filename spec).
  unfold attr_scan_data, or_stored.
  unfold print, print_end, when, bind, ret, raise, attr, emit.
  destruct s as [o d].
  destruct xs as [xs'|], ys as [ys'|], (verbose o) eqn:Hv; mred;
    rewrite ?Hv; mred;
    try destruct (scan_data o); mred;
    try (destruct (draw host _ _ _ _ _ _ _ _) as [r1 s1 evs1]; mred);
    effs; auto.
Qed.

(** X8: what [plot_spectrum] does.  It never calls the library and never
    changes the object.  Without an array to plot (no [scan_data] argument
    and no scan stored) it raises [AttributeError] before any call into
    matplotlib.  Otherwise it creates the figure and then reads the
    integration time for the title from the module-level name [spec], not
    from the object it was called on: where [spec] is not bound the call
    ends in [NameError] with the figure created and never closed, and where
    it is bound the calls are the title with the integration time of that
    object, the two labels, the plot of the given or stored arrays, the
    window if asked for, the file at 150 dpi if named, and the closing of
    the figure, up to the first of them that raises. *)
Theorem plot_spectrum_draws_with_spec (xs ys : option (list float))
  (show : bool) (filename : option string) (spec : option Spectrometer)
  (s : state D) :
  let r := plot_spectrum host xs ys show filename spec s in
  self (final r) = self s
  /\ dll_calls (events r) = []
  /\ match or_stored ys (scan_data (self s)) with
     | None =>
         result r = Raised (AttributeError "scan_data")
         /\ effects (events r) = []
     | Some ys' =>
         let xs' := match xs with
                    | Some l => l
                    | None => wavelength_data (self s)
                    end in
         match spec with
         | None =>
             result r
             = match fst (pyplot host Subplots (device s)) with
               | Some x => Raised x
               | None => Raised (NameError "spec")
               end
             /\ effects (events r) = [Pyplot Subplots]
         | Some o =>
             let p := pyplot_calls host
                        (Subplots
                         :: figure_calls (integration_time_s o) xs' ys'
                              show filename)
                        (device s) in
             result r = match fst (fst p) with
                        | Some x => Raised x
                        | None => Returned tt
                        end
             /\ device (final r) = snd (fst p)
             /\ effects (events r) = map Pyplot (snd p)
         end
     end.
Proof.
  intros r. subst r.
  destruct (plot_spectrum_no_library_call host xs ys show filename spec s)
    as (Hs & Hl).
  split; [exact Hs|].
  split.
  { apply (filter_none (fun e => negb (is_dll_call e))); [|exact Hl].
    intros e He. now apply negb_true_iff in He. }
  pose proof (plot_spectrum_settles xs ys show filename spec s) as H.
  destruct (or_stored ys (scan_data (self s))) as [ys'|].
  - cbv zeta in *. destruct H as (-> & -> & ->).
    destruct spec as [o|].
    + destruct (draw_makes_calls (verbose (self s)) (name (self s))
                  match xs with
                  | Some l => l
                  | None => wavelength_data (self s)
                  end ys' show filename o s) as (Hr & _ & Hd & He).
      auto.
    + unfold draw. unfold host_do, emit, world, raise, ret. unfold bind.
      cbv beta iota.
      destruct (pyplot host Subplots (device s)) as [[x|] d'];
        cbn [result final events fst snd app]; auto.
  - destruct H as (-> & _ & ->). auto.
Qed.


End Plotting.

(** ** A scan that becomes ready *)

Section Ready.

Context {D : Type} (host : Host D).

Lemma wait_for_scan_reaches (n fuel : nat) (s : state D) (d' : D) :
  status_scan_ready (self s) = false ->
  ready_after host (handle (self s))
    (PrimFloat.div (integration_time_s (self s)) (float_of_int 10)) n
    (device s) = Some d' ->
  (n <= fuel)%nat ->
  result (wait_for_scan host fuel s) = Returned tt
  /\ device (final (wait_for_scan host fuel s)) = d'
  /\ steady (self (final (wait_for_scan host fuel s))) = steady (self s)
  /\ effects (events (wait_for_scan host fuel s))
     = polls (handle (self s)) (integration_time_s (self s)) n.
Proof.
  revert fuel s. induction n as [|k IH]; intros fuel s Hflag Hn Hle;
    [discriminate Hn|].
  destruct fuel as [|fuel]; [lia|].
  rewrite wait_for_scan_round by assumption.
  cbn [ready_after] in Hn. cbv zeta in Hn.
  set (t := PrimFloat.div (integration_time_s (self s)) (float_of_int 10))
    in *.
  destruct (fst (time_sleep host t (device s))); [discriminate Hn|].
  set (s1 := {| self := self s;
                device := snd (time_sleep host t (device s)) |}).
  destruct (_get_status_exec host s1) as (Hr & Hs & Hd & He).
  cbn [self device s1] in Hr, Hs, Hd, He.
  destruct (c_int32_value _ =? 0); [|discriminate Hn].
  rewrite Hr. cbn [result final events].
  assert (Hready : status_scan_ready (self (final (_get_status host s1)))
                   = Z.testbit
                       (snd (fst (tlccs_getDeviceStatus host
                                    (handle (self s))
                                    (snd (time_sleep host t (device s))))))
                       4).
  { rewrite Hs. cbn [decoded set_status_flags status_scan_ready].
    apply ready_bit. }
  destruct (Z.testbit _ 4).
  - destruct k; [|discriminate Hn]. injection Hn as <-.
    rewrite (wait_for_scan_ready host fuel _ Hready).
    cbn [result final events polls]. rewrite Hs, Hd.
    repeat split.
    effs. rewrite He, app_nil_r. now destruct (verbose (self s)).
  - assert (Hk : (k <= fuel)%nat) by lia.
    specialize (IH fuel (final (_get_status host s1)) Hready).
    rewrite Hs, Hd in IH.
    cbn [decoded set_status_flags set_status handle integration_time_s]
      in IH.
    specialize (IH Hn Hk). destruct IH as (IHr & IHd & IHs & IHe).
    rewrite IHr, IHd, IHs. repeat split.
    effs. rewrite He, IHe. cbn [polls]. fold t.
    now destruct (verbose (self s)).
Qed.

(** X9: a scan that becomes ready is fetched, after exactly the rounds it
    takes.  On an idle instrument whose scan starts, when the [n]-th round
    of sleeping and querying is the first to report the scan finished and
    the bound on the rounds is at least [n], [get_spectrum] makes exactly
    [n] rounds, fetches the scan once and returns the stored wavelengths
    with the fetched data (or raises with the code of the fetch). *)
Theorem get_spectrum_fetches_after_polls (n fuel : nat) (s : state D)
  (d' : D) :
  let h := handle (self s) in
  let out := tlccs_getDeviceStatus host h (device s) in
  let started := tlccs_startScan host h (snd out) in
  let t := PrimFloat.div (integration_time_s (self s)) (float_of_int 10) in
  let fetched := tlccs_getScanData host h d' in
  let r := get_spectrum host fuel None s in
  c_int32_value (fst (fst out)) = 0 ->
  Z.testbit (snd (fst out)) 1 = true ->
  Z.testbit (snd (fst out)) 4 = false ->
  c_int32_value (fst started) = 0 ->
  ready_after host h t n (snd started) = Some d' ->
  (n <= fuel)%nat ->
  effects (events r)
  = GetDeviceStatus h :: StartScan h
    :: polls h (integration_time_s (self s)) n ++ [GetScanData h]
  /\ result r =
       (if c_int32_value (fst (fst fetched)) =? 0 then
          Returned (Some (wavelength_data (self s),
                          c_double_array pixels (snd (fst fetched))))
        else Raised (driver_error (c_int32_value (fst (fst fetched))))).
Proof.
  intros h out started t fetched r Hc Hidle Hready Hstart Hn Hle.
  destruct (scan_started host s Hc Hidle)
    as (Hq & Hsoft & Heq & Hst & Hself & Hdev & Hes).
  fold h out started in Hq, Hsoft, Heq, Hst, Hself, Hdev, Hes.
  rewrite Hstart in Hst. cbn [Z.eqb] in Hst.
  pose proof (get_spectrum_exec host fuel None s) as H. cbv zeta in H.
  fold r in H. rewrite Hq, Hsoft, Hst in H.
  set (s2 := final (_start_scan host (final (_get_status host s)))) in *.
  assert (Hflag : status_scan_ready (self s2) = false).
  { rewrite Hself. cbn [decoded set_status_flags status_scan_ready].
    rewrite ready_bit. exact Hready. }
  destruct (wait_for_scan_reaches n fuel s2 d' Hflag) as (Hw & Hd & Hs & He);
    [|exact Hle|].
  { rewrite Hself, Hdev.
    cbn [decoded set_status_flags set_status handle integration_time_s].
    exact Hn. }
  rewrite Hw in H. destruct H as (Hr & _ & Hev).
  apply steady_eq in Hs as (Hh & _ & _ & Hwave).
  rewrite Hself in Hh, Hwave, He.
  cbn [decoded set_status_flags set_status handle wavelength_data
       integration_time_s] in Hh, Hwave, He.
  pose proof (fetch_and_save_exec host (verbose (self s))
                (very_verbose (self s)) (name (self s)) None
                (final (wait_for_scan host fuel s2))) as Hfs.
  cbv zeta in Hfs. rewrite Hh, Hd, Hwave in Hfs. fold h fetched in Hfs.
  rewrite Hr, Hev, Heq, Hes, He. fold h.
  destruct (c_int32_value (fst (fst fetched)) =? 0).
  - destruct Hfs as (_ & -> & ->). split; reflexivity.
  - destruct Hfs as (_ & -> & ->). split; reflexivity.
Qed.

End Ready.

(** The simulated instrument reporting the scan finished at the third
    round. *)
Lemma get_spectrum_fetches_after_polls_witness :
  effects (events (get_spectrum Sim.host 5 None (Sim.opened [2; 0; 0; 16])))
  = GetDeviceStatus 1 :: StartScan 1
    :: polls 1 (integration_time_s (self (Sim.opened [2; 0; 0; 16]))) 3
       ++ [GetScanData 1]
  /\ result (get_spectrum Sim.host 5 None (Sim.opened [2; 0; 0; 16]))
     = Returned
         (Some (wavelength_data (self (Sim.opened [2; 0; 0; 16])),
                c_double_array pixels
                  [0.5%float; 0.25%float; 0.125%float])).
Proof.
  apply (get_spectrum_fetches_after_polls Sim.host 3 5
           (Sim.opened [2; 0; 0; 16]) (Sim.device_with []));
    try reflexivity.
  lia.
Defined.

(** ** No bound on the rounds *)

Section Rounds.

Context {D : Type} (host : Host D).

Lemma scan_fetched_after (n fuel : nat) (s : state D)
  (d' : D) :
  let h := handle (self s) in
  let out := tlccs_getDeviceStatus host h (device s) in
  let started := tlccs_startScan host h (snd out) in
  let t := PrimFloat.div (integration_time_s (self s)) (float_of_int 10) in
  let fetched := tlccs_getScanData host h d' in
  let r := get_spectrum host fuel None s in
  c_int32_value (fst (fst out)) = 0 ->
  Z.testbit (snd (fst out)) 1 = true ->
  Z.testbit (snd (fst out)) 4 = false ->
  c_int32_value (fst started) = 0 ->
  ready_after host h t n (snd started) = Some d' ->
  (n <= fuel)%nat ->
  effects (events r)
  = GetDeviceStatus h :: StartScan h
    :: polls h (integration_time_s (self s)) n ++ [GetScanData h]
  /\ result r =
       (if c_int32_value (fst (fst fetched)) =? 0 then
          Returned (Some (wavelength_data (self s),
                          c_double_array pixels (snd (fst fetched))))
        else Raised (driver_error (c_int32_value (fst (fst fetched))))).
Proof.
  intros h out started t fetched r Hc Hidle Hready Hstart Hn Hle.
  destruct (scan_started host s Hc Hidle)
    as (Hq & Hsoft & Heq & Hst & Hself & Hdev & Hes).
  fold h out started in Hq, Hsoft, Heq, Hst, Hself, Hdev, Hes.
  rewrite Hstart in Hst. cbn [Z.eqb] in Hst.
  pose proof (get_spectrum_exec host fuel None s) as H. cbv zeta in H.
  fold r in H. rewrite Hq, Hsoft, Hst in H.
  set (s2 := final (_start_scan host (final (_get_status host s)))) in *.
  assert (Hflag : status_scan_ready (self s2) = false).
  { rewrite Hself. cbn [decoded set_status_flags status_scan_ready].
    rewrite ready_bit. exact Hready. }
  destruct (wait_for_scan_reaches host n fuel s2 d' Hflag)
    as (Hw & Hd & Hs & He);
    [|exact Hle|].
  { rewrite Hself, Hdev.
    cbn [decoded set_status_flags set_status handle integration_time_s].
    exact Hn. }
  rewrite Hw in H. destruct H as (Hr & _ & Hev).
  apply steady_eq in Hs as (Hh & _ & _ & Hwave).
  rewrite Hself in Hh, Hwave, He.
  cbn [decoded set_status_flags set_status handle wavelength_data
       integration_time_s] in Hh, Hwave, He.
  pose proof (fetch_and_save_exec host (verbose (self s))
                (very_verbose (self s)) (name (self s)) None
                (final (wait_for_scan host fuel s2))) as Hfs.
  cbv zeta in Hfs. rewrite Hh, Hd, Hwave in Hfs. fold h fetched in Hfs.
  rewrite Hr, Hev, Heq, Hes, He. fold h.
  destruct (c_int32_value (fst (fst fetched)) =? 0).
  - destruct Hfs as (_ & -> & ->). split; reflexivity.
  - destruct Hfs as (_ & -> & ->). split; reflexivity.
Qed.

End Rounds.

(** The simulated instrument whose status words after the start are [n]
    times 0 and then [0x0010] reports the scan finished at round [n + 1]
    and not before. *)
Lemma ready_after_script (h : Z) (t : float) (n : nat) (i o : float) :
  ready_after Sim.host h t (S n)
    {| Sim.script := repeat 0 n ++ [0x0010]; Sim.itime := i;
       Sim.offset := o; Sim.code := 0 |}
  = Some {| Sim.script := []; Sim.itime := i; Sim.offset := o;
            Sim.code := 0 |}.
Proof.
  induction n as [|n IH]; [reflexivity|].
  change (ready_after Sim.host h t (S (S n))
            {| Sim.script := repeat 0 (S n) ++ [0x0010]; Sim.itime := i;
               Sim.offset := o; Sim.code := 0 |})
    with (ready_after Sim.host h t (S n)
            {| Sim.script := repeat 0 n ++ [0x0010]; Sim.itime := i;
               Sim.offset := o; Sim.code := 0 |}).
  exact IH.
Qed.

(** X2: the waiting loop of [get_spectrum] has no bound of its own.  For
    every [n] there is an instrument, the simulated one that reports the
    scan finished only at its status query number [n + 1] after the start,
    on which [get_spectrum] makes exactly [n + 1] rounds of sleeping and
    querying the status and then fetches and returns the scan, provided the
    model allows that many rounds. *)
Theorem get_spectrum_waits_any_number_of_rounds (n fuel : nat)
  (o : Spectrometer) :
  (n < fuel)%nat ->
  let s := {| self := o;
              device := Sim.device_with
                          (0x0002 :: repeat 0 n ++ [0x0010]) |} in
  let r := get_spectrum Sim.host fuel None s in
  effects (events r)
  = GetDeviceStatus (handle o) :: StartScan (handle o)
    :: polls (handle o) (integration_time_s o) (S n)
    ++ [GetScanData (handle o)]
  /\ result r
     = Returned
         (Some (wavelength_data o,
                c_double_array pixels
                  [0.5%float; 0.25%float; 0.125%float])).
Proof.
  intros Hn s r.
  exact (scan_fetched_after Sim.host (S n) fuel s (Sim.device_with [])
           eq_refl eq_refl eq_refl eq_refl
           (ready_after_script (handle o)
              (PrimFloat.div (integration_time_s o) (float_of_int 10)) n
              0.01 0)
           Hn).
Qed.

(** Five rounds before the scan is ready. *)
Lemma get_spectrum_waits_any_number_of_rounds_witness :
  effects
    (events
       (get_spectrum Sim.host 6 None
          {| self := self (Sim.opened []);
             device := Sim.device_with
                         (0x0002 :: repeat 0 4 ++ [0x0010]) |}))
  = GetDeviceStatus (handle (self (Sim.opened [])))
    :: StartScan (handle (self (Sim.opened [])))
    :: polls (handle (self (Sim.opened [])))
         (integration_time_s (self (Sim.opened []))) 5
    ++ [GetScanData (handle (self (Sim.opened [])))]
  /\ result
       (get_spectrum Sim.host 6 None
          {| self := self (Sim.opened []);
             device := Sim.device_with
                         (0x0002 :: repeat 0 4 ++ [0x0010]) |})
     = Returned
         (Some (wavelength_data (self (Sim.opened [])),
                c_double_array pixels
                  [0.5%float; 0.25%float; 0.125%float])).
Proof.
  apply (get_spectrum_waits_any_number_of_rounds 4 6 (self (Sim.opened []))).
  lia.
Defined.

(** ** Verbosity *)

Section Printing.

Context {D : Type}.

Lemma only_prints_print (f : string) (a : list pyval) :
  only_prints (D := D) (print f a).
Proof. intros s. cbn. eauto. Qed.

Lemma only_prints_print_end (f : string) (a : list pyval) (e : string) :
  only_prints (D := D) (print_end f a e).
Proof. intros s. cbn. eauto. Qed.

Lemma only_prints_attr {A} (g : Spectrometer -> A) :
  only_prints (D := D) (attr g).
Proof. intros s. cbn. eauto. Qed.

Lemma only_prints_bind {A B} (m : M D A) (k : A -> M D B) :
  only_prints m -> (forall a, only_prints (k a)) -> only_prints (bind m k).
Proof.
  intros Hm Hk s. unfold bind. destruct (Hm s) as ((a & Hr) & Hf & He).
  destruct (m s) as [r1 s1 evs1]. cbn [result final events] in *.
  subst r1 s1. destruct (Hk a s) as ((b & Hr) & Hf & He').
  destruct (k a s) as [r2 s2 evs2]. cbn [result final events] in *.
  rewrite effects_app, He, He'. eauto.
Qed.

End Printing.

Ltac printing :=
  repeat first [ apply only_prints_print | apply only_prints_print_end
               | apply only_prints_attr
               | apply only_prints_bind; [|intros ?] ].

Section Verbosity.

Context {D : Type} (host : Host D) (v vv : bool).

Lemma blind_ret {A} (R : A -> A -> Prop) (a b : A) :
  R a b -> verbosity_blind (D := D) v vv R (ret a) (ret b).
Proof. intros H s. repeat split. exact H. Qed.

Lemma blind_raise {A} (R : A -> A -> Prop) (e : exn) :
  verbosity_blind (D := D) v vv R (raise e) (raise e).
Proof. intros s. repeat split. Qed.

Lemma blind_still_running {A} (R : A -> A -> Prop) :
  verbosity_blind (D := D) v vv R still_running still_running.
Proof. intros s. repeat split. Qed.

Lemma blind_attr {A} (R : A -> A -> Prop) (g : Spectrometer -> A) :
  (forall o, R (g o) (g (with_verbosity v vv o))) ->
  verbosity_blind (D := D) v vv R (attr g) (attr g).
Proof. intros H s. repeat split. apply H. Qed.

Lemma blind_assign (g : Spectrometer -> Spectrometer) :
  (forall o, g (with_verbosity v vv o) = with_verbosity v vv (g o)) ->
  verbosity_blind (D := D) v vv eq (assign g) (assign g).
Proof.
  intros H s. repeat split. cbn. unfold at_verbosity. cbn. now rewrite H.
Qed.

Lemma blind_emit (e : event) :
  verbosity_blind (D := D) v vv eq (emit e) (emit e).
Proof. intros s. repeat split. Qed.

Lemma blind_world {A} (g : D -> A * D) :
  verbosity_blind v vv eq (world g) (world g).
Proof. intros s. repeat split. Qed.

Lemma blind_bind {A B} (R : A -> A -> Prop) (Q : B -> B -> Prop)
  (m m' : M D A) (k k' : A -> M D B) :
  verbosity_blind v vv R m m' ->
  (forall a b, R a b -> verbosity_blind v vv Q (k a) (k' b)) ->
  verbosity_blind v vv Q (bind m k) (bind m' k').
Proof.
  intros Hm Hk s. unfold bind. specialize (Hm s). unfold agree in *.
  destruct (m s) as [[a|e|] s1 evs1],
    (m' (at_verbosity v vv s)) as [[b|e'|] s1' evs1'];
    cbn [result final events] in *; destruct Hm as (HR & Hf & He);
    try contradiction; auto.
  subst s1'. specialize (Hk a b HR s1). unfold agree in Hk.
  destruct (k a s1) as [r2 s2 evs2],
    (k' b (at_verbosity v vv s1)) as [r2' s2' evs2'].
  cbn [result final events] in *. destruct Hk as (HQ & Hf & He2).
  rewrite !effects_app, He, He2. auto.
Qed.

Lemma blind_prints (m m' : M D unit) :
  only_prints m -> only_prints m' -> verbosity_blind v vv eq m m'.
Proof.
  intros Hm Hm' s.
  destruct (Hm s) as (([] & Hr) & Hf & He).
  destruct (Hm' (at_verbosity v vv s)) as (([] & Hr') & Hf' & He').
  unfold agree. rewrite Hr, Hr', Hf, Hf', He, He'. auto.
Qed.

Lemma blind_when_prints (c c' : bool) (body body' : M D unit) :
  only_prints body -> only_prints body' ->
  verbosity_blind v vv eq (when c body) (when c' body').
Proof.
  intros Hb Hb'. apply blind_prints.
  - destruct c; [exact Hb|]. intros s. cbn. eauto.
  - destruct c'; [exact Hb'|]. intros s. cbn. eauto.
Qed.

Lemma blind_when (c : bool) (body body' : M D unit) :
  verbosity_blind v vv eq body body' ->
  verbosity_blind v vv eq (when c body) (when c body').
Proof.
  intros Hb. destruct c; [exact Hb|]. now apply blind_ret.
Qed.

Lemma blind_assert_msg (c : bool) (f : string) (a : list pyval) :
  verbosity_blind (D := D) v vv eq (assert_msg c f a) (assert_msg c f a).
Proof.
  destruct c; [now apply blind_ret|apply blind_raise].
Qed.

Lemma blind_check_error (c : Z) :
  verbosity_blind (D := D) v vv eq (check_error c) (check_error c).
Proof.
  intros s. rewrite !check_error_exec.
  destruct (c =? 0); repeat split.
Qed.

Lemma blind_foreign {A} (e : event) (g : D -> Z * A * D) :
  verbosity_blind v vv eq (foreign e g) (foreign e g).
Proof.
  intros s. rewrite !foreign_exec. cbv zeta. cbn [at_verbosity device].
  destruct (_ =? 0); repeat split.
Qed.

Lemma blind_host_do (e : event) (g : D -> option exn * D) :
  verbosity_blind v vv eq (host_do e g) (host_do e g).
Proof.
  unfold host_do.
  apply (blind_bind eq); [apply blind_emit|intros ? ? <-].
  apply (blind_bind eq); [apply blind_world|intros r ? <-].
  destruct r; [apply blind_raise|now apply blind_ret].
Qed.

End Verbosity.

Ltac blind_step :=
  lazymatch goal with
  | |- verbosity_blind _ _ _ (bind (attr verbose) _) _ =>
      apply (blind_bind _ _ (fun _ _ => True));
      [apply blind_attr; intros; exact I|intros ? ? _]
  | |- verbosity_blind _ _ _ (bind (attr very_verbose) _) _ =>
      apply (blind_bind _ _ (fun _ _ => True));
      [apply blind_attr; intros; exact I|intros ? ? _]
  | |- verbosity_blind _ _ _ (bind _ _) _ =>
      apply (blind_bind _ _ eq); [|intros ? ? <-]
  | |- verbosity_blind _ _ _ (ret _) _ => apply blind_ret; reflexivity
  | |- verbosity_blind _ _ _ (raise _) _ => apply blind_raise
  | |- verbosity_blind _ _ _ still_running _ => apply blind_still_running
  | |- verbosity_blind _ _ _ (when _ _) _ =>
      first [apply blind_when_prints; solve [printing] | apply blind_when]
  | |- verbosity_blind _ _ _ (print _ _) _ =>
      apply blind_prints; solve [printing]
  | |- verbosity_blind _ _ _ (print_end _ _ _) _ =>
      apply blind_prints; solve [printing]
  | |- verbosity_blind _ _ _ (emit _) _ => apply blind_emit
  | |- verbosity_blind _ _ _ (world _) _ => apply blind_world
  | |- verbosity_blind _ _ _ (assign _) _ =>
      apply blind_assign; intros; reflexivity
  | |- verbosity_blind _ _ _ (attr _) _ =>
      apply blind_attr; intros; reflexivity
  | |- verbosity_blind _ _ _ (assert_msg _ _ _) _ => apply blind_assert_msg
  | |- verbosity_blind _ _ _ (check_error _) _ => apply blind_check_error
  | |- verbosity_blind _ _ _ (host_do _ _) _ => apply blind_host_do
  | |- verbosity_blind _ _ _ (foreign _ _) _ => apply blind_foreign
  | |- verbosity_blind _ _ _ (if ?c then _ else _) _ => destruct c
  | |- verbosity_blind _ _ _ (match ?x with _ => _ end) _ => destruct x
  end.

Ltac blind :=
  unfold assert, attr_scan_data;
  repeat (blind_step || solve [auto with verbosity]).

Create HintDb verbosity.

Section Methods.

Context {D : Type} (host : Host D) (v vv : bool).

Lemma blind_get_device_info :
  verbosity_blind v vv eq (_get_device_info host) (_get_device_info host).
Proof. unfold _get_device_info, dll_get_device_info. blind. Qed.

Lemma blind_get_wavelength_data (user_calibration : bool) :
  verbosity_blind v vv eq (_get_wavelength_data host user_calibration)
    (_get_wavelength_data host user_calibration).
Proof. unfold _get_wavelength_data, dll_get_wavelength_data. blind. Qed.

Lemma blind_get_status :
  verbosity_blind v vv eq (_get_status host) (_get_status host).
Proof. unfold _get_status. blind. Qed.

Lemma blind_start_scan :
  verbosity_blind v vv eq (_start_scan host) (_start_scan host).
Proof. unfold _start_scan, dll_start_scan. blind. Qed.

Lemma blind_get_scan_data :
  verbosity_blind v vv eq (_get_scan_data host) (_get_scan_data host).
Proof. unfold _get_scan_data, dll_get_scan_data. blind. Qed.

Lemma blind_get_integration_time :
  verbosity_blind v vv eq (get_integration_time host)
    (get_integration_time host).
Proof. unfold get_integration_time, dll_get_integration_time. blind. Qed.

#[local] Hint Resolve blind_get_device_info blind_get_wavelength_data
  blind_get_status blind_start_scan blind_get_scan_data
  blind_get_integration_time : verbosity.

Lemma blind_set_integration_time (t : pyval) :
  verbosity_blind v vv eq (set_integration_time host t)
    (set_integration_time host t).
Proof. unfold set_integration_time, dll_set_integration_time. blind. Qed.

Lemma blind_wait_for_scan (fuel : nat) :
  verbosity_blind v vv eq (wait_for_scan host fuel) (wait_for_scan host fuel).
Proof. induction fuel as [|fuel IH]; cbn [wait_for_scan]; blind. Qed.

Lemma blind_write_lines (path : string) (rows : list (float * float)) :
  verbosity_blind v vv eq (write_lines host path rows)
    (write_lines host path rows).
Proof.
  induction rows as [|[wave data] rows IH]; cbn [write_lines]; blind.
Qed.

#[local] Hint Resolve blind_wait_for_scan blind_write_lines : verbosity.

Lemma blind_get_spectrum (fuel : nat) (filename : option string) :
  verbosity_blind v vv eq (get_spectrum host fuel filename)
    (get_spectrum host fuel filename).
Proof. unfold get_spectrum. blind. Qed.

Lemma blind_plot_spectrum (xs ys : option (list float)) (show : bool)
  (filename : option string) (spec spec' : option Spectrometer) :
  option_map integration_time_s spec' = option_map integration_time_s spec ->
  verbosity_blind v vv eq (plot_spectrum host xs ys show filename spec)
    (plot_spectrum host xs ys show filename spec').
Proof.
  intros Hspec. unfold plot_spectrum.
  destruct spec as [o|], spec' as [o'|]; try discriminate Hspec;
    [injection Hspec as Ht; rewrite Ht|]; blind.
Qed.

Lemma blind_close : verbosity_blind v vv eq (close host) (close host).
Proof. unfold close, dll_close. blind. Qed.

Lemma blind_init (serial_number : string) (reset : bool) :
  verbosity_blind v vv eq (__init__ host serial_number reset)
    (__init__ host serial_number reset).
Proof. unfold __init__. blind. Qed.

Lemma blind_invoke (m : method) :
  verbosity_blind v vv eq (invoke host m) (invoke host m).
Proof.
  destruct m as [|t|fuel filename|xs ys show filename spec_bound|];
    cbn [invoke].
  - apply (blind_bind _ _ eq); [apply blind_get_integration_time|].
    intros ? ? _. now apply blind_ret.
  - apply blind_set_integration_time.
  - apply (blind_bind _ _ eq); [apply blind_get_spectrum|].
    intros ? ? _. now apply blind_ret.
  - apply (blind_bind _ _
             (fun o o' => integration_time_s o' = integration_time_s o)).
    + apply blind_attr. reflexivity.
    + intros o o' Ht. apply blind_plot_spectrum.
      destruct spec_bound; cbn [option_map]; congruence.
  - apply blind_close.
Qed.

Lemma blind_run (ms : list method) (s : state D) :
  agree v vv eq (run host ms s) (run host ms (at_verbosity v vv s)).
Proof.
  revert s. induction ms as [|m ms IH]; intros s; [repeat split|].
  cbn [run]. pose proof (blind_invoke m s) as Hm. unfold agree in *.
  destruct (invoke host m s) as [[[]|e|] s1 evs1],
    (invoke host m (at_verbosity v vv s)) as [[[]|e'|] s1' evs1'];
    cbn [result final events] in *; destruct Hm as (HR & Hf & He);
    try contradiction; auto; subst;
    specialize (IH s1);
    destruct (run host ms s1) as [[os|x|] s2 evs2],
      (run host ms (at_verbosity v vv s1)) as [[os'|x'|] s2' evs2'];
    cbn [result final events] in *; destruct IH as (HR' & Hf' & He');
    try contradiction; subst; rewrite !effects_app, He, He'; auto.
Qed.

End Methods.

(** X10: the two verbosity flags change nothing but the printing.  Built
    with other values of [verbose] and [very_verbose], the object comes out
    of the constructor the same but for those two attributes, after the same
    calls and with the same outcome; and any client program run on an object
    that differs only in those two attributes has the same outcomes, makes
    the same library calls, sleeps, file operations and matplotlib calls in
    the same order, and leaves the instrument and the other attributes the
    same. *)
Theorem verbosity_changes_only_the_printing {D : Type} (host : Host D)
  (v vv : bool) :
  (forall serial_number name_ reset v0 vv0 d,
      let r := Spectrometer_ host serial_number name_ reset v0 vv0 d in
      let r' := Spectrometer_ host serial_number name_ reset v vv d in
      result r' = result r
      /\ effects (events r') = effects (events r)
      /\ device (final r') = device (final r)
      /\ self (final r') = with_verbosity v vv (self (final r)))
  /\ (forall ms s,
         let r := run host ms s in
         let r' := run host ms (at_verbosity v vv s) in
         result r' = result r
         /\ effects (events r') = effects (events r)
         /\ device (final r') = device (final r)
         /\ self (final r') = with_verbosity v vv (self (final r))).
Proof.
  split.
  - intros serial_number name_ reset v0 vv0 d r r'.
    pose proof (blind_init host v vv serial_number reset
                  {| self := new_Spectrometer name_ v0 vv0; device := d |})
      as H.
    change (agree v vv eq r r') in H. unfold agree in H.
    destruct (result r) as [[]|e|], (result r') as [[]|e'|];
      destruct H as (HR & -> & He); try contradiction; subst; auto.
  - intros ms s r r'. pose proof (blind_run host v vv ms s) as H.
    fold r r' in H. unfold agree in H.
    destruct (result r) as [os|e|], (result r') as [os'|e'|];
      destruct H as (HR & -> & He); try contradiction; subst; auto.
Qed.

(** ** Plotting the last scan *)

Section Last_scan.

Context {D : Type} (host : Host D).



End Last_scan.


(** ** A constructor that fails *)

Lemma is_ascii_app (a b : string) :
  is_ascii (a ++ b) = is_ascii a && is_ascii b.
Proof.
  induction a as [|c a IH]; [reflexivity|].
  cbn [String.append is_ascii]. rewrite IH. apply andb_assoc.
Qed.

Section Opening.

Context {D : Type} (host : Host D).

Lemma after_init_keeps_handle (verbose_ : bool) (name_ : string) :
  framed (fun _ => true) handle (after_init host verbose_ name_).
Proof.
  unfold after_init, _get_device_info, dll_get_device_info,
    _get_wavelength_data, dll_get_wavelength_data, _get_status,
    get_integration_time, dll_get_integration_time.
  frame.
Qed.

(** X12: how the constructor fails at its first steps.  A serial number
    with a character outside ASCII raises [UnicodeEncodeError] before any
    call into the library.  Otherwise the handle stored in the object is
    what the init call wrote, as a [c_uint32], whether or not the call
    succeeded and whatever happens afterwards; and when the init call
    returns a code other than zero the constructor raises with that code,
    having made that call alone. *)
Theorem construction_fails_at_init (serial_number name_ : string)
  (reset verbose_ very_verbose_ : bool) (d : D) :
  let resource :=
    ("USB0::0x1313::0x8081::" ++ serial_number ++ "::RAW")%string in
  let out := tlccs_init host resource true reset d in
  let c := c_int32_value (fst (fst out)) in
  let r := Spectrometer_ host serial_number name_ reset verbose_
             very_verbose_ d in
  (is_ascii serial_number = false ->
   result r = Raised UnicodeEncodeError
   /\ effects (events r) = [] /\ device (final r) = d)
  /\ (is_ascii serial_number = true ->
      handle (self (final r)) = c_uint32_value (snd (fst out))
      /\ (c <> 0 ->
          result r = Raised (driver_error c)
          /\ effects (events r) = [Init resource true reset]
          /\ device (final r) = snd out)).
Proof.
  intros resource out c r.
  assert (Hascii : is_ascii resource = is_ascii serial_number).
  { unfold resource. rewrite !is_ascii_app.
    change (is_ascii "USB0::0x1313::0x8081::") with true.
    change (is_ascii "::RAW") with true.
    now rewrite andb_true_r. }
  subst r. unfold Spectrometer_.
  change (__init__ host serial_number reset)
    with (verbose_' <- attr verbose ;;
          name_' <- attr name ;;
          when verbose_' (print "%s: opening..." [PyStr name_']) ;;
          (if is_ascii resource then ret tt else raise UnicodeEncodeError) ;;
          assign (set_handle 0) ;;
          emit (Init resource true reset) ;;
          r <- world (tlccs_init host resource true reset) ;;
          assign (set_handle (c_uint32_value (snd r))) ;;
          check_error (c_int32_value (fst r)) ;;
          after_init host verbose_' name_').
  rewrite Hascii. unfold new_Spectrometer. munfold. mred.
  split.
  - intros ->. destruct verbose_; mred; effs; auto.
  - intros ->.
    destruct verbose_; mred; fold out c; rewrite check_error_exec;
      (destruct (c =? 0) eqn:Hc; mred;
       [|effs; split; [reflexivity|]; intros _; auto]);
      match goal with
      | |- context [after_init host ?b ?n ?st] =>
          pose proof (proj1 (after_init_keeps_handle b n st)) as Hh;
          destruct (after_init host b n st) as [r1 s1 evs1]
      end; mred_all;
      (split; [exact Hh|]); intros Hne; apply Z.eqb_eq in Hc;
      contradiction.
Qed.

End Opening.

(** The simulated instrument answering the init call with code 7. *)
Lemma construction_fails_at_init_witness :
  handle (self (final (Spectrometer_ Sim.host "M00405433" "CCS100" true
                         true false
                         {| Sim.script := []; Sim.itime := 0.01;
                            Sim.offset := 0; Sim.code := 7 |}))) = 1
  /\ result (Spectrometer_ Sim.host "M00405433" "CCS100" true true false
               {| Sim.script := []; Sim.itime := 0.01; Sim.offset := 0;
                  Sim.code := 7 |})
     = Raised (driver_error 7)
  /\ effects (events (Spectrometer_ Sim.host "M00405433" "CCS100" true
                        true false
                        {| Sim.script := []; Sim.itime := 0.01;
                           Sim.offset := 0; Sim.code := 7 |}))
     = [Init "USB0::0x1313::0x8081::M00405433::RAW" true true]
  /\ device (final (Spectrometer_ Sim.host "M00405433" "CCS100" true true
                      false
                      {| Sim.script := []; Sim.itime := 0.01;
                         Sim.offset := 0; Sim.code := 7 |}))
     = {| Sim.script := []; Sim.itime := 0.01; Sim.offset := 0;
          Sim.code := 7 |}.
Proof.
  destruct (proj2 (construction_fails_at_init Sim.host "M00405433"
                     "CCS100" true true false
                     {| Sim.script := []; Sim.itime := 0.01;
                        Sim.offset := 0; Sim.code := 7 |})
              eq_refl) as (Hh & Hfail).
  split; [exact Hh|]. apply Hfail. vm_compute. discriminate.
Defined.

(** ** The identification strings *)

Lemma until_nul_spec (s : string) :
  (String.length (until_nul s) <= String.length s)%nat
  /\ nul_free (until_nul s) = true
  /\ String.prefix (until_nul s) s = true.
Proof.
  induction s as [|c s (IHl & IHn & IHp)];
    [cbn; split; [lia|split; reflexivity]|].
  cbn [until_nul]. destruct (Ascii.eqb c Ascii.zero) eqn:Hc.
  - cbn. split; [lia|split; reflexivity].
  - cbn [String.length nul_free String.prefix]. rewrite Hc, IHn.
    destruct (ascii_dec c c); [|contradiction].
    split; [lia|split; [reflexivity|exact IHp]].
Qed.

Lemma string_firstn_spec (n : nat) (s : string) :
  (String.length (string_firstn n s) <= n)%nat
  /\ String.prefix (string_firstn n s) s = true.
Proof.
  revert s. induction n as [|n IH]; intros s; [split; [cbn; lia|]|].
  - now destruct s.
  - destruct s as [|c s]; [split; [cbn; lia|reflexivity]|].
    cbn [string_firstn String.length String.prefix].
    destruct (IH s) as (Hl & Hp).
    destruct (ascii_dec c c); [|contradiction]. split; [lia|exact Hp].
Qed.

Lemma prefix_trans (a b c : string) :
  String.prefix a b = true -> String.prefix b c = true ->
  String.prefix a c = true.
Proof.
  revert b c. induction a as [|x a IH]; intros b c; [now destruct c|].
  destruct b as [|y b]; [discriminate|]. destruct c as [|z c];
    [intros _ H; cbn in H; discriminate|].
  cbn [String.prefix].
  destruct (ascii_dec x y) as [->|]; [|discriminate].
  destruct (ascii_dec y z) as [->|]; [|discriminate].
  apply IH.
Qed.

Lemma c_char_array_value_spec (n : nat) (written : string) :
  (String.length (c_char_array_value n written) <= n)%nat
  /\ nul_free (c_char_array_value n written) = true
  /\ String.prefix (c_char_array_value n written) written = true.
Proof.
  unfold c_char_array_value.
  destruct (until_nul_spec (string_firstn n written)) as (Hl & Hn & Hp).
  destruct (string_firstn_spec n written) as (Hl' & Hp').
  split; [lia|]. split; [exact Hn|].
  exact (prefix_trans _ _ _ Hp Hp').
Qed.

Section Identification.

Context {D : Type} (host : Host D).

(** X13: the identification strings.  [_get_device_info] makes the
    identification query once.  When the library returns code zero and the
    five values are ASCII, the method returns them and stores them as
    [device_info]: five strings, each the text of its buffer up to the first
    NUL, at most 256 characters long.  When a value holds a byte outside
    ASCII the method raises [UnicodeDecodeError] and assigns nothing, and so
    it does, with the library's code, when the query fails. *)
Theorem device_info_strings (s : state D) :
  let h := handle (self s) in
  let out := tlccs_identificationQuery host h (device s) in
  let c := c_int32_value (fst (fst out)) in
  let values := map (c_char_array_value 256) (five (snd (fst out))) in
  let r := _get_device_info host s in
  effects (events r) = [IdentificationQuery h]
  /\ result r =
       (if c =? 0 then
          if forallb is_ascii values then Returned values
          else Raised UnicodeDecodeError
        else Raised (driver_error c))
  /\ self (final r) =
       (if (c =? 0) && forallb is_ascii values
        then set_device_info values (self s) else self s)
  /\ List.length values = 5%nat
  /\ Forall2 (fun value written =>
                (String.length value <= 256)%nat
                /\ nul_free value = true
                /\ String.prefix value written = true)
       values (five (snd (fst out))).
Proof.
  intros h out c values r. subst r.
  assert (Hvalues : List.length values = 5%nat
                    /\ Forall2 (fun value written =>
                                  (String.length value <= 256)%nat
                                  /\ nul_free value = true
                                  /\ String.prefix value written = true)
                         values (five (snd (fst out)))).
  { subst values. destruct (snd (fst out)) as [[[[b0 b1] b2] b3] b4].
    cbn [five map]. split; [reflexivity|].
    repeat (apply Forall2_cons; [apply c_char_array_value_spec|]).
    apply Forall2_nil. }
  unfold _get_device_info, dll_get_device_info. munfold. mred.
  destruct (verbose (self s)); mred; rewrite foreign_exec; cbv zeta; mred;
    fold h out c; (destruct (c =? 0); mred; [|effs; auto]);
    fold values; (destruct (forallb is_ascii values); mred; effs; auto).
Qed.

End Identification.

(** ** The order of the calls in a scan *)

Section Protocol.

Context {D : Type} (host : Host D).




End Protocol.

(** ** What each method writes *)

Lemma object_eq (o o' : Spectrometer) :
  setup o' = setup o -> scan_state o' = scan_state o ->
  integration_time_s o' = integration_time_s o -> o' = o.
Proof.
  unfold setup, scan_state. intros H1 H2 H3.
  injection H1 as Hn Hv Hvv Hh Hi Hw Hlo Hhi.
  injection H2 as Hs Hsoft Hext Hstart Hprog Hready Hscan.
  destruct o as [n v vv h i w lo hi st soft ext start prog ready scan t],
    o' as [n' v' vv' h' i' w' lo' hi' st' soft' ext' start' prog' ready'
             scan' t'].
  cbn [name verbose very_verbose handle device_info wavelength_data
       wavelength_min wavelength_max status status_idle_soft_trig
       status_idle_ext_trig status_scan_starting status_scan_in_progress
       status_scan_ready scan_data integration_time_s] in *.
  now subst.
Qed.

Section Writes.

Context {D : Type} (host : Host D).

Lemma get_integration_time_keeps_scan :
  framed (fun _ => true) scan_state (get_integration_time host).
Proof. unfold get_integration_time, dll_get_integration_time. frame. Qed.

#[local] Hint Resolve get_integration_time_keeps_scan : frames.

Lemma set_integration_time_keeps_scan (v : pyval) :
  framed (fun _ => true) scan_state (set_integration_time host v).
Proof. unfold set_integration_time, dll_set_integration_time. frame. Qed.

Lemma plot_spectrum_keeps_object (xs ys : option (list float))
  (show : bool) (filename : option string) (spec : option Spectrometer) :
  framed (fun _ => true) (fun o => o)
    (plot_spectrum host xs ys show filename spec).
Proof. unfold plot_spectrum. frame. Qed.

Lemma close_keeps_object : framed (fun _ => true) (fun o => o) (close host).
Proof. unfold close, dll_close. frame. Qed.

(** Attributes that every call of a program leaves alone are the same at
    its end. *)
Lemma run_keeps {B} (f : Spectrometer -> B) (p : method -> bool) :
  (forall m s, p m = false ->
               f (self (final (invoke host m s))) = f (self s)) ->
  forall ms s,
    existsb p ms = false ->
    f (self (final (run host ms s))) = f (self s).
Proof.
  intros Hm ms. induction ms as [|m ms IH]; intros s Hp; [reflexivity|].
  cbn [existsb] in Hp. apply orb_false_iff in Hp as [Hpm Hpms].
  cbn [run]. specialize (Hm m s Hpm).
  destruct (invoke host m s) as [[[]|e|] s1 evs1]; cbn [final] in *; auto;
    specialize (IH s1 Hpms);
    destruct (run host ms s1) as [[os|e'|] s2 evs2]; cbn [final] in *;
    congruence.
Qed.

Lemma invoke_keeps_scan (m : method) (s : state D) :
  is_GetSpectrum_ m = false ->
  scan_state (self (final (invoke host m s))) = scan_state (self s).
Proof.
  destruct m as [|v|fuel filename|xs ys show filename spec_bound|];
    cbn [invoke is_GetSpectrum_]; intros Hm; try discriminate Hm.
  - assert (H : framed (fun _ => true) scan_state
                  (bind (get_integration_time host) (fun _ => ret tt)))
      by frame.
    apply H.
  - apply set_integration_time_keeps_scan.
  - assert (H : framed (fun _ => true) scan_state
                  (bind (attr (fun o => o))
                     (fun o => plot_spectrum host xs ys show filename
                                 (if spec_bound then Some o else None)))).
    { apply framed_bind; [apply framed_attr|]. intros o.
      unfold plot_spectrum. frame. }
    apply H.
  - assert (H : framed (fun _ => true) scan_state (close host))
      by (unfold close, dll_close; frame).
    apply H.
Qed.

Lemma invoke_keeps_integration_time (m : method) (s : state D) :
  is_integration_time_call m = false ->
  integration_time_s (self (final (invoke host m s)))
  = integration_time_s (self s).
Proof.
  destruct m as [|v|fuel filename|xs ys show filename spec_bound|];
    cbn [invoke is_integration_time_call]; intros Hm; try discriminate Hm.
  - rewrite <- (proj2 (proj2 (get_spectrum_handle_and_pace host fuel
                                filename s))).
    unfold bind, ret.
    destruct (get_spectrum host fuel filename s) as [[a|e|] s1 evs1];
      reflexivity.
  - assert (H : framed (fun _ => true) integration_time_s
                  (bind (attr (fun o => o))
                     (fun o => plot_spectrum host xs ys show filename
                                 (if spec_bound then Some o else None)))).
    { apply framed_bind; [apply framed_attr|]. intros o.
      unfold plot_spectrum. frame. }
    apply H.
  - assert (H : framed (fun _ => true) integration_time_s (close host))
      by (unfold close, dll_close; frame).
    apply H.
Qed.

(** X15: what a client program can change in the object.  Only
    [get_spectrum] writes the status word, the five status flags and the
    stored scan: a program without it leaves them as they were, so reading
    or setting the integration time keeps the scan fetched before.  Only
    [get_integration_time] and [set_integration_time] write
    [integration_time_s].  A program of [plot_spectrum] and [close] calls
    alone leaves the whole object as it was. *)
Theorem methods_write_only_their_own_attributes (ms : list method)
  (s : state D) :
  let o' := self (final (run host ms s)) in
  (existsb is_GetSpectrum_ ms = false -> scan_state o' = scan_state (self s))
  /\ (existsb is_integration_time_call ms = false ->
      integration_time_s o' = integration_time_s (self s))
  /\ (existsb is_GetSpectrum_ ms = false ->
      existsb is_integration_time_call ms = false ->
      o' = self s).
Proof.
  intros o'. subst o'.
  pose proof (run_keeps scan_state is_GetSpectrum_ invoke_keeps_scan ms s)
    as Hscan.
  pose proof (run_keeps integration_time_s is_integration_time_call
                invoke_keeps_integration_time ms s) as Htime.
  split; [exact Hscan|]. split; [exact Htime|].
  intros H1 H2.
  apply object_eq;
    [exact (proj1 (framed_run host ms s))|exact (Hscan H1)|exact (Htime H2)].
Qed.

End Writes.

(** On the simulated instrument: setting the integration time after a
    scan keeps the scan. *)
Lemma methods_write_only_their_own_attributes_witness :
  scan_state
    (self (final (run Sim.host [SetIntegrationTime_ (PyFloat 0.5); Close_]
                    (final (get_spectrum Sim.host 2 None
                              (Sim.opened [2; 16]))))))
  = scan_state
      (self (final (get_spectrum Sim.host 2 None (Sim.opened [2; 16])))).
Proof.
  exact (proj1 (methods_write_only_their_own_attributes Sim.host
                  [SetIntegrationTime_ (PyFloat 0.5); Close_]
                  (final (get_spectrum Sim.host 2 None
                            (Sim.opened [2; 16]))))
           eq_refl).
Defined.
